(** * Forecast application (app.py): a shallow embedding and its properties

    The program is one Streamlit script.  It reads an uploaded CSV file into
    a pandas data frame, lets the user pick a date column and a target
    column, converts the date column with [pd.to_datetime(.., dayfirst=True)],
    projects, renames and sorts the two columns, checks that the target is
    numeric, fits a Prophet model, predicts three month starts ahead,
    restricts the forecast to the window
    [last - 5 months, last + 3 months] and exports it.

    The script itself is embedded in [Module App].  The pandas and Prophet
    operations it calls are embedded in the modules before it, each one
    after the behaviour of the library function the script invokes
    (pandas 1.x, the series the script is written against: it still calls
    [ExcelWriter.save]).  Numerical fitting, plotting, the spreadsheet
    writer, the parsing of texts other than delimited dates and the sort
    of numpy are not computed there: their outcomes are inputs of a run.
    For the sort, [Module Numpy] has the quicksort of the numpy of that
    series, with which the sample runs are evaluated. *)

From Stdlib Require Import ZArith QArith List String Ascii Bool Lia.
From Stdlib Require Import Permutation Sorted.
Import ListNotations.

Local Open Scope string_scope.
Local Open Scope list_scope.
Local Open Scope Z_scope.

(* ================================================================== *)
(** ** Python exceptions and fallible results *)

(** The exceptions that the modelled operations raise.  Each carries what
    the library puts in its message. *)
Inductive Exn : Type :=
| KeyError (key : string)
| ValueError (msg : string)
| TypeError (msg : string)
| NameError (name : string)
| DateParseError (position : nat) (value : string)
| OutOfBoundsDatetime
| RuntimeError (msg : string).

Inductive result (A : Type) : Type :=
| Ok (a : A)
| Raise (e : Exn).
Arguments Ok {A} a.
Arguments Raise {A} e.

Definition rbind {A B} (r : result A) (k : A -> result B) : result B :=
  match r with
  | Ok a => k a
  | Raise e => Raise e
  end.

Declare Scope result_scope.
Delimit Scope result_scope with result.
Notation "'let?' x ':=' r 'in' k" := (rbind r (fun x => k))
  (at level 10, x name, r at level 100, k at level 200) : result_scope.
Local Open Scope result_scope.

Definition is_ok {A} (r : result A) : bool :=
  match r with Ok _ => true | Raise _ => false end.

(* ================================================================== *)
(** ** Calendar dates and timestamps *)

Module Calendar.

Record Date : Type := mkDate { year : Z; month : Z; day : Z }.

Definition is_leap (y : Z) : bool :=
  ((y mod 4 =? 0) && negb (y mod 100 =? 0)) || (y mod 400 =? 0).

(** [calendar.monthrange(year, month)[1]] *)
Definition days_in_month (y m : Z) : Z :=
  if m =? 2 then (if is_leap y then 29 else 28)
  else if (m =? 4) || (m =? 6) || (m =? 9) || (m =? 11) then 30
  else 31.

Definition valid_date (d : Date) : bool :=
  (1 <=? month d) && (month d <=? 12) &&
  (1 <=? day d) && (day d <=? days_in_month (year d) (month d)).

(** Number of the month counted from year 0: the scale on which
    "n calendar months apart" is measured. *)
Definition month_index (d : Date) : Z := year d * 12 + (month d - 1).

Definition date_compare (a b : Date) : comparison :=
  match year a ?= year b with
  | Eq => match month a ?= month b with
          | Eq => day a ?= day b
          | c => c
          end
  | c => c
  end.

(** A pandas [Timestamp]: a calendar date and the time of day in
    nanoseconds. *)
Record Timestamp : Type := mkTs { ts_date : Date; ts_nanos : Z }.

Definition nanos_per_day : Z := 86400 * 1000000000.

Definition midnight (d : Date) : Timestamp := mkTs d 0.

Definition ts_compare (a b : Timestamp) : comparison :=
  match date_compare (ts_date a) (ts_date b) with
  | Eq => ts_nanos a ?= ts_nanos b
  | c => c
  end.

Definition ts_leb (a b : Timestamp) : bool :=
  match ts_compare a b with Gt => false | _ => true end.
Definition ts_ltb (a b : Timestamp) : bool :=
  match ts_compare a b with Lt => true | _ => false end.
Definition ts_eqb (a b : Timestamp) : bool :=
  match ts_compare a b with Eq => true | _ => false end.

(** [Timestamp.min] and [Timestamp.max]: the range of a 64-bit count of
    nanoseconds around 1970-01-01. *)
Definition Timestamp_min : Timestamp :=
  mkTs (mkDate 1677 9 21) 763145224193.
Definition Timestamp_max : Timestamp :=
  mkTs (mkDate 2262 4 11) 85636854775807.

Definition in_bounds (t : Timestamp) : bool :=
  ts_leb Timestamp_min t && ts_leb t Timestamp_max.

Definition valid_ts (t : Timestamp) : bool :=
  valid_date (ts_date t) && (0 <=? ts_nanos t) && (ts_nanos t <? nanos_per_day)
  && in_bounds t.

(** [Timestamp(datetime)] and [Timestamp(value)]: a date and time outside
    the representable range raises [OutOfBoundsDatetime]. *)
Definition to_timestamp (d : Date) (nanos : Z) : result Timestamp :=
  let t := mkTs d nanos in
  if in_bounds t then Ok t else Raise OutOfBoundsDatetime.

(** [dt + relativedelta(months=n)] for [-11 <= n <= 11], as dateutil
    computes it: the month is moved, the year carried, and the day is cut
    down to the length of the month reached. *)
Definition add_months (d : Date) (months : Z) : Date :=
  let m0 := month d + months in
  let y := if 12 <? m0 then year d + 1
           else if m0 <? 1 then year d - 1 else year d in
  let m := if 12 <? m0 then m0 - 12
           else if m0 <? 1 then m0 + 12 else m0 in
  mkDate y m (Z.min (days_in_month y m) (day d)).

(** A [DateOffset] of months applied to a timestamp.  The relativedelta
    is added to the [datetime] of the timestamp, which has no nanoseconds
    ([to_pydatetime]); the sum is made a [Timestamp], which checks the
    bounds; the nanoseconds left out are then added back to its value,
    which checks them again. *)
Definition DateOffset_apply (t : Timestamp) (months : Z) : result Timestamp :=
  let nano := ts_nanos t mod 1000 in
  let? r := to_timestamp (add_months (ts_date t) months) (ts_nanos t - nano) in
  if nano =? 0 then Ok r else to_timestamp (ts_date r) (ts_nanos r + nano).

(** [ts + pd.DateOffset(months=n)] and [ts - pd.DateOffset(months=n)]
    (the second is [ts + (-offset)]). *)
Definition DateOffset_add (t : Timestamp) (months : Z) : result Timestamp :=
  DateOffset_apply t months.
Definition DateOffset_sub (t : Timestamp) (months : Z) : result Timestamp :=
  DateOffset_apply t (- months).

(** The date a number of days after 1970-01-01 (the civil calendar behind
    an integer count of nanoseconds). *)
Definition civil_from_days (z : Z) : Date :=
  let z := z + 719468 in
  let era := z / 146097 in
  let doe := z - era * 146097 in
  let yoe := (doe - doe / 1460 + doe / 36524 - doe / 146096) / 365 in
  let doy := doe - (365 * yoe + yoe / 4 - yoe / 100) in
  let mp := (5 * doy + 2) / 153 in
  let d := doy - (153 * mp + 2) / 5 + 1 in
  let m := if mp <? 10 then mp + 3 else mp - 9 in
  let y := yoe + era * 400 in
  mkDate (if m <=? 2 then y + 1 else y) m d.

(** The timestamp [n] nanoseconds after 1970-01-01T00:00. *)
Definition of_epoch_nanos (n : Z) : Timestamp :=
  mkTs (civil_from_days (n / nanos_per_day)) (n mod nanos_per_day).

(** *** Month-start cadence ([freq='MS'], the offset [MonthBegin]) *)

Definition is_on_offset (t : Timestamp) : bool := day (ts_date t) =? 1.

(** First day of the month after the one of [d]. *)
Definition next_month_start (d : Date) : Date :=
  if month d =? 12 then mkDate (year d + 1) 1 1
  else mkDate (year d) (month d + 1) 1.

(** [t + MonthBegin(1)]: the first month start strictly after the date,
    with the time of day kept. *)
Definition MonthBegin_next (t : Timestamp) : Timestamp :=
  mkTs (next_month_start (ts_date t)) (ts_nanos t).

Definition rollforward (t : Timestamp) : Timestamp :=
  if is_on_offset t then t else MonthBegin_next t.

Fixpoint generate_range (cur : Timestamp) (periods : nat) : list Timestamp :=
  match periods with
  | O => []
  | S p => cur :: generate_range (MonthBegin_next cur) p
  end.

(** [pd.date_range(start=start, periods=periods, freq='MS')] *)
Definition date_range_MS (start : Timestamp) (periods : nat)
  : result (list Timestamp) :=
  let dates := generate_range (rollforward start) periods in
  if forallb in_bounds dates then Ok dates else Raise OutOfBoundsDatetime.

End Calendar.

(* ================================================================== *)
(** ** Dates as text: [strftime('%d/%m/%Y')] and pandas' delimited-date
       parser *)

Module DateText.
Import Calendar.

Definition is_digit (c : ascii) : bool :=
  (48 <=? nat_of_ascii c)%nat && (nat_of_ascii c <=? 57)%nat.

Definition digit_char (d : Z) : ascii := ascii_of_nat (48 + Z.to_nat d).

(** [%d] and [%m]: two digits, zero padded. *)
Definition pad2 (n : Z) : string :=
  String (digit_char (n / 10)) (String (digit_char (n mod 10)) "").

(** Decimal digits of a non-negative number, most significant first. *)
Fixpoint decimal_acc (fuel : nat) (n : Z) (acc : string) : string :=
  match fuel with
  | O => acc
  | S f =>
      let acc' := String (digit_char (n mod 10)) acc in
      if n <? 10 then acc' else decimal_acc f (n / 10) acc'
  end.

(** [%Y]: the year in decimal (four digits for every year a [Timestamp]
    can hold). *)
Definition decimal (n : Z) : string :=
  decimal_acc (S (Z.to_nat (Z.log2 n))) n "".

(** [ts.strftime('%d/%m/%Y')] *)
Definition strftime_dmY (t : Timestamp) : string :=
  let d := ts_date t in
  (pad2 (day d) ++ "/" ++ pad2 (month d) ++ "/" ++ decimal (year d))%string.

(** *** [_parse_delimited_date] of pandas/_libs/tslibs/parsing.pyx *)

Definition char_at (s : string) (i : nat) : ascii :=
  match String.get i s with
  | Some c => c
  | None => zero
  end.

(** [" /-."] *)
Definition is_delimiter (c : ascii) : bool :=
  Ascii.eqb c " " || Ascii.eqb c "/" || Ascii.eqb c "-" || Ascii.eqb c ".".

Definition getdigit_ascii (c : ascii) (default : Z) : Z :=
  if is_digit c then Z.of_nat (nat_of_ascii c) - 48 else default.

Definition parse_1digit (s : string) (i : nat) : Z :=
  getdigit_ascii (char_at s i) (-10) * 1.

Definition parse_2digit (s : string) (i : nat) : Z :=
  getdigit_ascii (char_at s i) (-10) * 10
  + getdigit_ascii (char_at s (i + 1)) (-100) * 1.

Definition parse_4digit (s : string) (i : nat) : Z :=
  getdigit_ascii (char_at s i) (-10) * 1000
  + getdigit_ascii (char_at s (i + 1)) (-10) * 100
  + getdigit_ascii (char_at s (i + 2)) (-10) * 10
  + getdigit_ascii (char_at s (i + 3)) (-10000) * 1.

(** What the fast path answers: the text has none of its shapes
    ([return None, None]), it has one but names no date (an exception),
    or it names a date. *)
Inductive Delimited : Type :=
| NoMatch
| InvalidDate
| DateOf (d : Date).

(** The fields as the fast path first reads them: the first number as the
    month, the second as the day. *)
Record Fields : Type :=
  mkFields { f_month : Z; f_day : Z; f_year : Z; can_swap : bool }.

Definition read_fields (s : string) : option Fields :=
  let length := String.length s in
  if (length =? 10)%nat && is_delimiter (char_at s 2)
     && is_delimiter (char_at s 5) then
    Some (mkFields (parse_2digit s 0) (parse_2digit s 3) (parse_4digit s 6) true)
  else if (length =? 9)%nat && is_delimiter (char_at s 1)
          && is_delimiter (char_at s 4) then
    Some (mkFields (parse_1digit s 0) (parse_2digit s 2) (parse_4digit s 5) true)
  else if (length =? 9)%nat && is_delimiter (char_at s 2)
          && is_delimiter (char_at s 4) then
    Some (mkFields (parse_2digit s 0) (parse_1digit s 3) (parse_4digit s 5) true)
  else if (length =? 8)%nat && is_delimiter (char_at s 1)
          && is_delimiter (char_at s 3) then
    Some (mkFields (parse_1digit s 0) (parse_1digit s 2) (parse_4digit s 4) true)
  else if (length =? 7)%nat && is_delimiter (char_at s 2) then
    if Ascii.eqb (char_at s 2) "." then None
    else Some (mkFields (parse_2digit s 0) 1 (parse_4digit s 3) false)
  else None.

Definition MAX_DAYS_IN_MONTH : Z := 31.
Definition MAX_MONTH : Z := 12.

Definition parse_delimited_date (s : string) (dayfirst : bool) : Delimited :=
  match read_fields s with
  | None => NoMatch
  | Some f =>
      let month := f_month f in
      let day := f_day f in
      let year := f_year f in
      if (month <? 0) || (day <? 0) || (year <? 1000) then NoMatch
      else if (1 <=? month) && (month <=? MAX_DAYS_IN_MONTH)
              && (1 <=? day) && (day <=? MAX_DAYS_IN_MONTH)
              && ((month <=? MAX_MONTH) || (day <=? MAX_MONTH)) then
        let swap := ((MAX_MONTH <? month) || ((day <=? MAX_MONTH) && dayfirst))
                    && can_swap f in
        let d := if swap then mkDate year day month else mkDate year month day in
(* datetime(year, month, day) refuses a day the month does not have *)
if valid_date d then DateOf d else InvalidDate
else InvalidDate
end.

End DateText.

(* ================================================================== *)
(** ** The library operations whose results are not computed here *)

Module Export Oracles.
Import Calendar.

(** One point of a Prophet forecast besides its date. *)
Record Prediction : Type :=
  mkPrediction { p_yhat : Q; p_yhat_lower : Q; p_yhat_upper : Q }.

Record Libs : Type := mkLibs {
(** the parsers that pandas goes through for a text which the
    delimited-date fast path does not recognise (ISO 8601, the words
    [today] and [now], month and quarter abbreviations, then dateutil
    with [dayfirst=True]); [None] when the text is refused *)
du_parse : string -> option Timestamp;
(** numpy's [argsort(kind='quicksort')] of a column of timestamps
    without [NaT] *)
argsort : list Timestamp -> list nat;
(** the Stan optimisation of [Prophet.fit] on the training rows *)
stan_fit : list (Timestamp * Q) -> result unit;
(** the fitted model evaluated at a date *)
predict_at : list (Timestamp * Q) -> Timestamp -> Prediction;
(** [to_excel] through xlsxwriter; the bytes of the workbook *)
to_excel : list (string * Prediction) -> result string;
(** [model.plot] and [model.plot_components]; [Some e] when they raise *)
plot_raises : option Exn;
plot_components_raises : option Exn
}.
End Oracles.

(* ================================================================== *)
(** ** pandas: columns and data frames *)

Module Pandas.
Import Calendar DateText.

(** A float64 that is not NaN: a number or an infinity.  A number is
    modelled by the rational it stands for; the rounding of float64 is not
    modelled. *)
Inductive Float : Type :=
| Finite (q : Q)
| Infinity (negative : bool).

(** The ranges of int64 and uint64. *)
Definition INT64_MIN : Z := - 2 ^ 63.
Definition INT64_MAX : Z := 2 ^ 63 - 1.
Definition UINT64_MAX : Z := 2 ^ 64 - 1.

(** A field of the CSV file as the reader classifies it: a missing value
    (an empty field or one of the words of [na_values]), the digits of an
    integer of any size, a float, a boolean word, or any other text.  A
    field keeps its spelling. *)
Inductive Cell : Type :=
| NA
| IntLit (text : string) (z : Z)
| FloatLit (text : string) (f : Float)
| BoolLit (text : string) (b : bool)
| Text (text : string).

(** An entry of an [object] column. *)
Inductive PyObj : Type :=
| PyStr (s : string)
| PyBool (b : bool)
| PyNaN.

(** A column with its dtype.  [None] is [NaN] in a float column and
    [NaT] in a datetime column.  The entries of an [Int64] column lie
    within int64, those of a [UInt64] column within uint64. *)
Inductive Column : Type :=
| Int64 (l : list Z)
| UInt64 (l : list Z)
| Float64 (l : list (option Float))
| BoolCol (l : list bool)
| Object (l : list PyObj)
| Datetime64 (l : list (option Timestamp)).

(** Labelled columns in order; a label may occur more than once. *)
Definition DataFrame : Type := list (string * Column).

Definition col_length (c : Column) : nat :=
  match c with
  | Int64 l => List.length l
  | UInt64 l => List.length l
  | Float64 l => List.length l
  | BoolCol l => List.length l
  | Object l => List.length l
  | Datetime64 l => List.length l
  end.

(** *** [read_csv]: the dtype of a column *)

Definition is_number_or_na (c : Cell) : bool :=
  match c with NA | IntLit _ _ | FloatLit _ _ => true | _ => false end.
Definition is_bool (c : Cell) : bool :=
  match c with BoolLit _ _ => true | _ => false end.
Definition is_bool_or_na (c : Cell) : bool :=
  match c with NA | BoolLit _ _ => true | _ => false end.

Definition int_value (c : Cell) : Z :=
  match c with IntLit _ z => z | _ => 0 end.
Definition float_value (c : Cell) : option Float :=
  match c with
  | IntLit _ z => Some (Finite (inject_Z z))
  | FloatLit _ f => Some f
  | _ => None
  end.
Definition bool_value (c : Cell) : bool :=
  match c with BoolLit _ b => b | _ => false end.
Definition bool_object (c : Cell) : PyObj :=
  match c with BoolLit _ b => PyBool b | _ => PyNaN end.
Definition str_object (c : Cell) : PyObj :=
  match c with
  | NA => PyNaN
  | IntLit s _ | FloatLit s _ | BoolLit s _ | Text s => PyStr s
  end.

Definition is_na (c : Cell) : bool :=
  match c with NA => true | _ => false end.

Definition token (c : Cell) : string :=
  match c with
  | NA => ""
  | IntLit s _ | FloatLit s _ | BoolLit s _ | Text s => s
  end.

(** What an attempt at an integer dtype answers: the column is of the
    dtype, a field is an integer out of its range ([OverflowError]), the
    fields are in conflict ([ValueError]), or a field is not an integer. *)
Inductive Attempt : Type :=
| Parsed
| Overflow
| Conflict
| Invalid.

(** [_try_int64]: missing values are passed over; the first field that is
    not an int64 decides. *)
Fixpoint try_int64 (cells : list Cell) : Attempt :=
  match cells with
  | [] => Parsed
  | NA :: rest => try_int64 rest
  | IntLit _ z :: rest =>
      if (INT64_MIN <=? z) && (z <=? INT64_MAX) then try_int64 rest else Overflow
  | _ :: _ => Invalid
  end.

Definition isspace_ascii (c : ascii) : bool :=
  Ascii.eqb c " " || ((9 <=? nat_of_ascii c)%nat && (nat_of_ascii c <=? 13)%nat).

Fixpoint skip_spaces (s : string) : string :=
  match s with
  | String c rest => if isspace_ascii c then skip_spaces rest else s
  | EmptyString => s
  end.

(** [str_to_uint64] stops at a minus sign: it notes that a signed number
    was seen and reads no further. *)
Definition minus_sign (s : string) : bool :=
  match skip_spaces s with
  | String c _ => Ascii.eqb c "-"
  | EmptyString => false
  end.

(** [_try_uint64], which the reader calls when [_try_int64] overflowed.
    Integers above the range of int64 ([seen_uint]) go neither with signed
    numbers ([seen_sint]) nor with missing values ([seen_null]). *)
Fixpoint try_uint64 (cells : list Cell) (seen_sint seen_uint seen_null : bool)
  : Attempt :=
  match cells with
  | [] =>
      if seen_uint && (seen_sint || seen_null) then Conflict
      else if seen_sint then Overflow
      else Parsed
  | NA :: rest => try_uint64 rest seen_sint seen_uint true
  | c :: rest =>
      if minus_sign (token c) then try_uint64 rest true seen_uint seen_null
      else match c with
           | IntLit _ z =>
               if UINT64_MAX <? z then Overflow
               else try_uint64 rest seen_sint (seen_uint || (INT64_MAX <? z)) seen_null
           | _ => Invalid
           end
  end.

(** After the integers the reader tries float64, then bool, and keeps the
    text otherwise. *)
Definition infer_non_integer (cells : list Cell) : Column :=
  if forallb is_number_or_na cells then Float64 (map float_value cells)
  else if forallb is_bool cells then BoolCol (map bool_value cells)
  else if forallb is_bool_or_na cells then Object (map bool_object cells)
  else Object (map str_object cells).

(** The dtype the reader infers for a column ([_convert_tokens] with the
    cast order int64, float64, bool, object).  An overflow or a conflict
    of the unsigned attempt leaves the fields as they are, as texts.  A
    column without rows is [object]. *)
Definition infer_column (cells : list Cell) : Column :=
  match cells with
  | [] => Object []
  | _ =>
      match try_int64 cells with
      | Parsed =>
          if existsb is_na cells then infer_non_integer cells
          else Int64 (map int_value cells)
      | Overflow =>
          match try_uint64 cells false false false with
          | Parsed => UInt64 (map int_value cells)
          | Invalid => infer_non_integer cells
          | Overflow | Conflict => Object (map str_object cells)
          end
      | Conflict | Invalid => infer_non_integer cells
      end
  end.

(** [pd.read_csv] on a file that parses: the labels of the columns as
    pandas gives them (it makes repeated names of the header distinct) and
    the fields of each column. *)
Definition read_csv (raw : list (string * list Cell)) : DataFrame :=
  map (fun '(name, cells) => (name, infer_column cells)) raw.

(** *** Labels *)

(** [df.columns.tolist()] *)
Definition columns (df : DataFrame) : list string := map fst df.

(** All the columns under a label. *)
Definition loc (df : DataFrame) (key : string) : list Column :=
  map snd (filter (fun p => String.eqb (fst p) key) df).

(** [df[key]] for a label that names one column.  (Under a repeated label
    pandas answers a frame instead of a column.  That case is outside
    this model: the labels [read_csv] gives are distinct, and line 48
    either raises or yields one column [ds] and one column [y], see
    [FrameFacts.prepare_same] and [FrameFacts.prepare_distinct].) *)
Definition getitem (df : DataFrame) (key : string) : result Column :=
  match loc df key with
  | [] => Raise (KeyError key)
  | [c] => Ok c
  | _ => Raise (ValueError "label is not unique")
  end.

(** [df[key] = col]: the column under the label is replaced where it
    stands, a new label is appended. *)
Definition setitem (df : DataFrame) (key : string) (col : Column) : DataFrame :=
  if existsb (String.eqb key) (columns df)
  then map (fun p => if String.eqb (fst p) key then (key, col) else p) df
  else df ++ [(key, col)].

(** The display of a list of labels, ['a', 'b'] (for labels that Python
    writes between single quotes without escapes). *)
Definition py_repr (s : string) : string := ("'" ++ s ++ "'")%string.

Fixpoint join (sep : string) (l : list string) : string :=
  match l with
  | [] => ""
  | [x] => x
  | x :: rest => (x ++ sep ++ join sep rest)%string
  end.

Definition list_repr (l : list string) : string :=
  ("[" ++ join ", " (map py_repr l) ++ "]")%string.

(** The distinct labels, each at its first place. *)
Fixpoint distinct (l : list string) : list string :=
  match l with
  | [] => []
  | x :: rest => x :: filter (fun y => negb (String.eqb x y)) (distinct rest)
  end.

(** [df[[k1, ..., kn]]]: for each label in turn, the columns under it.
    Labels that the frame does not have raise [KeyError], with one message
    when none of the labels is found and another when some are. *)
Definition getitem_list (df : DataFrame) (keys : list string) : result DataFrame :=
  let missing :=
    filter (fun k => negb (existsb (String.eqb k) (columns df))) keys in
  match missing with
  | [] => Ok (flat_map (fun k => filter (fun p => String.eqb (fst p) k) df) keys)
  | _ =>
      if (List.length missing =? List.length keys)%nat then
        Raise (KeyError ("None of [Index(" ++ list_repr keys
                         ++ ", dtype='object')] are in the [columns]"))
      else Raise (KeyError (list_repr (distinct missing) ++ " not in index"))
  end.

(** A Python [dict] with string keys and its display [{k1: v1, ...}]: a
    later entry for a key replaces the earlier one. *)
Definition dict : Type := list (string * string).

Fixpoint dict_set (d : dict) (k v : string) : dict :=
  match d with
  | [] => [(k, v)]
  | (k', v') :: d' =>
      if String.eqb k' k then (k, v) :: d' else (k', v') :: dict_set d' k v
  end.

Definition dict_display (entries : list (string * string)) : dict :=
  fold_left (fun d kv => dict_set d (fst kv) (snd kv)) entries [].

Fixpoint dict_get (d : dict) (k : string) : option string :=
  match d with
  | [] => None
  | (k', v) :: d' => if String.eqb k' k then Some v else dict_get d' k
  end.

(** [df.rename(columns=mapper)] *)
Definition rename (df : DataFrame) (mapper : dict) : DataFrame :=
  map (fun p => (match dict_get mapper (fst p) with
                 | Some new => new
                 | None => fst p
                 end, snd p)) df.

(** *** Rows *)

(** [l[indexer]] *)
Definition take {A} (indexer : list nat) (l : list A) : list A :=
  flat_map (fun i => match nth_error l i with
                     | Some x => [x]
                     | None => []
                     end) indexer.

Definition take_column (indexer : list nat) (c : Column) : Column :=
  match c with
  | Int64 l => Int64 (take indexer l)
  | UInt64 l => UInt64 (take indexer l)
  | Float64 l => Float64 (take indexer l)
  | BoolCol l => BoolCol (take indexer l)
  | Object l => Object (take indexer l)
  | Datetime64 l => Datetime64 (take indexer l)
  end.

Definition take_rows (indexer : list nat) (df : DataFrame) : DataFrame :=
  map (fun p => (fst p, take_column indexer (snd p))) df.

(** [df.head()] *)
Definition head_column (c : Column) : Column :=
  match c with
  | Int64 l => Int64 (firstn 5 l)
  | UInt64 l => UInt64 (firstn 5 l)
  | Float64 l => Float64 (firstn 5 l)
  | BoolCol l => BoolCol (firstn 5 l)
  | Object l => Object (firstn 5 l)
  | Datetime64 l => Datetime64 (firstn 5 l)
  end.
Definition head (df : DataFrame) : DataFrame :=
  map (fun p => (fst p, head_column (snd p))) df.

(** Positions of the entries that are not missing, and of those that
    are. *)
Fixpoint positions {A} (keep : A -> bool) (l : list A) (i : nat) : list nat :=
  match l with
  | [] => []
  | x :: l' => if keep x then i :: positions keep l' (S i)
               else positions keep l' (S i)
  end.

Definition is_some {A} (o : option A) : bool :=
  match o with Some _ => true | None => false end.

Fixpoint somes {A} (l : list (option A)) : list A :=
  match l with
  | [] => []
  | Some x :: l' => x :: somes l'
  | None :: l' => somes l'
  end.

Section Sorting.
Variable libs : Libs.

(** [nargsort(items, kind='quicksort', ascending=True,
    na_position='last')]: the entries that are not [NaT] are sorted
    by numpy, the [NaT] ones follow in their order. *)
Definition nargsort (items : list (option Timestamp)) : list nat :=
  let non_nan_idx := positions is_some items 0 in
  let nan_idx := positions (fun o => negb (is_some o)) items 0 in
  take (argsort libs (somes items)) non_nan_idx ++ nan_idx.

(** [df.sort_values(by)] with the default [kind='quicksort'].  The
    script sorts by its datetime column only (see
    [FrameFacts.prepare_distinct]); a key of another dtype is outside
    this model. *)
Definition sort_values (df : DataFrame) (by_ : string) : result DataFrame :=
  match loc df by_ with
  | [] => Raise (KeyError by_)
  | [Datetime64 items] => Ok (take_rows (nargsort items) df)
  | [_] => Raise (TypeError "sort key is not a datetime column")
  | _ => Raise (ValueError "The column label is not unique.")
  end.
End Sorting.

(** *** dtypes and conversions *)

(** [pd.api.types.is_numeric_dtype]: the integer, float and bool dtypes
    are numeric; [object] and [datetime64] are not. *)
Definition is_numeric_dtype (c : Column) : bool :=
  match c with
  | Int64 _ | UInt64 _ | Float64 _ | BoolCol _ => true
  | Object _ | Datetime64 _ => false
  end.

(** An int64 read as nanoseconds since 1970-01-01; the least int64 is
    [NaT]. *)
Definition epoch_to_datetime (n : Z) : option Timestamp :=
  if n =? INT64_MIN then None else Some (of_epoch_nanos n).

(** An entry of a uint64 column: beyond int64 it overflows the count of
    nanoseconds, which pandas reports as out of bounds. *)
Definition uint_to_datetime (n : Z) : result (option Timestamp) :=
  if INT64_MAX <? n then Raise OutOfBoundsDatetime
  else Ok (epoch_to_datetime n).

Definition Qtruncate (q : Q) : Z := Z.quot (Qnum q) (Zpos (Qden q)).

(** An entry of a float column, cast to [datetime64[ns]]: the fraction is
    dropped; NaN, the infinities and the numbers without int64 are
    [NaT]. *)
Definition float_to_datetime (o : option Float) : option Timestamp :=
  match o with
  | Some (Finite q) =>
      let n := Qtruncate q in
      if (INT64_MIN <=? n) && (n <=? INT64_MAX) then epoch_to_datetime n else None
  | _ => None
  end.

(** The texts that stand for [NaT]: the empty text and [nat_strings]. *)
Definition nat_strings : list string := ["NaT"; "nat"; "NAT"; "nan"; "NaN"; "NAN"].

Definition is_nat_string (s : string) : bool :=
  (String.length s =? 0)%nat || existsb (String.eqb s) nat_strings.

Section ToDatetime.
Variable libs : Libs.
Variable dayfirst : bool.

(** [parse_datetime_string]: the delimited-date fast path, then the
    general parser. *)
Definition parse_datetime_string (s : string) : option Timestamp :=
  match parse_delimited_date s dayfirst with
  | DateOf d => Some (midnight d)
  | InvalidDate => None
  | NoMatch => du_parse libs s
  end.

(** One entry of an object column, at row [position]. *)
Definition convert_object (position : nat) (o : PyObj)
  : result (option Timestamp) :=
  match o with
  | PyNaN => Ok None
  | PyBool _ => Raise (TypeError "<class 'bool'> is not convertible to datetime")
  | PyStr s =>
      if is_nat_string s then Ok None
      else
        match parse_datetime_string s with
        | None => Raise (DateParseError position s)
        | Some t =>
            if in_bounds t then Ok (Some t) else Raise OutOfBoundsDatetime
        end
  end.

Fixpoint convert_objects (position : nat) (l : list PyObj)
  : result (list (option Timestamp)) :=
  match l with
  | [] => Ok []
  | o :: l' =>
      let? t := convert_object position o in
      let? ts := convert_objects (S position) l' in
      Ok (t :: ts)
  end.

Fixpoint convert_all {A} (f : A -> result (option Timestamp)) (l : list A)
  : result (list (option Timestamp)) :=
  match l with
  | [] => Ok []
  | x :: l' =>
      let? t := f x in
      let? ts := convert_all f l' in
      Ok (t :: ts)
  end.

(** [pd.to_datetime(column, dayfirst=dayfirst)]: integers and floats
    count nanoseconds since 1970-01-01, texts are parsed one by one. *)
Definition to_datetime_items (c : Column) : result (list (option Timestamp)) :=
  match c with
  | Datetime64 l => Ok l
  | Int64 l => Ok (map epoch_to_datetime l)
  | UInt64 l => convert_all uint_to_datetime l
  | Float64 l => Ok (map float_to_datetime l)
  | BoolCol _ =>
      Raise (TypeError "dtype bool cannot be converted to datetime64[ns]")
  | Object l => convert_objects 0 l
  end.

Definition to_datetime (c : Column) : result Column :=
  let? items := to_datetime_items c in Ok (Datetime64 items).
End ToDatetime.

(** [series.max()]: the greatest entry that is not [NaT]; [NaT] when
    there is none. *)
Definition ts_max (a b : Timestamp) : Timestamp := if ts_leb a b then b else a.

Definition max (items : list (option Timestamp)) : option Timestamp :=
  match somes items with
  | [] => None
  | t :: ts => Some (fold_left ts_max ts t)
  end.

(** Comparison of a timestamp with a bound that may be [NaT]: false
    against [NaT]. *)
Definition ge (t : Timestamp) (bound : option Timestamp) : bool :=
  match bound with Some b => ts_leb b t | None => false end.
Definition le (t : Timestamp) (bound : option Timestamp) : bool :=
  match bound with Some b => ts_leb t b | None => false end.

End Pandas.

(* ================================================================== *)
(** ** Prophet: [fit], [make_future_dataframe], [predict] *)

Module Prophet.
Import Calendar Pandas.

(** A row of the forecast frame (of its columns the script reads [ds],
    [yhat], [yhat_lower] and [yhat_upper]). *)
Record ForecastRecord : Type :=
  mkRecord { ds : Timestamp; prediction : Prediction }.

(** The fitted model: the dates kept for [make_future_dataframe] and the
    training rows. *)
Record Model : Type :=
  mkModel { history_dates : list (option Timestamp);
            history : list (Timestamp * Q) }.

Definition has_column (df : DataFrame) (key : string) : bool :=
  existsb (String.eqb key) (columns df).

(** [series.notnull()] *)
Definition is_nan (o : PyObj) : bool :=
  match o with PyNaN => true | _ => false end.
Definition notnull (c : Column) : list bool :=
  match c with
  | Int64 l => map (fun _ => true) l
  | UInt64 l => map (fun _ => true) l
  | Float64 l => map is_some l
  | BoolCol l => map (fun _ => true) l
  | Object l => map (fun o => negb (is_nan o)) l
  | Datetime64 l => map is_some l
  end.

(** [l[mask]] *)
Fixpoint select {A} (mask : list bool) (l : list A) : list A :=
  match mask, l with
  | true :: mask', x :: l' => x :: select mask' l'
  | false :: mask', _ :: l' => select mask' l'
  | _, _ => []
  end.

Definition is_infinite (o : option Float) : bool :=
  match o with Some (Infinity _) => true | _ => false end.

Definition finite_value (o : option Float) : option Q :=
  match o with Some (Finite q) => Some q | _ => None end.

(** [df['y'] = pd.to_numeric(df['y'])] and the check of
    [setup_dataframe] that follows it, which refuses an infinite value:
    the values as numbers.  The script hands over a column of a numeric
    dtype only; the other dtypes are outside this model. *)
Definition to_numeric (c : Column) : result (list (option Q)) :=
  match c with
  | Int64 l => Ok (map (fun z => Some (inject_Z z)) l)
  | UInt64 l => Ok (map (fun z => Some (inject_Z z)) l)
  | Float64 l =>
      if existsb is_infinite l then Raise (ValueError "Found infinity in column y.")
      else Ok (map finite_value l)
  | BoolCol l => Ok (map (fun b : bool => Some (if b then 1%Q else 0%Q)) l)
  | Object _ => Raise (ValueError "Unable to parse string")
  | Datetime64 _ => Raise (TypeError "Invalid object type")
  end.

(** [series.unique()]: the distinct entries, each at its first place. *)
Fixpoint unique (l : list Timestamp) : list Timestamp :=
  match l with
  | [] => []
  | t :: l' => t :: filter (fun u => negb (ts_eqb t u)) (unique l')
  end.

Fixpoint insert_sorted (t : Timestamp) (l : list Timestamp) : list Timestamp :=
  match l with
  | [] => [t]
  | u :: l' => if ts_leb t u then t :: l else u :: insert_sorted t l'
  end.

(** Ascending order of timestamps. *)
Definition sort_ts (l : list Timestamp) : list Timestamp :=
  fold_right insert_sorted [] l.

(** [pd.to_datetime(pd.Series(df['ds'].unique())).sort_values()]: the
    distinct dates in ascending order, [NaT] last when there is one. *)
Definition unique_sorted (items : list (option Timestamp))
  : list (option Timestamp) :=
  map Some (sort_ts (unique (somes items)))
  ++ (if forallb is_some items then [] else [None]).

Fixpoint all_equal (y0 : Q) (l : list Q) : bool :=
  match l with
  | [] => true
  | y :: l' => Qeq_bool y0 y && all_equal y0 l'
  end.

(** [history['y'].min() == history['y'].max()] *)
Definition constant (ys : list Q) : bool :=
  match ys with
  | [] => true
  | y0 :: l => all_equal y0 l
  end.

Definition double_quote : string := String (ascii_of_nat 34) EmptyString.

Definition missing_columns_text : string :=
  ("Dataframe must have columns " ++ double_quote ++ "ds" ++ double_quote
   ++ " and " ++ double_quote ++ "y" ++ double_quote
   ++ " with the dates and values respectively.")%string.

Section Fit.
Variable libs : Libs.

(** [Prophet(growth='linear', ...).fit(df)], for a frame whose column
    [ds] is a datetime column (the script hands over no other, see
    [FrameFacts.prepare_distinct]). *)
Definition fit (df : DataFrame) : result Model :=
  if negb (has_column df "ds") || negb (has_column df "y") then
    Raise (ValueError missing_columns_text)
  else
    let? y := getitem df "y" in
    let? dates := getitem df "ds" in
    let keep := notnull y in
    if (List.length (filter (fun b : bool => b) keep) <? 2)%nat then
      Raise (ValueError "Dataframe has less than 2 non-NaN rows.")
    else
      let? all_ds := to_datetime_items libs false dates in
      let history_dates := unique_sorted all_ds in
(* setup_dataframe(history, initialize_scales=True) *)
let? all_y := to_numeric y in
let hist_ds := select keep all_ds in
if negb (forallb is_some hist_ds) then
  Raise (ValueError "Found NaN in column ds.")
else
  let history := combine (somes hist_ds) (somes (select keep all_y)) in
  if constant (map snd history) then
(* Nothing to fit. *)
Ok (mkModel history_dates history)
else
let? _ := stan_fit libs history in
Ok (mkModel history_dates history).

(** [model.make_future_dataframe(periods, freq='MS')] *)
Definition make_future_dataframe (model : Model) (periods : nat)
  : result (list (option Timestamp)) :=
  match Pandas.max (history_dates model) with
  | None => Raise (ValueError "Neither `start` nor `end` can be NaT")
  | Some last_date =>
      let? dates := date_range_MS last_date (periods + 1) in
      let dates := filter (fun d => ts_ltb last_date d) dates in
      let dates := firstn periods dates in
      Ok (history_dates model ++ map Some dates)
  end.

(** [model.predict(future)]: one row for each date of [future], in
    ascending order of date. *)
Definition predict (model : Model) (future : list (option Timestamp))
  : result (list ForecastRecord) :=
  if negb (forallb is_some future) then
    Raise (ValueError "Found NaN in column ds.")
  else
    Ok (map (fun t => mkRecord t (predict_at libs (history model) t))
            (sort_ts (somes future))).
End Fit.

End Prophet.

(* ================================================================== *)
(** ** The script *)

Module App.
Import Calendar DateText Pandas Prophet.

(** A row of [df_export]: the columns [Date], [yhat], [yhat_lower],
    [yhat_upper]. *)
Definition ExportRow : Type := (string * Prediction)%type.

Inductive Figure : Type :=
| ForecastPlot (title xlabel ylabel : string)
               (xlim : option Timestamp * option Timestamp)
| ComponentsPlot.

(** What a run puts on the page, one constructor for each Streamlit
    call of the script. *)
Inductive Element : Type :=
| st_title (body : string)
| st_write (body : string)
| st_markdown (body : string)
| st_file_uploader (label : string)
| st_success (body : string)
| st_error (body : string) (cause : option Exn)
| st_dataframe (data : DataFrame)
| st_dataframe_export (data : list ExportRow)   (* st.dataframe(df_export) *)
| st_selectbox (label : string) (options : list string)
| st_button (label : string)
| st_spinner (text : string)
| st_download_button (label data file_name mime : string)
| st_pyplot (fig : Figure).

(** *** Statements: the variable [df], the page, and exceptions *)

Definition Script (A : Type) : Type :=
  DataFrame -> DataFrame * list Element * result A.

Definition ret {A} (a : A) : Script A := fun df => (df, [], Ok a).

Definition bind {A B} (m : Script A) (k : A -> Script B) : Script B :=
  fun df =>
    match m df with
    | (df1, out1, Ok a) =>
        match k a df1 with
        | (df2, out2, r) => (df2, out1 ++ out2, r)
        end
    | (df1, out1, Raise e) => (df1, out1, Raise e)
    end.

Definition show (el : Element) : Script unit := fun df => (df, [el], Ok tt).
Definition lift {A} (r : result A) : Script A := fun df => (df, [], r).
Definition get_df : Script DataFrame := fun df => (df, [], Ok df).
Definition set_df (df' : DataFrame) : Script unit := fun _ => (df', [], Ok tt).

(** [try: body except Exception as ex: handler(ex)] *)
Definition try_except (body : Script unit) (handler : Exn -> Script unit)
  : Script unit :=
  fun df =>
    match body df with
    | (df1, out1, Raise ex) =>
        match handler ex df1 with
        | (df2, out2, r) => (df2, out1 ++ out2, r)
        end
    | done => done
    end.

Declare Scope script_scope.
Delimit Scope script_scope with script.
Notation "x <- m ;; k" := (bind m (fun x => k))
  (at level 61, m at next level, right associativity) : script_scope.
Notation "m ;; k" := (bind m (fun _ => k))
  (at level 61, right associativity) : script_scope.
Local Open Scope script_scope.

(** *** Texts of the page *)

Definition intro_text : string :=
  "
This application allows you to:
- Upload a CSV file with Monthly historical Dates and Calls.
- Select which columns correspond to the date and the target variable (y).
- Confirm that the file loaded correctly and in the correct format.
- Process the data and run a forecasting model using Prophet (optimized for monthly data).
- View the forecast (filtered from 5 months before the last observation until 3 months in the future) as a table and with graphs.
- Download the forecast in Excel format.
".

Definition explanation_text : string :=
  "
                **How to Interpret the Graphs:**
                
                - **Forecast Plot:**  
                  The central line (yhat) represents the predicted value of the target variable over time.
                  The shaded bands (yhat_lower and yhat_upper) display the uncertainty intervals.
                  The black dots represent the historical data points used to train the model.
                
                - **Model Components:**  
                  The panels show the individual components that contribute to the forecast such as the overall trend and seasonal effects (e.g., yearly seasonality).
                
                Use these graphs to understand the past behavior of the time series and the model's projection into the future.
                ".

Definition not_numeric_text : string :=
  "The selected column for 'y' is not numeric. Please check your data.".
Definition processed_text : string :=
  "File processed and columns selected correctly.".
Definition processing_error_text : string :=
  "An error occurred while processing the file: ".
Definition reading_error_text : string := "Error reading the file: ".
Definition xlsx_mime : string :=
  "application/vnd.openxmlformats-officedocument.spreadsheetml.sheet".

(** *** Lines 85 to 94: the window and the export table *)

(** [df_prophet['ds'].max()], of the datetime column that line 48
    yields; another dtype is outside this model. *)
Definition series_max (c : Column) : result (option Timestamp) :=
  match c with
  | Datetime64 items => Ok (Pandas.max items)
  | _ => Raise (TypeError "unsupported operand type(s) for DateOffset")
  end.

(** [last_date - pd.DateOffset(months=5)]; [NaT] stays [NaT]. *)
Definition start_of (last_date : option Timestamp) : result (option Timestamp) :=
  match last_date with
  | None => Ok None
  | Some t => let? s := DateOffset_sub t 5 in Ok (Some s)
  end.

(** [last_date + pd.DateOffset(months=3)] *)
Definition end_of (last_date : option Timestamp) : result (option Timestamp) :=
  match last_date with
  | None => Ok None
  | Some t => let? e := DateOffset_add t 3 in Ok (Some e)
  end.

(** [forecast[(forecast['ds'] >= start_date) & (forecast['ds'] <= end_date)].copy()] *)
Definition filter_window (forecast : list ForecastRecord)
           (start_date end_date : option Timestamp) : list ForecastRecord :=
  filter (fun r => ge (ds r) start_date && le (ds r) end_date) forecast.

(** The column [Date] added to the copy, and the four columns kept. *)
Definition export (forecast_filtered : list ForecastRecord) : list ExportRow :=
  map (fun r => (strftime_dmY (ds r), prediction r)) forecast_filtered.

Section Run.
Variable libs : Libs.

(** *** Lines 43 to 146: the body of the [try] *)

(** Line 45 *)
Definition convert_date_column (date_col : string) : Script unit :=
  df <- get_df ;;
  col <- lift (getitem df date_col) ;;
  converted <- lift (to_datetime libs true col) ;;
  set_df (setitem df date_col converted).

(** Line 48 *)
Definition prepare (df : DataFrame) (date_col y_col : string)
  : result DataFrame :=
  let? projected := getitem_list df [date_col; y_col] in
  let renamed := rename projected (dict_display [(date_col, "ds"); (y_col, "y")]) in
  sort_values libs renamed "ds".

(** Lines 61 to 146 *)
Definition forecast_and_report (df_prophet : DataFrame) (y_col : string)
  : Script unit :=
  show (st_spinner "Training the model...") ;;
  model <- lift (fit libs df_prophet) ;;
  future <- lift (make_future_dataframe model 3) ;;
  forecast <- lift (predict libs model future) ;;
  dates <- lift (getitem df_prophet "ds") ;;
  last_date <- lift (series_max dates) ;;
  start_date <- lift (start_of last_date) ;;
  end_date <- lift (end_of last_date) ;;
  let forecast_filtered := filter_window forecast start_date end_date in
  let df_export := export forecast_filtered in
  show (st_write "## Generated Forecast") ;;
  show (st_dataframe_export df_export) ;;
  processed_data <- lift (to_excel libs df_export) ;;
  show (st_download_button "Download Forecast as Excel" processed_data
                           "forecast.xlsx" xlsx_mime) ;;
  show (st_write "### Forecast Plot") ;;
  lift (match plot_raises libs with
        | Some e => Raise e
        | None => Ok tt
        end) ;;
  show (st_pyplot (ForecastPlot "Prophet Forecast (Monthly Data)" "Date" y_col
                                (start_date, end_date))) ;;
  show (st_write "### Model Components") ;;
  lift (match plot_components_raises libs with
        | Some e => Raise e
        | None => Ok tt
        end) ;;
  show (st_pyplot ComponentsPlot) ;;
  show (st_markdown explanation_text).

Definition process (date_col y_col : string) : Script unit :=
  convert_date_column date_col ;;
  df <- get_df ;;
  df_prophet <- lift (prepare df date_col y_col) ;;
  y <- lift (getitem df_prophet "y") ;;
  if negb (is_numeric_dtype y) then
    show (st_error not_numeric_text None)
  else
    show (st_success processed_text) ;;
    show (st_write "Here is a preview of the data to be used:") ;;
    show (st_dataframe (head df_prophet)) ;;
    forecast_and_report df_prophet y_col.

(** Lines 42 to 148 *)
Definition on_confirm (date_col y_col : string) : Script unit :=
  try_except (process date_col y_col)
             (fun ex => show (st_error processing_error_text (Some ex))).

(** *** One run of the script *)

(** What the widgets answer in a run: the uploaded file (and what
    [pd.read_csv] makes of it), the two labels chosen, whether the
    button was pressed. *)
Record Session : Type := mkSession {
  uploaded_file : option (result (list (string * list Cell)));
  date_col : string;
  y_col : string;
  button : bool
}.

(** The page, the variable [df] at the end (when bound), and the
    exception that ended the run when none of the handlers caught
    it. *)
Record Run : Type :=
  mkRun { page : list Element; df_end : option DataFrame; uncaught : option Exn }.

Definition preamble : list Element :=
  [ st_title "Time Series Forecasting with Prophet";
    st_write intro_text;
    st_file_uploader "Select the CSV file with your historical data" ].

Definition selection (df : DataFrame) : list Element :=
  [ st_write "**Select the columns that correspond to the Date and the target variable (y):**";
    st_selectbox "Date Column:" (columns df);
    st_selectbox "Target Variable Column (y):" (columns df);
    st_button "Confirm selection and process file" ].

Definition run (s : Session) : Run :=
  match uploaded_file s with
  | None => mkRun preamble None None
  | Some (Raise e) =>
(* line 32, then line 37 with [df] unbound *)
mkRun (preamble ++ [st_error reading_error_text (Some e)])
      None (Some (NameError "df"))
| Some (Ok raw) =>
let df := read_csv raw in
let loaded := preamble
              ++ [ st_success "File loaded successfully. Here is a preview:";
                   st_dataframe (head df) ]
              ++ selection df in
if button s then
  match on_confirm (date_col s) (y_col s) df with
  | (df', out, Ok _) => mkRun (loaded ++ out) (Some df') None
  | (df', out, Raise e) => mkRun (loaded ++ out) (Some df') (Some e)
  end
else mkRun loaded (Some df) None
end.
End Run.

End App.

(* ================================================================== *)
(** ** numpy: [argsort(kind='quicksort')]

    The indirect quicksort of numpy/core/src/npysort (the versions
    before the vectorised sorts of numpy 1.25): median of three, the
    larger part put on a stack, insertion sort for parts of at most 17
    entries, heapsort once the depth limit is used up. *)

Module Numpy.
Import Calendar.

Definition SMALL_QUICKSORT : nat := 16.

Definition item (a : list nat) (p : nat) : nat := nth p a 0%nat.

Fixpoint store (a : list nat) (p x : nat) : list nat :=
  match a, p with
  | [], _ => []
  | _ :: rest, O => x :: rest
  | y :: rest, S p' => y :: store rest p' x
  end.

Definition swap (a : list nat) (p q : nat) : list nat :=
  store (store a p (item a q)) q (item a p).

Section Argsort.
Variable v : list Timestamp.

Definition key (i : nat) : Timestamp := nth i v (midnight (mkDate 1970 1 1)).

(** [do ++pi; while (v[*pi] < vp);] *)
Fixpoint scan_up (fuel : nat) (a : list nat) (vp : Timestamp) (pi : nat) : nat :=
  match fuel with
  | O => S pi
  | S f =>
      if ts_ltb (key (item a (S pi))) vp then scan_up f a vp (S pi) else S pi
  end.

(** [do --pj; while (vp < v[*pj]);] *)
Fixpoint scan_down (fuel : nat) (a : list nat) (vp : Timestamp) (pj : nat) : nat :=
  match fuel with
  | O => (pj - 1)%nat
  | S f =>
      if ts_ltb vp (key (item a (pj - 1))) then scan_down f a vp (pj - 1)%nat
      else (pj - 1)%nat
  end.

Fixpoint partition_loop (fuel : nat) (a : list nat) (vp : Timestamp) (pi pj : nat)
  : list nat * nat :=
  match fuel with
  | O => (a, pi)
  | S f =>
      let pi := scan_up (List.length a) a vp pi in
      let pj := scan_down (List.length a) a vp pj in
      if (pj <=? pi)%nat then (a, pi)
      else partition_loop f (swap a pi pj) vp pi pj
  end.

(** [while (pj > pl && vp < v[*pk]) { *pj-- = *pk--; }] *)
Fixpoint shift (fuel : nat) (a : list nat) (pl : nat) (vp : Timestamp) (pj : nat)
  : list nat * nat :=
  match fuel with
  | O => (a, pj)
  | S f =>
      if (pl <? pj)%nat && ts_ltb vp (key (item a (pj - 1))) then
        shift f (store a pj (item a (pj - 1))) pl vp (pj - 1)%nat
      else (a, pj)
  end.

(** The insertion sort of the entries [pl .. pl + count]. *)
Fixpoint insertion_sort (count : nat) (a : list nat) (pl pi : nat) : list nat :=
  match count with
  | O => a
  | S c =>
      let vi := item a pi in
      let '(a', pj) := shift (List.length a) a pl (key vi) pi in
      insertion_sort c (store a' pj vi) pl (S pi)
  end.

(** *** [aheapsort] on the [n] entries from [base]; the heap counts its
        entries from 1. *)

Definition item1 (a : list nat) (base k : nat) : nat := item a (base + k - 1).
Definition store1 (a : list nat) (base k x : nat) : list nat :=
  store a (base + k - 1) x.

Fixpoint sift (fuel : nat) (a : list nat) (base tmp i j n : nat) : list nat * nat :=
  match fuel with
  | O => (a, i)
  | S f =>
      if (j <=? n)%nat then
        let j := if (j <? n)%nat
                    && ts_ltb (key (item1 a base j)) (key (item1 a base (S j)))
                 then S j else j in
        if ts_ltb (key tmp) (key (item1 a base j)) then
          sift f (store1 a base i (item1 a base j)) base tmp j (j + j) n
        else (a, i)
      else (a, i)
  end.

Fixpoint heapify (l : nat) (a : list nat) (base n : nat) : list nat :=
  match l with
  | O => a
  | S l' =>
      let tmp := item1 a base l in
      let '(a', i) := sift (List.length a) a base tmp l (l + l) n in
      heapify l' (store1 a' base i tmp) base n
  end.

Fixpoint sort_down (n : nat) (a : list nat) (base : nat) : list nat :=
  match n with
  | S n' =>
      match n' with
      | O => a
      | S _ =>
          let tmp := item1 a base n in
          let a := store1 a base n (item1 a base 1) in
          let '(a', i) := sift (List.length a) a base tmp 1 2 n' in
          sort_down n' (store1 a' base i tmp) base
      end
  | O => a
  end.

Definition aheapsort (a : list nat) (base n : nat) : list nat :=
  sort_down n (heapify (Nat.div2 n) a base n) base.

(** *** [aquicksort] *)

(** [while ((pr - pl) > SMALL_QUICKSORT) { ... }]: the part between [pl]
    and [pr] is divided until it is small; the larger part of each
    division goes on the stack with the depth left. *)
Fixpoint divide (fuel : nat) (a : list nat) (pl pr : nat) (cdepth : Z)
         (stack : list (nat * nat * Z))
  : list nat * nat * nat * list (nat * nat * Z) :=
  match fuel with
  | O => (a, pl, pr, stack)
  | S f =>
      if (SMALL_QUICKSORT <? pr - pl)%nat then
        let pm := (pl + Nat.div2 (pr - pl))%nat in
        let a := if ts_ltb (key (item a pm)) (key (item a pl)) then swap a pm pl else a in
        let a := if ts_ltb (key (item a pr)) (key (item a pm)) then swap a pr pm else a in
        let a := if ts_ltb (key (item a pm)) (key (item a pl)) then swap a pm pl else a in
        let vp := key (item a pm) in
        let a := swap a pm (pr - 1) in
        let '(a, pi) := partition_loop (List.length a) a vp pl (pr - 1) in
        let a := swap a pi (pr - 1) in
        let cdepth := cdepth - 1 in
        if (pi - pl <? pr - pi)%nat then
          divide f a pl (pi - 1) cdepth ((S pi, pr, cdepth) :: stack)
        else
          divide f a (S pi) pr cdepth ((pl, (pi - 1)%nat, cdepth) :: stack)
      else (a, pl, pr, stack)
  end.

Fixpoint sort_parts (fuel : nat) (a : list nat) (pl pr : nat) (cdepth : Z)
         (stack : list (nat * nat * Z)) : list nat :=
  match fuel with
  | O => a
  | S f =>
      let '(a, stack) :=
        if cdepth <? 0 then (aheapsort a pl (pr - pl + 1), stack)
        else
          let '(a, pl', pr', stack') := divide (List.length a) a pl pr cdepth stack in
          (insertion_sort (pr' - pl') a pl' (S pl'), stack') in
      match stack with
      | [] => a
      | (pl, pr, cdepth) :: rest => sort_parts f a pl pr cdepth rest
      end
  end.

(** [keys.argsort(kind='quicksort')]: the positions [0 .. n-1] arranged
    by [aquicksort], with the depth limit [2 * floor(log2 n)]. *)
Definition aquicksort : list nat :=
  let num := List.length v in
  sort_parts (S num) (seq 0 num) 0 (num - 1) (2 * Z.log2 (Z.of_nat num)) [].
End Argsort.

End Numpy.

(* ================================================================== *)
(** ** Sample library behaviours, for evaluating runs *)

Module Samples.
Import Calendar Pandas Prophet App.

Definition flat_prediction : Prediction := mkPrediction 0 0 0.

(** numpy's quicksort, no text parsed besides delimited dates, an
    optimiser, a spreadsheet writer and plots that go through. *)
Definition sample_libs : Libs :=
  mkLibs (fun _ => None) Numpy.aquicksort (fun _ => Ok tt)
         (fun _ _ => flat_prediction) (fun _ => Ok "xlsx") None None.

(** The same libraries with an optimiser that always fails. *)
Definition failing_stan_libs : Libs :=
  mkLibs (fun _ => None) Numpy.aquicksort
         (fun _ => Raise (RuntimeError "Optimization terminated abnormally"))
         (fun _ _ => flat_prediction) (fun _ => Ok "xlsx") None None.

End Samples.

(* ================================================================== *)
(** ** Notions used in the statements *)

Module Notions.
Import Calendar DateText Pandas Prophet App.

(** The order in words: year, then month, then day, then time of day. *)
Definition ts_le (a b : Timestamp) : Prop :=
  let x := ts_date a in
  let y := ts_date b in
  year x < year y \/
  (year x = year y /\
   (month x < month y \/
    (month x = month y /\
     (day x < day y \/
      (day x = day y /\ ts_nanos a <= ts_nanos b))))).


Definition jan31 : Timestamp := midnight (mkDate 2024 1 31).

(** *** Reading a text day first

    A text has a day-first reading when it is made of three numbers
    separated by a space, a slash, a hyphen or a full stop: a day of one or
    two digits, a month of one or two digits and a year of four digits
    (from 1000 on), which together name a date of the calendar. *)

(** The place of a character in a text, counted from [k]. *)
Fixpoint index_in (c : ascii) (s : string) (k : Z) : option Z :=
  match s with
  | EmptyString => None
  | String x rest => if Ascii.eqb c x then Some k else index_in c rest (k + 1)
  end.

(** The value of a decimal digit. *)
Definition digit_of (c : ascii) : option Z := index_in c "0123456789" 0.

Definition separator (c : ascii) : bool :=
  match c with
  | " "%char | "/"%char | "-"%char | "."%char => true
  | _ => false
  end.

(** The parts of a text between its separators. *)
Fixpoint split (s : string) : list string :=
  match s with
  | EmptyString => [EmptyString]
  | String c rest =>
      if separator c then EmptyString :: split rest
      else match split rest with
           | part :: parts => String c part :: parts
           | [] => [String c EmptyString]
           end
  end.

(** The number that a text of digits spells. *)
Fixpoint number (s : string) (acc : Z) : option Z :=
  match s with
  | EmptyString => Some acc
  | String c rest =>
      match digit_of c with
      | Some k => number rest (acc * 10 + k)
      | None => None
      end
  end.

Definition one_or_two (s : string) : bool :=
  (String.length s =? 1)%nat || (String.length s =? 2)%nat.

Definition day_first_reading (s : string) : option Date :=
  match split s with
  | [dd; mm; yyyy] =>
      if one_or_two dd && one_or_two mm && (String.length yyyy =? 4)%nat then
        match number dd 0, number mm 0, number yyyy 0 with
        | Some d, Some m, Some y =>
            if (1000 <=? y) && valid_date (mkDate y m d) then Some (mkDate y m d)
            else None
        | _, _, _ => None
        end
      else None
  | _ => None
  end.

(** *** Shifting the last date

    A shift of [t] by a number of months can be represented when the date
    reached, at the time of day of [t], lies within the bounds of a
    [Timestamp], with the nanoseconds below the microsecond and without
    them (pandas makes the shift on the microseconds and checks the bounds
    there). *)
Definition representable_shift (t : Timestamp) (months : Z) : bool :=
  let d := add_months (ts_date t) months in
  in_bounds (mkTs d (ts_nanos t - ts_nanos t mod 1000))
  && in_bounds (mkTs d (ts_nanos t)).

(** A forecast of one record, on 2024-04-03 at one nanosecond past
    midnight. *)
Definition april3 : Timestamp := mkTs (mkDate 2024 4 3) 1.
Definition one_record : list ForecastRecord :=
  [mkRecord april3 Samples.flat_prediction].

(** *** The stages of the body of the [try], one after the other *)

(** Line 45 as a function of [df]. *)
Definition converted (libs : Libs) (df : DataFrame) (date_col : string)
  : result DataFrame :=
  let? col := getitem df date_col in
  let? c := to_datetime libs true col in
  Ok (setitem df date_col c).

(** Lines 72 to 87: the forecast and the two bounds of the window. *)
Definition window_stage (libs : Libs) (df_prophet : DataFrame)
  : result (list ForecastRecord * option Timestamp * option Timestamp) :=
  let? model := fit libs df_prophet in
  let? future := make_future_dataframe model 3 in
  let? forecast := predict libs model future in
  let? dates := getitem df_prophet "ds" in
  let? last_date := series_max dates in
  let? start_date := start_of last_date in
  let? end_date := end_of last_date in
  Ok (forecast, start_date, end_date).

(** What lines 54 to 56 show. *)
Definition preview (df_prophet : DataFrame) : list Element :=
  [ st_success processed_text;
    st_write "Here is a preview of the data to be used:";
    st_dataframe (head df_prophet) ].

(** What lines 71 to 146 show when nothing raises. *)
Definition report (rows : list ExportRow) (processed_data y_col : string)
           (start_date end_date : option Timestamp) : list Element :=
  [ st_spinner "Training the model...";
    st_write "## Generated Forecast";
    st_dataframe_export rows;
    st_download_button "Download Forecast as Excel" processed_data
                       "forecast.xlsx" xlsx_mime;
    st_write "### Forecast Plot";
    st_pyplot (ForecastPlot "Prophet Forecast (Monthly Data)" "Date" y_col
                            (start_date, end_date));
    st_write "### Model Components";
    st_pyplot ComponentsPlot;
    st_markdown explanation_text ].

(** The report of the handler of line 148 for an exception. *)
Definition failure (e : Exn) : Element := st_error processing_error_text (Some e).

(** What a confirmed run adds to the page, stage by stage: each stage
    either goes through or raises, and what was shown by then stays. *)
Definition confirmed_output (libs : Libs) (df : DataFrame) (date_col y_col : string)
  : list Element :=
  match converted libs df date_col with
  | Raise e => [failure e]
  | Ok df' =>
      match prepare libs df' date_col y_col with
      | Raise e => [failure e]
      | Ok df_prophet =>
          match getitem df_prophet "y" with
          | Raise e => [failure e]
          | Ok y =>
              if is_numeric_dtype y then
                preview df_prophet
                ++ match window_stage libs df_prophet with
                   | Raise e => [st_spinner "Training the model..."; failure e]
                   | Ok (forecast, start_date, end_date) =>
                       let rows := export (filter_window forecast start_date end_date) in
                       match to_excel libs rows with
                       | Raise e =>
                           firstn 3 (report rows "" y_col start_date end_date)
                           ++ [failure e]
                       | Ok data =>
                           let shown := report rows data y_col start_date end_date in
                           match plot_raises libs with
                           | Some e => firstn 5 shown ++ [failure e]
                           | None =>
                               match plot_components_raises libs with
                               | Some e => firstn 7 shown ++ [failure e]
                               | None => shown
                               end
                           end
                       end
                   end
              else [st_error not_numeric_text None]
          end
      end
  end.

(** The Streamlit call behind an element. *)
Definition call (el : Element) : string :=
  match el with
  | st_title _ => "title"
  | st_write _ => "write"
  | st_markdown _ => "markdown"
  | st_file_uploader _ => "file_uploader"
  | st_success _ => "success"
  | st_error _ _ => "error"
  | st_dataframe _ => "dataframe"
  | st_dataframe_export _ => "dataframe"
  | st_selectbox _ _ => "selectbox"
  | st_button _ => "button"
  | st_spinner _ => "spinner"
  | st_download_button _ _ _ _ => "download_button"
  | st_pyplot _ => "pyplot"
  end.

(** The calls of a run of the [try] body in which nothing raises and the
    target is numeric: the preview, the forecast table, the download, the
    two plots and their explanation. *)
Definition full_sequence : list string :=
  [ "success"; "write"; "dataframe";
    "spinner"; "write"; "dataframe"; "download_button";
    "write"; "pyplot"; "write"; "pyplot"; "markdown" ].

(** What a run shows once a file has loaded, before the button counts. *)
Definition loaded_page (df : DataFrame) : list Element :=
  preamble
  ++ [ st_success "File loaded successfully. Here is a preview:";
       st_dataframe (head df) ]
  ++ selection df.

(** A loaded frame whose date column has a text at row 1 that names no
    date. *)
Definition frame_with_bad_date : DataFrame :=
  [ ("Date", Object [PyStr "25/12/2024"; PyStr "soon"; PyStr "27/12/2024"]);
    ("Calls", Int64 [5; 6; 7]) ].

(** *** Uploaded files used as examples *)

(** Four months of calls, the rows not in order of date. *)
Definition monthly_raw : list (string * list Cell) :=
  [ ("Date", [Text "01/10/2023"; Text "01/12/2023"; Text "01/11/2023"; Text "01/09/2023"]);
    ("Calls", [IntLit "5" 5; IntLit "7" 7; IntLit "6" 6; IntLit "1" 1]) ].

(** One row. *)
Definition one_row_raw : list (string * list Cell) :=
  [ ("Date", [Text "01/10/2023"]); ("Calls", [IntLit "5" 5]) ].

(** A header and no row. *)
Definition header_only_raw : list (string * list Cell) :=
  [ ("Date", []); ("Calls", []) ].

(** Two months with the same number of calls. *)
Definition constant_raw : list (string * list Cell) :=
  [ ("Date", [Text "01/10/2023"; Text "01/11/2023"]);
    ("Calls", [IntLit "5" 5; IntLit "5" 5]) ].

(** A target with a missing value among numbers, and a target of
    booleans. *)
Definition nulls_raw : list (string * list Cell) :=
  [ ("Date", [Text "01/10/2023"; Text "01/11/2023"; Text "01/12/2023"]);
    ("Calls", [IntLit "5" 5; NA; FloatLit "-6.5" (Finite (-13 # 2))]) ].
Definition bools_raw : list (string * list Cell) :=
  [ ("Date", [Text "01/10/2023"; Text "01/11/2023"; Text "01/12/2023"]);
    ("Calls", [BoolLit "True" true; BoolLit "False" false; BoolLit "True" true]) ].

(** Six rows on two dates. *)
Definition duplicates_raw : list (string * list Cell) :=
  [ ("Date", [Text "01/10/2023"; Text "01/10/2023"; Text "01/10/2023";
              Text "01/11/2023"; Text "01/11/2023"; Text "01/11/2023"]);
    ("Calls", [IntLit "1" 1; IntLit "2" 2; IntLit "3" 3;
               IntLit "4" 4; IntLit "5" 5; IntLit "6" 6]) ].

(** Eighteen rows on the same date, with the calls 1 to 18. *)
Definition same_day : Timestamp := midnight (mkDate 2023 10 1).
Definition ties_raw : list (string * list Cell) :=
  [ ("Date", repeat (Text "01/10/2023") 18);
    ("Calls", [IntLit "1" 1; IntLit "2" 2; IntLit "3" 3; IntLit "4" 4;
               IntLit "5" 5; IntLit "6" 6; IntLit "7" 7; IntLit "8" 8;
               IntLit "9" 9; IntLit "10" 10; IntLit "11" 11; IntLit "12" 12;
               IntLit "13" 13; IntLit "14" 14; IntLit "15" 15; IntLit "16" 16;
               IntLit "17" 17; IntLit "18" 18]) ].

(** A target whose only entry is an integer beyond 64 bits. *)
Definition huge_raw : list (string * list Cell) :=
  [ ("Date", [Text "01/10/2023"]);
    ("Calls", [IntLit "18446744073709551616" (2 ^ 64)]) ].

(** An entry that is a number, and one that is a text which is neither a
    number, a boolean nor a missing value. *)
Definition is_number (c : Cell) : bool :=
  match c with IntLit _ _ | FloatLit _ _ => true | _ => false end.
Definition is_text (c : Cell) : bool :=
  match c with Text _ => true | _ => false end.

(** An integer entry fits in 64 bits, signed. *)
Definition fits_int64 (c : Cell) : bool :=
  match c with
  | IntLit _ z => (INT64_MIN <=? z) && (z <=? INT64_MAX)
  | _ => true
  end.

(** What is taken for granted of numpy's [argsort] on the keys at hand:
    its answer holds each position once, and the keys ascend along it.
    (Nothing is taken for granted about keys that are equal.) *)
Definition is_permutation_of_range (idx : list nat) (n : nat) : bool :=
  (List.length idx =? n)%nat
  && forallb (fun i => existsb (Nat.eqb i) idx) (seq 0 n).

Fixpoint ascending (l : list Timestamp) : bool :=
  match l with
  | a :: (b :: _) as rest => ts_leb a b && ascending rest
  | _ => true
  end.

Definition sorted_permutation (keys : list Timestamp) (idx : list nat) : bool :=
  is_permutation_of_range idx (List.length keys) && ascending (take idx keys).

(** The training rows that [fit] keeps of a frame with dates [items] and
    target [y] of values [ys]: those whose target is not missing. *)
Definition training_rows (y : Column) (items : list (option Timestamp))
           (ys : list (option Q)) : list (Timestamp * Q) :=
  combine (somes (select (notnull y) items)) (somes (select (notnull y) ys)).

(** The prepared frame of the file of six rows on two dates. *)
Definition duplicates_frame : DataFrame :=
  [ ("ds", Datetime64 [Some (midnight (mkDate 2023 10 1));
                       Some (midnight (mkDate 2023 10 1));
                       Some (midnight (mkDate 2023 10 1));
                       Some (midnight (mkDate 2023 11 1));
                       Some (midnight (mkDate 2023 11 1));
                       Some (midnight (mkDate 2023 11 1))]);
    ("y", Int64 [1; 2; 3; 4; 5; 6]) ].

(** The prepared frame of the file of four months. *)
Definition monthly_frame : DataFrame :=
  [ ("ds", Datetime64 [Some (midnight (mkDate 2023 9 1));
                       Some (midnight (mkDate 2023 10 1));
                       Some (midnight (mkDate 2023 11 1));
                       Some (midnight (mkDate 2023 12 1))]);
    ("y", Int64 [1; 5; 6; 7]) ].

(** A prepared frame whose last date is the 31st of January. *)
Definition january_frame : DataFrame :=
  [ ("ds", Datetime64 [Some (midnight (mkDate 2023 12 31)); Some jan31]);
    ("y", Int64 [1; 2]) ].

(** Lines 72 to 79. *)
Definition forecast_of (libs : Libs) (df_prophet : DataFrame)
  : result (list ForecastRecord) :=
  let? model := fit libs df_prophet in
  let? future := make_future_dataframe model 3 in
  predict libs model future.

Definition confirm (raw : list (string * list Cell)) (date_col y_col : string)
  : Session :=
  mkSession (Some (Ok raw)) date_col y_col true.

(** Number of rows of the target that are not missing. *)
Definition observations (y : Column) : nat :=
  List.length (filter (fun b : bool => b) (notnull y)).

End Notions.

(* ================================================================== *)
(** ** Further examples used in the statements *)

Module MoreNotions.
Import Calendar DateText Pandas Prophet App Notions.

(** A date after the twelfth of its month, and one before. *)
Definition christmas : Timestamp := midnight (mkDate 2024 12 25).
Definition april3_midnight : Timestamp := midnight (mkDate 2024 4 3).

(** A loaded frame whose date column holds two texts and a missing value. *)
Definition frame_with_gap : DataFrame :=
  [ ("Date", Object [PyStr "25/12/2024"; PyNaN; PyStr "03/04/2024"]);
    ("Calls", Int64 [5; 6; 7]) ].

End MoreNotions.

(* ================================================================== *)
(** ** Notions for the proof that numpy's quicksort sorts *)

Module SortNotions.
Import Calendar Notions Numpy.

Section Order.
Variable v : list Timestamp.

(** The key at a position of the array. *)
Definition K (a : list nat) (p : nat) : Timestamp := key v (item a p).

Definition sorted_seg (a : list nat) (l r : nat) : Prop :=
  forall p q, (l <= p)%nat -> (p <= q)%nat -> (q <= r)%nat -> ts_le (K a p) (K a q).

Definition below (a : list nat) (l r : nat) (x : Timestamp) : Prop :=
  forall p, (l <= p <= r)%nat -> ts_le (K a p) x.

Definition above (a : list nat) (l r : nat) (x : Timestamp) : Prop :=
  forall p, (l <= p <= r)%nat -> ts_le x (K a p).

(** [a'] holds the entries of [a], those between [l] and [r] in another
    order and the others where they were. *)
Definition rearranged (l r : nat) (a a' : list nat) : Prop :=
  List.length a' = List.length a /\
  (forall p, (p < l \/ r < p)%nat -> item a' p = item a p) /\
  (forall q, (l <= q <= r)%nat -> exists q', (l <= q' <= r)%nat /\ item a' q = item a q') /\
  Permutation a' a.

(** The entries from [lo] on, among the first [n] of the part at [base],
    dominate their two children: a heap when [lo] is 1. *)
Definition heap (a : list nat) (base lo n : nat) : Prop :=
  forall k c, (lo <= k)%nat -> c = (2 * k)%nat \/ c = (2 * k + 1)%nat -> (c <= n)%nat ->
              ts_le (K a (base + c - 1)) (K a (base + k - 1)).

(** The parts of the array that are still to be sorted: each is a pair of
    its first and last position. *)
Definition inside (s : nat * nat) (p : nat) : Prop := (fst s <= p <= snd s)%nat.
Definition apart (s t : nat * nat) : Prop := (snd s < fst t \/ snd t < fst s)%nat.
Definition proper (n : nat) (s : nat * nat) : Prop := (fst s <= snd s < n)%nat.

Fixpoint all_apart (segs : list (nat * nat)) : Prop :=
  match segs with
  | [] => True
  | s :: rest => Forall (apart s) rest /\ all_apart rest
  end.

(** Two positions are in order unless one part holds both. *)
Definition settled (a : list nat) (segs : list (nat * nat)) : Prop :=
  forall p q, (p < q)%nat -> (q < List.length a)%nat ->
    ts_le (K a p) (K a q) \/ exists s, In s segs /\ inside s p /\ inside s q.

Definition pending (n : nat) (a : list nat) (segs : list (nat * nat)) : Prop :=
  List.length a = n /\ Forall (proper n) segs /\ all_apart segs /\ settled a segs.

Fixpoint weight (segs : list (nat * nat)) : nat :=
  match segs with
  | [] => 0
  | s :: rest => snd s - fst s + 1 + weight rest
  end.

Definition parts (stack : list (nat * nat * Z)) : list (nat * nat) := map fst stack.

(** The median of three of a division. *)
Definition median3 (a : list nat) (pl pm pr : nat) : list nat :=
  let a := if ts_ltb (key v (item a pm)) (key v (item a pl)) then swap a pm pl else a in
  let a := if ts_ltb (key v (item a pr)) (key v (item a pm)) then swap a pr pm else a in
  if ts_ltb (key v (item a pm)) (key v (item a pl)) then swap a pm pl else a.

(** One division of the part between [pl] and [pr]: the array and the
    place of the pivot. *)
Definition division (a : list nat) (pl pr : nat) : list nat * nat :=
  let pm := (pl + Nat.div2 (pr - pl))%nat in
  let a := median3 a pl pm pr in
  let vp := key v (item a pm) in
  let a := swap a pm (pr - 1) in
  let '(a, pi) := partition_loop v (List.length a) a vp pl (pr - 1) in
  (swap a pi (pr - 1), pi).
End Order.

End SortNotions.

(* ================================================================== *)
(** ** Proof steps that recur *)

(** Case analysis on every comparison of integers in the goal. *)
Ltac compare_cases :=
  repeat match goal with
         | |- context [ ?x ?= ?y ] =>
             let H := fresh "C" in
             destruct (Z.compare_spec x y) as [H | H | H]; cbn
         end.

(** The number of elements of the full sequence shown before an error. *)
Ltac prefix_of_full_sequence :=
  first [ exists 0%nat; split; [cbn; tauto | reflexivity]
        | exists 4%nat; split; [cbn; tauto | reflexivity]
        | exists 6%nat; split; [cbn; tauto | reflexivity]
        | exists 8%nat; split; [cbn; tauto | reflexivity]
        | exists 10%nat; split; [cbn; tauto | reflexivity] ].

(* ================================================================== *)
(** * Properties *)

(** ** The order of timestamps *)

Module CalendarFacts.
Import Calendar Notions.

Lemma ts_leb_le a b : ts_leb a b = true <-> ts_le a b.
Proof.
  destruct a as [[ya ma da] na], b as [[yb mb db] nb].
  unfold ts_leb, ts_compare, date_compare, ts_le; cbn.
  compare_cases; split; intros H; try discriminate; try reflexivity; lia.
Qed.

Lemma ts_ltb_lt a b : ts_ltb a b = true <-> ~ ts_le b a.
Proof.
  destruct a as [[ya ma da] na], b as [[yb mb db] nb].
  unfold ts_ltb, ts_compare, date_compare, ts_le; cbn.
  compare_cases; split; intros H; try discriminate; try reflexivity; lia.
Qed.

Lemma ts_eqb_eq a b : ts_eqb a b = true <-> a = b.
Proof.
  destruct a as [[ya ma da] na], b as [[yb mb db] nb].
  unfold ts_eqb, ts_compare, date_compare; cbn.
  compare_cases; split; intros H; try discriminate; try reflexivity;
    try (subst; reflexivity); injection H; lia.
Qed.

Lemma ts_le_refl a : ts_le a a.
Proof. unfold ts_le; cbn; lia. Qed.

Lemma ts_le_trans a b c : ts_le a b -> ts_le b c -> ts_le a c.
Proof. unfold ts_le; cbn; lia. Qed.

Lemma ts_le_total a b : ts_le a b \/ ts_le b a.
Proof. unfold ts_le; cbn; lia. Qed.

Lemma ts_le_antisym a b : ts_le a b -> ts_le b a -> a = b.
Proof.
  destruct a as [[ya ma da] na], b as [[yb mb db] nb].
  unfold ts_le; cbn; intros H1 H2.
  assert (ya = yb /\ ma = mb /\ da = db /\ na = nb) as (-> & -> & -> & ->) by lia.
  reflexivity.
Qed.

Lemma ts_leb_refl a : ts_leb a a = true.
Proof. apply ts_leb_le, ts_le_refl. Qed.

Lemma ts_leb_false a b : ts_leb a b = false <-> ts_ltb b a = true.
Proof.
  rewrite ts_ltb_lt, <- ts_leb_le.
  destruct (ts_leb a b); split; intros H; try reflexivity; try discriminate.
  - exfalso; apply H; reflexivity.
Qed.

Lemma ts_lt_le a b : ~ ts_le b a -> ts_le a b.
Proof. destruct (ts_le_total a b); tauto. Qed.

(** *** Month arithmetic *)

Lemma days_in_month_range y m : 28 <= days_in_month y m <= 31.
Proof.
  unfold days_in_month.
  destruct (m =? 2); [destruct (is_leap y); lia|].
  destruct ((m =? 4) || (m =? 6) || (m =? 9) || (m =? 11)); lia.
Qed.

Lemma valid_date_spec d :
  valid_date d = true <->
  1 <= month d <= 12 /\ 1 <= day d <= days_in_month (year d) (month d).
Proof.
  unfold valid_date. rewrite !andb_true_iff, !Z.leb_le. tauto.
Qed.

(** Moving a valid date by up to eleven months gives a valid date in the
    month that many calendar months away, on the same day of the month
    when that month has it and on its last day otherwise. *)
Lemma add_months_spec d n :
  valid_date d = true -> -11 <= n <= 11 ->
  let d' := add_months d n in
  valid_date d' = true /\
  month_index d' = month_index d + n /\
  day d' = Z.min (day d) (days_in_month (year d') (month d')).
Proof.
  intros Hv Hn. apply valid_date_spec in Hv. destruct Hv as [Hm Hd].
  unfold add_months. cbv zeta.
  set (m0 := month d + n).
  destruct (Z.ltb_spec 12 m0) as [H12 | H12];
    [| destruct (Z.ltb_spec m0 1) as [H1 | H1]];
    (split; [apply valid_date_spec; cbn [year month day]|
             split; [unfold month_index; cbn [year month day]; lia|
                     cbn [year month day]; lia]]).
  all: match goal with
       | |- context [days_in_month ?y ?m] =>
           pose proof (days_in_month_range y m)
       end; lia.
Qed.

End CalendarFacts.

(** ** The script, stage by stage *)

Module ScriptFacts.
Import Calendar Notions Pandas Prophet App.

Lemma convert_date_column_eq libs date_col df :
  convert_date_column libs date_col df
  = match converted libs df date_col with
    | Ok df' => (df', [], Ok tt)
    | Raise e => (df, [], Raise e)
    end.
Proof.
  unfold convert_date_column, converted, bind, get_df, lift, set_df, rbind.
  destruct (getitem df date_col) as [col | e]; [| reflexivity].
  destruct (to_datetime libs true col) as [c | e]; reflexivity.
Qed.

(** Lines 61 to 146: the elements shown, up to the first stage that
    raises. *)
Lemma forecast_and_report_eq libs df_prophet y_col df :
  forecast_and_report libs df_prophet y_col df
  = match window_stage libs df_prophet with
    | Raise e => (df, [st_spinner "Training the model..."], Raise e)
    | Ok (forecast, start_date, end_date) =>
        let rows := export (filter_window forecast start_date end_date) in
        match to_excel libs rows with
        | Raise e => (df, firstn 3 (report rows "" y_col start_date end_date), Raise e)
        | Ok data =>
            let shown := report rows data y_col start_date end_date in
            match plot_raises libs with
            | Some e => (df, firstn 5 shown, Raise e)
            | None =>
                match plot_components_raises libs with
                | Some e => (df, firstn 7 shown, Raise e)
                | None => (df, shown, Ok tt)
                end
            end
        end
    end.
Proof.
  unfold forecast_and_report, window_stage, report, bind, lift, show, rbind.
  destruct (fit libs df_prophet) as [model | e]; [| reflexivity].
  destruct (make_future_dataframe model 3) as [future | e]; [| reflexivity].
  destruct (predict libs model future) as [forecast | e]; [| reflexivity].
  destruct (getitem df_prophet "ds") as [dates | e]; [| reflexivity].
  destruct (series_max dates) as [last_date | e]; [| reflexivity].
  destruct (start_of last_date) as [start_date | e]; [| reflexivity].
  destruct (end_of last_date) as [end_date | e]; [| reflexivity].
  cbv zeta.
  destruct (to_excel libs _) as [data | e]; [| reflexivity].
  destruct (plot_raises libs) as [e |]; [reflexivity |].
  destruct (plot_components_raises libs) as [e |]; reflexivity.
Qed.

(** Lines 43 to 146. *)
Lemma process_eq libs date_col y_col df :
  process libs date_col y_col df
  = match converted libs df date_col with
    | Raise e => (df, [], Raise e)
    | Ok df' =>
        match prepare libs df' date_col y_col with
        | Raise e => (df', [], Raise e)
        | Ok df_prophet =>
            match getitem df_prophet "y" with
            | Raise e => (df', [], Raise e)
            | Ok y =>
                if is_numeric_dtype y then
                  match forecast_and_report libs df_prophet y_col df' with
                  | (df2, out, r) => (df2, preview df_prophet ++ out, r)
                  end
                else (df', [st_error not_numeric_text None], Ok tt)
            end
        end
    end.
Proof.
  unfold process. unfold bind at 1. rewrite convert_date_column_eq.
  destruct (converted libs df date_col) as [df' | e]; [| reflexivity].
  unfold bind, get_df, lift, show, preview.
  destruct (prepare libs df' date_col y_col) as [df_prophet | e]; [| reflexivity].
  destruct (getitem df_prophet "y") as [y | e]; [| reflexivity].
  destruct (is_numeric_dtype y); [| reflexivity].
  cbn [negb]. destruct (forecast_and_report libs df_prophet y_col df') as [[df2 out] r].
  reflexivity.
Qed.

(** Lines 42 to 148: whatever the body raises, the handler reports it and
    the statement ends normally. *)
Lemma on_confirm_eq libs date_col y_col df :
  on_confirm libs date_col y_col df
  = match process libs date_col y_col df with
    | (df', out, Ok _) => (df', out, Ok tt)
    | (df', out, Raise ex) =>
        (df', out ++ [st_error processing_error_text (Some ex)], Ok tt)
    end.
Proof.
  unfold on_confirm, try_except, show.
  destruct (process libs date_col y_col df) as [[df' out] [[] | ex]]; reflexivity.
Qed.

(** The variable [df] after the body of the [try]: the frame of line 45
    when the conversion went through, the loaded frame otherwise. *)
Lemma process_df libs date_col y_col df :
  fst (fst (process libs date_col y_col df))
  = match converted libs df date_col with
    | Ok df' => df'
    | Raise _ => df
    end.
Proof.
  rewrite process_eq.
  destruct (converted libs df date_col) as [df' | e]; [| reflexivity].
  destruct (prepare libs df' date_col y_col) as [df_prophet | e]; [| reflexivity].
  destruct (getitem df_prophet "y") as [y | e]; [| reflexivity].
  destruct (is_numeric_dtype y); [| reflexivity].
  rewrite forecast_and_report_eq.
  destruct (window_stage libs df_prophet) as [[[fc s] e] | e]; [| reflexivity].
  cbv zeta. destruct (to_excel libs _); [| reflexivity].
  destruct (plot_raises libs); [reflexivity |].
  destruct (plot_components_raises libs); reflexivity.
Qed.

End ScriptFacts.

(** ** The window of lines 85 to 90 *)

Module WindowFacts.
Import Calendar Notions CalendarFacts Pandas Prophet App.

Lemma in_somes {A} (x : A) l : In x (somes l) <-> In (Some x) l.
Proof.
  induction l as [| [y |] l IH]; cbn; [tauto | |].
  - rewrite IH. split; intros [H | H]; auto; left; congruence.
  - rewrite IH. split; [auto | intros [H | H]; [discriminate | auto]].
Qed.

Lemma ts_max_cases a b :
  (ts_max a b = a \/ ts_max a b = b) /\ ts_le a (ts_max a b) /\ ts_le b (ts_max a b).
Proof.
  unfold ts_max. destruct (ts_leb a b) eqn:E.
  - apply ts_leb_le in E. auto using ts_le_refl.
  - apply ts_leb_false, ts_ltb_lt, ts_lt_le in E. auto using ts_le_refl.
Qed.

Lemma fold_max_spec l : forall t,
  let m := fold_left ts_max l t in
  (m = t \/ In m l) /\ ts_le t m /\ forall x, In x l -> ts_le x m.
Proof.
  induction l as [| u l IH]; intros t; cbn.
  - split; [auto | split; [apply ts_le_refl | tauto]].
  - destruct (IH (ts_max t u)) as (Hin & Hle & Hall).
    destruct (ts_max_cases t u) as (Hc & Ht & Hu).
    split; [| split].
    + destruct Hin as [-> | Hin]; [destruct Hc as [-> | ->]|]; auto.
    + eapply ts_le_trans; eauto.
    + intros x [<- | Hx]; [eapply ts_le_trans; eauto | auto].
Qed.

(** [max] answers an entry of the column that no entry exceeds. *)
Lemma max_spec items last :
  Pandas.max items = Some last ->
  In (Some last) items /\ forall t, In (Some t) items -> ts_le t last.
Proof.
  unfold Pandas.max. destruct (somes items) as [| t ts] eqn:E; [discriminate|].
  intros [= <-]. destruct (fold_max_spec ts t) as (Hin & Hle & Hall).
  split.
  - apply in_somes. rewrite E. destruct Hin as [-> | Hin]; [left | right]; auto.
  - intros x Hx. apply in_somes in Hx. rewrite E in Hx.
    destruct Hx as [<- | Hx]; auto.
Qed.

Lemma max_none items : Pandas.max items = None <-> somes items = [].
Proof.
  unfold Pandas.max. destruct (somes items); split; intros; congruence.
Qed.

(** The records kept are those of the forecast between the two bounds,
    both included. *)
Lemma filter_window_spec forecast start_date end_date r :
  In r (filter_window forecast (Some start_date) (Some end_date)) <->
  In r forecast /\ ts_le start_date (ds r) /\ ts_le (ds r) end_date.
Proof.
  unfold filter_window. rewrite filter_In, andb_true_iff. cbn.
  rewrite !ts_leb_le. tauto.
Qed.

(** The bounds of a [Timestamp] are the least int64 but one (the least
    stands for [NaT]) and the greatest int64, counted in nanoseconds from
    1970-01-01. *)
Lemma Timestamp_bounds :
  of_epoch_nanos (INT64_MIN + 1) = Timestamp_min /\
  of_epoch_nanos INT64_MAX = Timestamp_max.
Proof. split; vm_compute; reflexivity. Qed.

(** The greatest entry of a column is what [max] answers. *)
Lemma max_is_greatest items last :
  In (Some last) items ->
  (forall t, In (Some t) items -> ts_le t last) ->
  Pandas.max items = Some last.
Proof.
  intros Hin Hub. destruct (Pandas.max items) as [m |] eqn:E.
  - destruct (max_spec _ _ E) as [Hm Hall].
    f_equal. apply ts_le_antisym; auto.
  - apply max_none in E. apply in_somes in Hin. rewrite E in Hin. destruct Hin.
Qed.

(** A [DateOffset] gives the date moved by the months, at the same time
    of day, when that can be represented, and nothing else. *)
Lemma DateOffset_apply_ok t months :
  representable_shift t months = true ->
  DateOffset_apply t months = Ok (mkTs (add_months (ts_date t) months) (ts_nanos t)).
Proof.
  unfold representable_shift, DateOffset_apply, to_timestamp. cbv zeta.
  rewrite andb_true_iff. intros [Hmicro Hfull]. rewrite Hmicro. cbn [rbind].
  destruct (Z.eqb_spec (ts_nanos t mod 1000) 0) as [E | E].
  - rewrite E, Z.sub_0_r. reflexivity.
  - cbn [ts_date ts_nanos].
    replace (ts_nanos t - ts_nanos t mod 1000 + ts_nanos t mod 1000)
      with (ts_nanos t) by lia.
    rewrite Hfull. reflexivity.
Qed.

Lemma DateOffset_apply_some t months r :
  DateOffset_apply t months = Ok r ->
  r = mkTs (add_months (ts_date t) months) (ts_nanos t).
Proof.
  unfold DateOffset_apply, to_timestamp. cbv zeta.
  destruct (in_bounds (mkTs (add_months (ts_date t) months)
                            (ts_nanos t - ts_nanos t mod 1000)));
    cbn [rbind]; [| discriminate].
  destruct (Z.eqb_spec (ts_nanos t mod 1000) 0) as [E | E].
  - rewrite E, Z.sub_0_r. intros [= <-]. reflexivity.
  - cbn [ts_date ts_nanos].
    replace (ts_nanos t - ts_nanos t mod 1000 + ts_nanos t mod 1000)
      with (ts_nanos t) by lia.
    destruct (in_bounds _); [| discriminate]. intros [= <-]. reflexivity.
Qed.

(** Lines 72 to 87, once the forecast of lines 72 to 79 is there. *)
Lemma window_stage_forecast libs df_prophet :
  window_stage libs df_prophet
  = rbind (forecast_of libs df_prophet)
          (fun forecast =>
             let? dates := getitem df_prophet "ds" in
             let? last_date := series_max dates in
             let? start_date := start_of last_date in
             let? end_date := end_of last_date in
             Ok (forecast, start_date, end_date)).
Proof.
  unfold window_stage, forecast_of.
  destruct (fit libs df_prophet) as [model |]; [| reflexivity]. cbn [rbind].
  destruct (make_future_dataframe model 3) as [future |]; [| reflexivity]. cbn [rbind].
  destruct (predict libs model future); reflexivity.
Qed.



End WindowFacts.

(** ** Formatting a date and reading it back *)

Module DateTextFacts.
Import Calendar Notions CalendarFacts DateText.

Lemma getdigit_digit_char k dflt :
  0 <= k <= 9 -> getdigit_ascii (digit_char k) dflt = k.
Proof.
  intros H.
  assert (k = 0 \/ k = 1 \/ k = 2 \/ k = 3 \/ k = 4 \/ k = 5 \/ k = 6 \/
          k = 7 \/ k = 8 \/ k = 9) as Hk by lia.
  repeat (destruct Hk as [-> | Hk]; [reflexivity|]). subst; reflexivity.
Qed.

Lemma div_10_10 y : y / 10 / 10 = y / 100.
Proof. rewrite Z.div_div by lia. reflexivity. Qed.

Lemma div_100_10 y : y / 100 / 10 = y / 1000.
Proof. rewrite Z.div_div by lia. reflexivity. Qed.

(** A year of four digits is written with exactly those digits. *)
Lemma decimal_four y :
  1000 <= y <= 9999 ->
  decimal y
  = String (digit_char (y / 1000))
      (String (digit_char (y / 100 mod 10))
         (String (digit_char (y / 10 mod 10))
            (String (digit_char (y mod 10)) ""))).
Proof.
  intros Hy. unfold decimal.
  assert (9 <= Z.log2 y) as Hlog by (apply Z.log2_le_pow2; lia).
  destruct (Z.to_nat (Z.log2 y)) as [| [| [| n]]] eqn:E; try lia.
  cbn [decimal_acc].
  pose proof (div_10_10 y) as E2. pose proof (div_100_10 y) as E3.
  assert (10 <= y / 10) by (apply Z.div_le_lower_bound; lia).
  assert (10 <= y / 100) by (apply Z.div_le_lower_bound; lia).
  assert (0 <= y / 1000 < 10)
    by (split; [apply Z.div_pos | apply Z.div_lt_upper_bound]; lia).
  destruct (Z.ltb_spec y 10); [lia|].
  destruct (Z.ltb_spec (y / 10) 10); [lia|].
  rewrite E2.
  destruct (Z.ltb_spec (y / 100) 10); [lia|].
  rewrite E3.
  destruct (Z.ltb_spec (y / 1000) 10); [| lia].
  rewrite (Z.mod_small (y / 1000) 10) by lia.
  reflexivity.
Qed.

(** The fields found in a text of the shape [ab/cd/efgh]. *)
Lemma read_fields_ten (a b c d e f g h : ascii) :
  let s := String a (String b (String "/" (String c (String d (String "/"
            (String e (String f (String g (String h ""))))))))) in
  read_fields s
  = Some (mkFields
            (getdigit_ascii a (-10) * 10 + getdigit_ascii b (-100) * 1)
            (getdigit_ascii c (-10) * 10 + getdigit_ascii d (-100) * 1)
            (getdigit_ascii e (-10) * 1000 + getdigit_ascii f (-10) * 100
             + getdigit_ascii g (-10) * 10 + getdigit_ascii h (-10000) * 1)
            true).
Proof. reflexivity. Qed.

Lemma strftime_dmY_shape t :
  1000 <= year (ts_date t) <= 9999 ->
  let d := ts_date t in
  strftime_dmY t
  = String (digit_char (day d / 10)) (String (digit_char (day d mod 10))
     (String "/"
       (String (digit_char (month d / 10)) (String (digit_char (month d mod 10))
         (String "/"
           (String (digit_char (year d / 1000))
             (String (digit_char (year d / 100 mod 10))
               (String (digit_char (year d / 10 mod 10))
                 (String (digit_char (year d mod 10)) ""))))))))).
Proof.
  intros Hy. unfold strftime_dmY. rewrite (decimal_four _ Hy). reflexivity.
Qed.

(** Read day first, the text written by [strftime('%d/%m/%Y')] for a
    valid date with a year of four digits names that date. *)
Lemma parse_strftime t :
  valid_date (ts_date t) = true ->
  1000 <= year (ts_date t) <= 9999 ->
  parse_delimited_date (strftime_dmY t) true = DateOf (ts_date t).
Proof.
  intros Hv Hy. pose proof Hv as Hv'. apply valid_date_spec in Hv'.
  destruct Hv' as [Hm Hd].
  pose proof (days_in_month_range (year (ts_date t)) (month (ts_date t))) as Hr.
  rewrite (strftime_dmY_shape t Hy). cbv zeta.
  unfold parse_delimited_date. rewrite read_fields_ten.
  cbn [f_month f_day f_year can_swap].
  destruct (ts_date t) as [y m d]. cbn [year month day] in *.
  assert (forall k, 0 <= k mod 10 <= 9) as Hmod
      by (intros k; pose proof (Z.mod_pos_bound k 10); lia).
  assert (forall k q, 0 < q -> 0 <= k < 10 * q -> 0 <= k / q <= 9) as Hdiv.
  { intros k q Hq Hk. split; [apply Z.div_pos; lia|].
    apply Z.lt_succ_r, Z.div_lt_upper_bound; lia. }
  rewrite !getdigit_digit_char by (first [ apply Hmod | apply Hdiv; lia ]).
  assert (d / 10 * 10 + d mod 10 * 1 = d) as -> by (pose proof (Z.div_mod d 10); lia).
  assert (m / 10 * 10 + m mod 10 * 1 = m) as -> by (pose proof (Z.div_mod m 10); lia).
  assert (y / 1000 * 1000 + y / 100 mod 10 * 100 + y / 10 mod 10 * 10 + y mod 10 * 1 = y)
    as ->.
  { pose proof (Z.div_mod y 10 ltac:(lia)).
    pose proof (Z.div_mod (y / 10) 10 ltac:(lia)).
    pose proof (Z.div_mod (y / 100) 10 ltac:(lia)).
    pose proof (div_10_10 y). pose proof (div_100_10 y).
    lia. }
  unfold MAX_DAYS_IN_MONTH, MAX_MONTH.
  repeat match goal with
         | |- context [?a <? ?b] => destruct (Z.ltb_spec a b); try lia
         | |- context [?a <=? ?b] => destruct (Z.leb_spec a b); try lia
         end; cbn [orb andb negb].
  all: rewrite Hv; reflexivity.
Qed.

Lemma in_bounds_year t :
  in_bounds t = true -> 1677 <= year (ts_date t) <= 2262.
Proof.
  unfold in_bounds. rewrite andb_true_iff, !ts_leb_le.
  unfold ts_le, Timestamp_min, Timestamp_max. cbn. lia.
Qed.

End DateTextFacts.

(** ** Dates of the export table and of the uploaded file *)

Module ParsingFacts.
Import Calendar Notions CalendarFacts DateText DateTextFacts Pandas Prophet App.

Lemma valid_ts_parts t :
  valid_ts t = true ->
  valid_date (ts_date t) = true /\ 1000 <= year (ts_date t) <= 9999.
Proof.
  unfold valid_ts. rewrite !andb_true_iff. intros (((Hv & _) & _) & Hb).
  split; [exact Hv|]. pose proof (in_bounds_year t Hb). lia.
Qed.

(** C5.  When every record of the forecast carries a well-formed
    timestamp, each [Date] text of the export table, parsed again with
    [dayfirst=True], is the date of its record's timestamp (at midnight:
    the time of day is not written). *)
Theorem export_date_round_trip
        (libs : Libs) (forecast : list ForecastRecord)
        (start_date end_date : option Timestamp) :
  (forall r, In r forecast -> valid_ts (ds r) = true) ->
  map (fun row => parse_datetime_string libs true (fst row))
      (export (filter_window forecast start_date end_date))
  = map (fun r => Some (midnight (ts_date (ds r))))
        (filter_window forecast start_date end_date).
Proof.
  intros Hvalid. unfold export. rewrite map_map. apply map_ext_in.
  intros r Hr. cbn [fst].
  assert (In r forecast) as Hin
      by (unfold filter_window in Hr; apply filter_In in Hr; tauto).
  destruct (valid_ts_parts _ (Hvalid r Hin)) as [Hv Hy].
  unfold parse_datetime_string. rewrite (parse_strftime _ Hv Hy). reflexivity.
Qed.

(** The theorem at a forecast of one record, with the window of
    2024-01-31. *)
Lemma export_date_round_trip_witness :
  valid_ts april3 = true /\
  export (filter_window one_record (Some (midnight (mkDate 2023 8 31)))
                        (Some (midnight (mkDate 2024 4 30))))
  = [("03/04/2024", Samples.flat_prediction)] /\
  map (fun row => parse_datetime_string Samples.sample_libs true (fst row))
      (export (filter_window one_record (Some (midnight (mkDate 2023 8 31)))
                             (Some (midnight (mkDate 2024 4 30)))))
  = [Some (midnight (mkDate 2024 4 3))].
Proof.
  split; [reflexivity|]. split; [reflexivity|].
  rewrite (export_date_round_trip Samples.sample_libs one_record
             (Some (midnight (mkDate 2023 8 31))) (Some (midnight (mkDate 2024 4 30)))).
  - reflexivity.
  - intros r [<- | []]. reflexivity.
Defined.

(** *** A text read day first *)

Lemma digit_of_spec c k dflt :
  digit_of c = Some k ->
  getdigit_ascii c dflt = k /\ is_delimiter c = false /\ 0 <= k <= 9.
Proof.
  destruct c as [[] [] [] [] [] [] [] []]; cbn; intros H; try discriminate;
    injection H as <-; repeat split; lia.
Qed.

Lemma separator_delimiter c : separator c = true -> is_delimiter c = true.
Proof.
  destruct c as [[] [] [] [] [] [] [] []]; cbn; intros H; try discriminate;
    reflexivity.
Qed.

Lemma split_nonempty s : split s <> [].
Proof.
  destruct s as [| c s]; cbn; [discriminate|].
  destruct (separator c); [discriminate|].
  destruct (split s); discriminate.
Qed.

(** A text of one part is that part; a text of more parts is its first
    part, a separator, and the text of the other parts. *)
Lemma split_one s part : split s = [part] -> s = part.
Proof.
  revert part. induction s as [| c s IH]; intros part; cbn.
  - intros [= <-]. reflexivity.
  - destruct (separator c).
    + intros H. injection H as _ H. exfalso. exact (split_nonempty s H).
    + destruct (split s) as [| p ps] eqn:E; [intros [= <-]; exfalso; exact (split_nonempty s E)|].
      intros [= <- ->]. f_equal. apply IH. reflexivity.
Qed.

Lemma split_more s part next parts :
  split s = part :: next :: parts ->
  exists c s', s = (part ++ String c s')%string /\ separator c = true
               /\ split s' = next :: parts.
Proof.
  revert part. induction s as [| c s IH]; intros part; cbn; [discriminate|].
  destruct (separator c) eqn:Hc.
  - intros [= <- H]. exists c, s. repeat split; assumption.
  - destruct (split s) as [| p ps] eqn:E; [discriminate|].
    intros [= <- ->]. destruct (IH p eq_refl) as (c' & s' & -> & Hsep & Hs').
    exists c', s'. repeat split; assumption.
Qed.

(** The fields that the fast path finds in a text with a day-first
    reading: the day where it looks for the month and the month where it
    looks for the day. *)
Lemma day_first_fields s d :
  day_first_reading s = Some d ->
  exists f,
    read_fields s = Some f /\ can_swap f = true /\
    f_month f = day d /\ f_day f = month d /\ f_year f = year d /\
    1000 <= year d /\ valid_date d = true.
Proof.
  unfold day_first_reading.
  destruct (split s) as [| dd [| mm [| yyyy [|]]]] eqn:E; try discriminate.
  destruct (split_more _ _ _ _ E) as (c1 & s1 & -> & Hc1 & E1).
  destruct (split_more _ _ _ _ E1) as (c2 & s2 & -> & Hc2 & E2).
  apply split_one in E2. subst s2.
  apply separator_delimiter in Hc1, Hc2.
  destruct yyyy as [| e [| f [| g [| h [| ? ?]]]]]; cbn [String.length Nat.eqb];
    rewrite ?andb_false_r; try discriminate.
  destruct dd as [| a [| b [| ? ?]]]; cbn [one_or_two String.length Nat.eqb orb andb];
    try discriminate;
    (destruct mm as [| c [| c' [| ? ?]]]; cbn [one_or_two String.length Nat.eqb orb andb];
     try discriminate);
    cbn [number];
    repeat match goal with
           | |- context [digit_of ?x] =>
               let k := fresh "k" in
               let H := fresh "H" in
               destruct (digit_of x) as [k |] eqn:H; [| discriminate]
           end;
    repeat match goal with
           | H : digit_of _ = Some _ |- _ =>
               let G := fresh "G" in
               let D := fresh "D" in
               let R := fresh "R" in
               pose proof (digit_of_spec _ _ (-10) H) as (G & D & R);
               let G' := fresh "G" in
               pose proof (proj1 (digit_of_spec _ _ (-100) H)) as G';
               let G'' := fresh "G" in
               pose proof (proj1 (digit_of_spec _ _ (-10000) H)) as G'';
               clear H
           end;
    match goal with
    | |- (if ?b then _ else _) = _ -> _ =>
        destruct b eqn:Hb; [| discriminate]
    end;
    apply andb_true_iff in Hb; destruct Hb as [Hy Hv]; apply Z.leb_le in Hy;
    intros [= <-]; cbn [year month day];
    eexists; (split; [unfold read_fields, parse_1digit, parse_2digit, parse_4digit;
                      cbn [append String.length Nat.eqb char_at String.get Nat.add andb];
                      rewrite ?Hc1, ?Hc2;
                      repeat match goal with
                             | D : is_delimiter _ = false |- _ => rewrite ?D; clear D
                             end;
                      cbn [andb]; reflexivity|]);
    cbn [can_swap f_month f_day f_year];
    repeat split; try assumption; lia.
Qed.

(** A text with a day-first reading is given that reading. *)
Lemma day_first_parse s d :
  day_first_reading s = Some d -> parse_delimited_date s true = DateOf d.
Proof.
  intros H. destruct (day_first_fields s d H)
    as ([a b y swap] & Hf & Hswap & Ha & Hb & Hy & Hyear & Hv).
  cbn [can_swap f_month f_day f_year] in *. subst swap.
  unfold parse_delimited_date. rewrite Hf.
  cbn [f_month f_day f_year can_swap].
  destruct d as [dy dm dd]. cbn [year month day] in *. subst a b y.
  pose proof Hv as Hv'. apply valid_date_spec in Hv'. cbn [year month day] in Hv'.
  pose proof (days_in_month_range dy dm).
  unfold MAX_DAYS_IN_MONTH, MAX_MONTH.
  repeat match goal with
         | |- context [?u <? ?v] => destruct (Z.ltb_spec u v); try lia
         | |- context [?u <=? ?v] => destruct (Z.leb_spec u v); try lia
         end; cbn [orb andb negb]; rewrite Hv; reflexivity.
Qed.

(** A text with a day-first reading is none of the texts that stand for a
    missing date. *)
Lemma day_first_not_missing s d :
  day_first_reading s = Some d -> is_nat_string s = false.
Proof.
  intros H. destruct (is_nat_string s) eqn:E; [| reflexivity].
  unfold is_nat_string in E. apply orb_true_iff in E. destruct E as [E | E].
  - destruct s; [discriminate H | discriminate E].
  - apply existsb_exists in E. destruct E as (x & Hx & Heq).
    apply String.eqb_eq in Heq. subst x.
    cbn in Hx. repeat (destruct Hx as [<- | Hx]; [discriminate H|]). destruct Hx.
Qed.

Lemma convert_object_position libs dayfirst p q o :
  is_ok (convert_object libs dayfirst p o) = is_ok (convert_object libs dayfirst q o).
Proof.
  destruct o as [s | b |]; cbn; try reflexivity.
  destruct (is_nat_string s); [reflexivity|].
  destruct (parse_datetime_string libs dayfirst s) as [t |]; [| reflexivity].
  destruct (in_bounds t); reflexivity.
Qed.

(** The conversion of an object column stops at the first text that cannot
    be parsed, with an error that carries its row and the text. *)
Lemma convert_objects_error libs l : forall p i s,
  nth_error l i = Some (PyStr s) ->
  is_nat_string s = false ->
  parse_datetime_string libs true s = None ->
  (forall j o, (j < i)%nat -> nth_error l j = Some o ->
               is_ok (convert_object libs true j o) = true) ->
  convert_objects libs true p l = Raise (DateParseError (p + i) s).
Proof.
  induction l as [| o l IH]; intros p i s Hi Hnat Hs Hbefore.
  - destruct i; discriminate.
  - destruct i as [| i]; cbn in Hi.
    + injection Hi as ->. cbn. rewrite Hnat, Hs. cbn. rewrite Nat.add_0_r. reflexivity.
    + cbn [convert_objects].
      pose proof (Hbefore 0%nat o ltac:(lia) eq_refl) as H0.
      rewrite (convert_object_position libs true 0 p) in H0.
      destruct (convert_object libs true p o) as [t |]; [| discriminate].
      cbn [rbind].
      rewrite (IH (S p) i s Hi Hnat Hs).
      * cbn. f_equal. f_equal. lia.
      * intros j o' Hj Ho'.
        rewrite (convert_object_position libs true j (S j)).
        apply (Hbefore (S j) o'); [lia | exact Ho'].
Qed.




End ParsingFacts.

(** ** Labels, projection and renaming *)

Module FrameFacts.
Import Calendar Notions Pandas Prophet App.

Lemma getitem_in df key c : getitem df key = Ok c -> In key (columns df).
Proof.
  unfold getitem, loc, columns.
  destruct (filter (fun p => String.eqb (fst p) key) df) as [| p l] eqn:E;
    [discriminate|].
  intros _. assert (In p (filter (fun p => String.eqb (fst p) key) df)) as Hp
      by (rewrite E; left; reflexivity).
  apply filter_In in Hp. destruct Hp as [Hin Heq].
  apply String.eqb_eq in Heq. subst key. apply in_map. exact Hin.
Qed.

Lemma existsb_eqb_in key l : existsb (String.eqb key) l = true <-> In key l.
Proof.
  rewrite existsb_exists. split.
  - intros (x & Hx & Heq). apply String.eqb_eq in Heq. subst. exact Hx.
  - intros H. exists key. split; [exact H | apply String.eqb_refl].
Qed.

(** The labels stay as they are when an existing column is assigned. *)
Lemma setitem_columns df key c :
  In key (columns df) -> columns (setitem df key c) = columns df.
Proof.
  intros Hin. unfold setitem.
  apply existsb_eqb_in in Hin. rewrite Hin.
  unfold columns. rewrite map_map. apply map_ext.
  intros [k col]. cbn. destruct (String.eqb k key) eqn:E; [| reflexivity].
  apply String.eqb_eq in E. subst. reflexivity.
Qed.

(** The columns under the other labels are untouched. *)
Lemma setitem_loc_other df key c k :
  k <> key -> loc (setitem df key c) k = loc df k.
Proof.
  intros Hk. unfold setitem, loc.
  destruct (existsb (String.eqb key) (columns df)).
  - induction df as [| [k' col] df IH]; [reflexivity|].
    cbn. destruct (String.eqb k' key) eqn:E.
    + apply String.eqb_eq in E. subst k'. cbn.
      destruct (String.eqb key k) eqn:E'.
      * apply String.eqb_eq in E'. congruence.
      * exact IH.
    + cbn. destruct (String.eqb k' k); cbn; rewrite IH; reflexivity.
  - rewrite filter_app, map_app. cbn.
    destruct (String.eqb key k) eqn:E.
    + apply String.eqb_eq in E. congruence.
    + cbn. apply app_nil_r.
Qed.

(** Under the label assigned there is the new column, as many times as
    the label stood in the frame. *)
Lemma setitem_loc_same df key c :
  In key (columns df) ->
  loc (setitem df key c) key = map (fun _ => c) (loc df key).
Proof.
  intros Hin. unfold setitem, loc.
  apply existsb_eqb_in in Hin. rewrite Hin. clear Hin.
  induction df as [| [k' col] df IH]; [reflexivity|].
  cbn. destruct (String.eqb k' key) eqn:E; cbn.
  - rewrite String.eqb_refl. cbn. f_equal. exact IH.
  - rewrite E. exact IH.
Qed.

Lemma setitem_getitem df key col c :
  getitem df key = Ok col -> getitem (setitem df key c) key = Ok c.
Proof.
  intros H. pose proof (getitem_in _ _ _ H) as Hin.
  unfold getitem in *. rewrite (setitem_loc_same _ _ _ Hin).
  destruct (loc df key) as [| x [| y l]]; try discriminate. reflexivity.
Qed.

Lemma setitem_getitem_other df key c k :
  k <> key -> getitem (setitem df key c) k = getitem df k.
Proof.
  intros H. unfold getitem. rewrite (setitem_loc_other _ _ _ _ H). reflexivity.
Qed.

(** The rows of a column under a unique label, as the projection finds
    them. *)
Lemma getitem_filter df key c :
  getitem df key = Ok c ->
  filter (fun p => String.eqb (fst p) key) df = [(key, c)].
Proof.
  unfold getitem, loc.
  destruct (filter (fun p => String.eqb (fst p) key) df) as [| [k x] [| q l]] eqn:E;
    try discriminate.
  cbn. intros [= ->].
  assert (In (k, c) (filter (fun p => String.eqb (fst p) key) df)) as Hp
      by (rewrite E; left; reflexivity).
  apply filter_In in Hp. destruct Hp as [_ Heq]. cbn in Heq.
  apply String.eqb_eq in Heq. subst. reflexivity.
Qed.

Lemma filter_label_fst (df : DataFrame) key p :
  In p (filter (fun p => String.eqb (fst p) key) df) -> fst p = key.
Proof. intros H. apply filter_In in H. apply String.eqb_eq. tauto. Qed.

(** The display [{c: "ds", c: "y"}] is the dict [{c: "y"}]. *)
Lemma dict_display_same c :
  dict_display [(c, "ds"); (c, "y")] = [(c, "y")].
Proof. unfold dict_display. cbn. rewrite String.eqb_refl. reflexivity. Qed.

Lemma dict_display_distinct a b :
  a <> b -> dict_display [(a, "ds"); (b, "y")] = [(a, "ds"); (b, "y")].
Proof.
  intros H. unfold dict_display. cbn.
  destruct (String.eqb a b) eqn:E; [| reflexivity].
  apply String.eqb_eq in E. contradiction.
Qed.

(** The projection on labels that the frame has: for each label in turn,
    the columns under it. *)
Lemma getitem_list_present (df : DataFrame) keys :
  (forall k, In k keys -> In k (columns df)) ->
  getitem_list df keys
  = Ok (flat_map (fun k => filter (fun p => String.eqb (fst p) k) df) keys).
Proof.
  intros Hall. unfold getitem_list.
  assert (filter (fun k => negb (existsb (String.eqb k) (columns df))) keys = [])
    as ->; [| reflexivity].
  induction keys as [| k keys IH]; [reflexivity|].
  cbn [filter].
  rewrite (proj2 (existsb_eqb_in k (columns df)) (Hall k (or_introl eq_refl))).
  cbn [negb]. apply IH. intros k' Hk'. apply Hall. right. exact Hk'.
Qed.

(** Line 48 with one label chosen twice, a label of the frame: both copies
    of the column are renamed [y], no column is named [ds], and
    [sort_values("ds")] raises [KeyError]. *)
Lemma prepare_same libs df c :
  In c (columns df) -> prepare libs df c c = Raise (KeyError "ds").
Proof.
  intros Hin. unfold prepare.
  rewrite getitem_list_present by (intros k [<- | [<- | []]]; exact Hin).
  cbn [flat_map rbind]. rewrite dict_display_same.
  pose proof (filter_label_fst df c) as Hfst.
  unfold sort_values.
  set (cols := filter (fun p => String.eqb (fst p) c) df) in *.
  assert (loc (rename (cols ++ cols ++ []) [(c, "y")]) "ds" = []) as ->;
    [| reflexivity].
  unfold loc, rename. rewrite app_nil_r.
  assert (forall q, In q (cols ++ cols) -> fst q = c) as Hall
      by (intros q Hq; apply in_app_or in Hq; destruct Hq; auto).
  induction (cols ++ cols) as [| q l IH]; [reflexivity|].
  cbn. rewrite (Hall q (or_introl eq_refl)), String.eqb_refl. cbn.
  apply IH. intros q' Hq'. apply Hall. right. exact Hq'.
Qed.

Lemma take_column_numeric idx c :
  is_numeric_dtype (take_column idx c) = is_numeric_dtype c.
Proof. destruct c; reflexivity. Qed.

(** Line 48 with two different labels, each naming one column, the first
    a datetime column: the two columns, named [ds] and [y], with their
    rows in the order of the indexer. *)
Lemma prepare_distinct libs df date_col y_col items cy :
  date_col <> y_col ->
  getitem df date_col = Ok (Datetime64 items) ->
  getitem df y_col = Ok cy ->
  prepare libs df date_col y_col
  = Ok [ ("ds", Datetime64 (take (nargsort libs items) items));
         ("y", take_column (nargsort libs items) cy) ].
Proof.
  intros Hne Hd Hy. unfold prepare.
  rewrite getitem_list_present
    by (intros k [<- | [<- | []]]; eapply getitem_in; eassumption).
  cbn [flat_map].
  rewrite (getitem_filter _ _ _ Hd), (getitem_filter _ _ _ Hy). cbn [rbind app].
  rewrite (dict_display_distinct _ _ Hne).
  unfold rename. cbn [map fst snd dict_get].
  rewrite String.eqb_refl.
  destruct (String.eqb date_col y_col) eqn:E;
    [apply String.eqb_eq in E; contradiction|].
  rewrite String.eqb_refl.
  reflexivity.
Qed.

(** Line 45 on a column under a unique label. *)
Lemma converted_ok libs df date_col col items :
  getitem df date_col = Ok col ->
  to_datetime_items libs true col = Ok items ->
  converted libs df date_col = Ok (setitem df date_col (Datetime64 items)).
Proof.
  intros Hc Hi. unfold converted, to_datetime. rewrite Hc. cbn [rbind].
  rewrite Hi. reflexivity.
Qed.

End FrameFacts.

(** ** Runs of the script *)

Module RunFacts.
Import Calendar Notions Pandas Prophet App ScriptFacts FrameFacts.

Lemma run_confirm libs raw date_col y_col :
  run libs (confirm raw date_col y_col)
  = match on_confirm libs date_col y_col (read_csv raw) with
    | (df', out, Ok _) => mkRun (loaded_page (read_csv raw) ++ out) (Some df') None
    | (df', out, Raise e) => mkRun (loaded_page (read_csv raw) ++ out) (Some df') (Some e)
    end.
Proof. reflexivity. Qed.

(** C9, as the code has it.  Line 45 assigns the converted column to the
    loaded frame itself: after a confirmed run the variable [df] holds the
    frame with its date column replaced by timestamps (the loaded frame
    when the conversion raised).  The labels and their order stay and the
    columns under every other label are untouched. *)
Theorem validation_converts_in_place
        (libs : Libs) (raw : list (string * list Cell)) (date_col y_col : string) :
  df_end (run libs (confirm raw date_col y_col))
  = Some (match converted libs (read_csv raw) date_col with
          | Ok df' => df'
          | Raise _ => read_csv raw
          end) /\
  forall col items,
    getitem (read_csv raw) date_col = Ok col ->
    to_datetime_items libs true col = Ok items ->
    converted libs (read_csv raw) date_col
    = Ok (setitem (read_csv raw) date_col (Datetime64 items)) /\
    columns (setitem (read_csv raw) date_col (Datetime64 items))
    = columns (read_csv raw) /\
    getitem (setitem (read_csv raw) date_col (Datetime64 items)) date_col
    = Ok (Datetime64 items) /\
    forall k, k <> date_col ->
              loc (setitem (read_csv raw) date_col (Datetime64 items)) k
              = loc (read_csv raw) k.
Proof.
  split.
  - rewrite run_confirm, on_confirm_eq.
    pose proof (process_df libs date_col y_col (read_csv raw)) as Hdf.
    destruct (process libs date_col y_col (read_csv raw)) as [[df' out] [[] | e]];
      cbn in Hdf |- *; rewrite Hdf; reflexivity.
  - intros col items Hcol Hitems.
    split; [exact (converted_ok _ _ _ _ _ Hcol Hitems)|].
    split; [exact (setitem_columns _ _ _ (getitem_in _ _ _ Hcol))|].
    split; [exact (setitem_getitem _ _ _ _ Hcol)|].
    intros k Hk. apply setitem_loc_other. exact Hk.
Qed.

(** The theorem at the file of four months. *)
Lemma validation_converts_in_place_witness :
  getitem (read_csv monthly_raw) "Date"
  = Ok (Object [PyStr "01/10/2023"; PyStr "01/12/2023"; PyStr "01/11/2023";
                PyStr "01/09/2023"]) /\
  columns (setitem (read_csv monthly_raw) "Date"
             (Datetime64 [Some (midnight (mkDate 2023 10 1));
                          Some (midnight (mkDate 2023 12 1));
                          Some (midnight (mkDate 2023 11 1));
                          Some (midnight (mkDate 2023 9 1))]))
  = ["Date"; "Calls"].
Proof.
  split; [reflexivity|].
  destruct (validation_converts_in_place Samples.sample_libs monthly_raw "Date" "Calls")
    as [_ H].
  destruct (H (Object [PyStr "01/10/2023"; PyStr "01/12/2023"; PyStr "01/11/2023";
                       PyStr "01/09/2023"])
              [Some (midnight (mkDate 2023 10 1)); Some (midnight (mkDate 2023 12 1));
               Some (midnight (mkDate 2023 11 1)); Some (midnight (mkDate 2023 9 1))]
              eq_refl eq_refl) as (_ & Hcols & _).
  rewrite Hcols. reflexivity.
Defined.

(** C9 as stated fails: the frame that [read_csv] produced holds texts in
    its date column, and after validation the same variable holds
    timestamps there. *)
Lemma loaded_table_is_mutated :
  read_csv one_row_raw
  = [("Date", Object [PyStr "01/10/2023"]); ("Calls", Int64 [5])] /\
  df_end (run Samples.sample_libs (confirm one_row_raw "Date" "Calls"))
  = Some [("Date", Datetime64 [Some (midnight (mkDate 2023 10 1))]);
          ("Calls", Int64 [5])].
Proof. split; reflexivity. Qed.

(** *** One label chosen twice *)

(** With the same label of the frame for the date and for the target, the
    conversion of line 45 is made, line 48 raises [KeyError], and neither
    outcome of the numeric check is ever shown. *)
Lemma same_column_stops_at_line_48 libs df c :
  In c (columns df) ->
  on_confirm libs c c df
  = match converted libs df c with
    | Ok df' => (df', [st_error processing_error_text (Some (KeyError "ds"))], Ok tt)
    | Raise e => (df, [st_error processing_error_text (Some e)], Ok tt)
    end.
Proof.
  intros Hin. rewrite on_confirm_eq, process_eq.
  destruct (converted libs df c) as [df' |] eqn:E; [| reflexivity].
  assert (In c (columns df')) as Hin'.
  { unfold converted in E.
    destruct (getitem df c) as [col |]; [| discriminate]. cbn [rbind] in E.
    destruct (to_datetime libs true col) as [x |]; [| discriminate].
    cbn [rbind] in E. injection E as <-.
    rewrite (setitem_columns _ _ _ Hin). exact Hin. }
  rewrite (prepare_same libs df' c Hin'). reflexivity.
Qed.

(** C10 at the file of four months with [Date] chosen twice: the page ends
    with the report of [KeyError: 'ds']; the numeric check has shown
    nothing. *)
Lemma same_column_run :
  page (run Samples.sample_libs (confirm monthly_raw "Date" "Date"))
  = loaded_page (read_csv monthly_raw)
    ++ [st_error processing_error_text (Some (KeyError "ds"))].
Proof. reflexivity. Qed.

End RunFacts.

(** ** Errors: what is caught, what has been shown by then *)

Module ErrorFacts.
Import Calendar Notions Pandas Prophet App ScriptFacts FrameFacts RunFacts.

(** C7, as the code has it.  In a run with a loaded file and the button
    pressed, no exception leaves the script, and the page after the
    selection widgets is what the body of the [try] had shown, followed,
    when the body raised [e], by one error element that carries that very
    [e].  Stage by stage: an exception of the conversion, of the
    preparation or of the numeric check is reported alone; one of the fit,
    the forecast or the window after the preview and the spinner; one of
    the spreadsheet writer after the forecast table; one of the first plot
    after the download button; one of the second plot after the first.  So
    the elements after the selection widgets are the full sequence, or the
    single message that the target is not numeric, or a beginning of the
    full sequence (of 0, 4, 6, 8 or 10 elements) followed by the error
    element. *)
Theorem errors_are_reported_after_what_was_shown
        (libs : Libs) (raw : list (string * list Cell)) (date_col y_col : string) :
  uncaught (run libs (confirm raw date_col y_col)) = None /\
  page (run libs (confirm raw date_col y_col))
  = loaded_page (read_csv raw)
    ++ snd (fst (process libs date_col y_col (read_csv raw)))
    ++ match snd (process libs date_col y_col (read_csv raw)) with
       | Ok _ => []
       | Raise e => [failure e]
       end /\
  page (run libs (confirm raw date_col y_col))
  = loaded_page (read_csv raw) ++ confirmed_output libs (read_csv raw) date_col y_col /\
  (map call (confirmed_output libs (read_csv raw) date_col y_col) = full_sequence \/
   confirmed_output libs (read_csv raw) date_col y_col
   = [st_error not_numeric_text None] \/
   exists shown e,
     confirmed_output libs (read_csv raw) date_col y_col = shown ++ [failure e] /\
     snd (process libs date_col y_col (read_csv raw)) = Raise e /\
     exists n, In n [0; 4; 6; 8; 10]%nat /\
               map call shown = firstn n full_sequence).
Proof.
  rewrite run_confirm, on_confirm_eq.
  unfold confirmed_output. rewrite process_eq.
  destruct (converted libs (read_csv raw) date_col) as [df' | e].
  2: { repeat split; try reflexivity.
       right; right. exists [], e. repeat split. prefix_of_full_sequence. }
  destruct (prepare libs df' date_col y_col) as [df_prophet | e].
  2: { repeat split; try reflexivity.
       right; right. exists [], e. repeat split. prefix_of_full_sequence. }
  destruct (getitem df_prophet "y") as [y | e].
  2: { repeat split; try reflexivity.
       right; right. exists [], e. repeat split. prefix_of_full_sequence. }
  destruct (is_numeric_dtype y).
  2: { repeat split; try reflexivity. right; left. reflexivity. }
  rewrite forecast_and_report_eq.
  destruct (window_stage libs df_prophet) as [[[forecast start_date] end_date] | e].
  2: { repeat split; try reflexivity.
       right; right. exists (preview df_prophet ++ [st_spinner "Training the model..."]), e.
       split; [reflexivity|]. split; [reflexivity|]. prefix_of_full_sequence. }
  cbv zeta.
  destruct (to_excel libs _) as [data | e].
  2: { repeat split; try reflexivity.
       right; right. eexists (preview df_prophet ++ firstn 3 (report _ "" y_col _ _)), e.
       split; [reflexivity|]. split; [reflexivity|]. prefix_of_full_sequence. }
  destruct (plot_raises libs) as [e |].
  { repeat split; try reflexivity.
    right; right. eexists (preview df_prophet ++ firstn 5 (report _ data y_col _ _)), e.
    split; [reflexivity|]. split; [reflexivity|]. prefix_of_full_sequence. }
  destruct (plot_components_raises libs) as [e |].
  { repeat split; try reflexivity.
    right; right. eexists (preview df_prophet ++ firstn 7 (report _ data y_col _ _)), e.
    split; [reflexivity|]. split; [reflexivity|]. prefix_of_full_sequence. }
  repeat split; try reflexivity. left. reflexivity.
Qed.

(** C7 as stated fails: with a file of one row the page shows the success
    message and the preview of the prepared data, and then the report
    that the fit failed. *)
Lemma partial_output_before_failure :
  page (run Samples.sample_libs (confirm one_row_raw "Date" "Calls"))
  = loaded_page (read_csv one_row_raw)
    ++ preview [("ds", Datetime64 [Some (midnight (mkDate 2023 10 1))]);
                ("y", Int64 [5])]
    ++ [ st_spinner "Training the model...";
         st_error processing_error_text
                  (Some (ValueError "Dataframe has less than 2 non-NaN rows.")) ].
Proof. reflexivity. Qed.

(** When [read_csv] raises, line 32 reports it and line 37 then reads the
    unbound [df]: the run ends with a [NameError] that no handler
    catches. *)
Lemma failed_load_ends_in_NameError libs e date_col y_col button :
  run libs (mkSession (Some (Raise e)) date_col y_col button)
  = mkRun (preamble ++ [st_error reading_error_text (Some e)])
          None (Some (NameError "df")).
Proof. reflexivity. Qed.

(** *** Too few rows, constant values *)

Lemma has_column_getitem df key c : getitem df key = Ok c -> has_column df key = true.
Proof.
  intros H. unfold has_column. apply existsb_eqb_in.
  exact (getitem_in _ _ _ H).
Qed.

(** [fit] refuses a frame with fewer than two rows whose target is not
    missing, before anything is fitted. *)
Lemma fit_too_few libs df_prophet y dates :
  getitem df_prophet "y" = Ok y ->
  getitem df_prophet "ds" = Ok dates ->
  (observations y < 2)%nat ->
  fit libs df_prophet = Raise (ValueError "Dataframe has less than 2 non-NaN rows.").
Proof.
  intros Hy Hd Hn. unfold fit.
  rewrite (has_column_getitem _ _ _ Hy), (has_column_getitem _ _ _ Hd).
  cbn [negb orb]. rewrite Hy, Hd. cbn [rbind].
  unfold observations in Hn. apply Nat.ltb_lt in Hn. rewrite Hn. reflexivity.
Qed.

(** [fit] goes through on a target of one constant value without calling
    the optimiser. *)
Lemma fit_constant libs df_prophet y items ys :
  getitem df_prophet "y" = Ok y ->
  getitem df_prophet "ds" = Ok (Datetime64 items) ->
  (2 <= observations y)%nat ->
  to_numeric y = Ok ys ->
  forallb is_some (select (notnull y) items) = true ->
  constant (map snd (combine (somes (select (notnull y) items))
                             (somes (select (notnull y) ys)))) = true ->
  fit libs df_prophet
  = Ok (mkModel (unique_sorted items)
                (combine (somes (select (notnull y) items))
                         (somes (select (notnull y) ys)))).
Proof.
  intros Hy Hd Hn Hys Hds Hconst. unfold fit.
  rewrite (has_column_getitem _ _ _ Hy), (has_column_getitem _ _ _ Hd).
  cbn [negb orb]. rewrite Hy, Hd. cbn [rbind].
  unfold observations in Hn.
  destruct (Nat.ltb_spec (List.length (filter (fun b : bool => b) (notnull y))) 2);
    [lia|].
  cbn [to_datetime_items rbind]. rewrite Hys. cbn [rbind].
  rewrite Hds. cbn [negb]. rewrite Hconst. reflexivity.
Qed.

(** C8, as the code has it.  The script has no guard of its own before
    [model.fit].  (1) With a frame without rows and two different labels,
    the target column is of dtype [object]: the run ends at the numeric
    check with the message that the target is not numeric, and the model is
    never fitted.  (2) When the prepared frame has fewer than two rows
    whose target is not missing, [fit] itself raises before any fitting,
    and the run shows the preview, the spinner and the handler's report of
    that exception.  (3) A target of one constant finite value with at
    least two rows is not refused: [fit] returns the model of the training
    rows, whatever the optimiser would do. *)
Theorem fit_without_guard (libs : Libs) :
  (forall df date_col y_col,
      date_col <> y_col ->
      getitem df date_col = Ok (Object []) ->
      getitem df y_col = Ok (Object []) ->
      on_confirm libs date_col y_col df
      = (setitem df date_col (Datetime64 []),
         [st_error not_numeric_text None], Ok tt)) /\
  (forall df date_col y_col df' df_prophet y dates,
      converted libs df date_col = Ok df' ->
      prepare libs df' date_col y_col = Ok df_prophet ->
      getitem df_prophet "y" = Ok y ->
      is_numeric_dtype y = true ->
      getitem df_prophet "ds" = Ok dates ->
      (observations y < 2)%nat ->
      on_confirm libs date_col y_col df
      = (df',
         preview df_prophet
         ++ [ st_spinner "Training the model...";
              failure (ValueError "Dataframe has less than 2 non-NaN rows.") ],
         Ok tt)) /\
  (forall df_prophet y items ys,
      getitem df_prophet "y" = Ok y ->
      getitem df_prophet "ds" = Ok (Datetime64 items) ->
      (2 <= observations y)%nat ->
      to_numeric y = Ok ys ->
      forallb is_some (select (notnull y) items) = true ->
      constant (map snd (training_rows y items ys)) = true ->
      fit libs df_prophet
      = Ok (mkModel (unique_sorted items) (training_rows y items ys))).
Proof.
  split; [| split].
  - intros df date_col y_col Hne Hd Hy.
    rewrite on_confirm_eq, process_eq.
    rewrite (converted_ok libs df date_col (Object []) [] Hd eq_refl).
    rewrite (prepare_distinct libs _ date_col y_col [] (Object []) Hne).
    + reflexivity.
    + exact (setitem_getitem _ _ _ _ Hd).
    + rewrite setitem_getitem_other by congruence. exact Hy.
  - intros df date_col y_col df' df_prophet y dates Hconv Hprep Hy Hnum Hd Hn.
    rewrite on_confirm_eq, process_eq, Hconv, Hprep, Hy, Hnum.
    rewrite forecast_and_report_eq. unfold window_stage.
    rewrite (fit_too_few libs _ _ _ Hy Hd Hn). reflexivity.
  - intros df_prophet y items ys Hy Hd Hn Hys Hds Hc.
    exact (fit_constant libs _ _ _ _ Hy Hd Hn Hys Hds Hc).
Qed.

(** The theorem at the file without rows, at the file of one row and at
    the prepared frame of the file of two equal values, with an optimiser
    that always fails. *)
Lemma fit_without_guard_witness :
  on_confirm Samples.failing_stan_libs "Date" "Calls" (read_csv header_only_raw)
  = ([("Date", Datetime64 []); ("Calls", Object [])],
     [st_error not_numeric_text None], Ok tt) /\
  on_confirm Samples.failing_stan_libs "Date" "Calls" (read_csv one_row_raw)
  = ([("Date", Datetime64 [Some (midnight (mkDate 2023 10 1))]); ("Calls", Int64 [5])],
     preview [("ds", Datetime64 [Some (midnight (mkDate 2023 10 1))]); ("y", Int64 [5])]
     ++ [ st_spinner "Training the model...";
          failure (ValueError "Dataframe has less than 2 non-NaN rows.") ],
     Ok tt) /\
  is_ok (fit Samples.failing_stan_libs
             [("ds", Datetime64 [Some (midnight (mkDate 2023 10 1));
                                 Some (midnight (mkDate 2023 11 1))]);
              ("y", Int64 [5; 5])]) = true.
Proof.
  destruct (fit_without_guard Samples.failing_stan_libs) as (Hempty & Hfew & Hconst).
  split; [| split].
  - rewrite (Hempty (read_csv header_only_raw) "Date" "Calls");
      [reflexivity | discriminate | reflexivity | reflexivity].
  - apply (Hfew (read_csv one_row_raw) "Date" "Calls" _ _ (Int64 [5])
                (Datetime64 [Some (midnight (mkDate 2023 10 1))]));
      solve [reflexivity | cbn; lia].
  - rewrite (Hconst _ (Int64 [5; 5])
                    [Some (midnight (mkDate 2023 10 1)); Some (midnight (mkDate 2023 11 1))]
                    [Some (inject_Z 5); Some (inject_Z 5)]);
      solve [reflexivity | cbn; lia].
Defined.

(** C8 as stated fails: a file of two rows with the same value, whose
    variance is zero, is fitted and reported in full, even with an
    optimiser that always fails; and a file without rows is answered with
    the message that the target is not numeric. *)
Lemma constant_series_is_fitted :
  map call (snd (fst (on_confirm Samples.failing_stan_libs "Date" "Calls"
                                 (read_csv constant_raw))))
  = full_sequence /\
  snd (fst (on_confirm Samples.failing_stan_libs "Date" "Calls"
                       (read_csv header_only_raw)))
  = [st_error not_numeric_text None].
Proof. split; reflexivity. Qed.

End ErrorFacts.

(** ** The numeric check of line 51 *)

Module NumericFacts.
Import Calendar Notions Pandas Prophet App ScriptFacts FrameFacts RunFacts.

Lemma read_csv_loc raw key :
  loc (read_csv raw) key
  = map (fun p => infer_column (snd p))
        (filter (fun p => String.eqb (fst p) key) raw).
Proof.
  unfold loc, read_csv.
  induction raw as [| [k cells] raw IH]; [reflexivity|].
  cbn. destruct (String.eqb k key); cbn; rewrite IH; reflexivity.
Qed.

Lemma filter_unique_label {A} (raw : list (string * A)) key x :
  NoDup (map fst raw) -> In (key, x) raw ->
  filter (fun p => String.eqb (fst p) key) raw = [(key, x)].
Proof.
  induction raw as [| [k y] raw IH]; intros Hnd Hin; [destruct Hin|].
  cbn in Hnd. inversion Hnd as [| ? ? Hnotin Hnd']; subst.
  cbn. destruct Hin as [Heq | Hin].
  - injection Heq as -> ->. rewrite String.eqb_refl. f_equal.
    clear IH Hnd Hnd'.
    induction raw as [| [k' y'] raw IH]; [reflexivity|].
    cbn. destruct (String.eqb k' key) eqn:E.
    + apply String.eqb_eq in E. subst. exfalso. apply Hnotin. left. reflexivity.
    + apply IH. intros H. apply Hnotin. right. exact H.
  - destruct (String.eqb k key) eqn:E.
    + apply String.eqb_eq in E. subst. exfalso. apply Hnotin.
      apply (in_map fst) in Hin. exact Hin.
    + apply IH; assumption.
Qed.

(** The column that [read_csv] makes of the fields under a label. *)
Lemma read_csv_getitem raw key cells :
  NoDup (map fst raw) -> In (key, cells) raw ->
  getitem (read_csv raw) key = Ok (infer_column cells).
Proof.
  intros Hnd Hin. unfold getitem.
  rewrite read_csv_loc, (filter_unique_label raw key cells Hnd Hin). reflexivity.
Qed.

(** *** The dtype inferred for a column *)

Lemma try_int64_text cells :
  existsb is_text cells = true -> try_int64 cells = Overflow \/ try_int64 cells = Invalid.
Proof.
  induction cells as [| c cells IH]; [discriminate|].
  destruct c as [| s z | s f | s b | s]; cbn [existsb is_text orb try_int64]; auto.
  intros H. destruct ((INT64_MIN <=? z) && (z <=? INT64_MAX)); auto.
Qed.

(** Once a signed number was seen, the unsigned attempt does not yield a
    column. *)
Lemma try_uint64_signed cells : forall seen_uint seen_null,
  try_uint64 cells true seen_uint seen_null <> Parsed.
Proof.
  induction cells as [| c cells IH]; intros su sn; cbn [try_uint64].
  - destruct su; cbn; discriminate.
  - destruct c as [| s z | s f | s b | s]; [apply IH | | | |];
      cbn [token]; destruct (minus_sign s); try apply IH; try discriminate.
    destruct (UINT64_MAX <? z); [discriminate | apply IH].
Qed.

Lemma try_uint64_text cells : forall seen_sint seen_uint seen_null,
  existsb is_text cells = true ->
  try_uint64 cells seen_sint seen_uint seen_null <> Parsed.
Proof.
  induction cells as [| c cells IH]; intros ss su sn H; [discriminate|].
  destruct c as [| s z | s f | s b | s]; cbn [existsb is_text orb] in H;
    cbn [try_uint64 token].
  - apply IH. exact H.
  - destruct (minus_sign s); [apply IH; exact H|].
    destruct (UINT64_MAX <? z); [discriminate | apply IH; exact H].
  - destruct (minus_sign s); [apply IH; exact H | discriminate].
  - destruct (minus_sign s); [apply IH; exact H | discriminate].
  - destruct (minus_sign s); [apply try_uint64_signed | discriminate].
Qed.

(** What is neither an int64 column nor a uint64 column is numeric exactly
    when it holds only numbers and missing values, or only booleans. *)
Lemma infer_non_integer_numeric cells :
  is_numeric_dtype (infer_non_integer cells) = true <->
  forallb is_number_or_na cells = true \/ forallb is_bool cells = true.
Proof.
  unfold infer_non_integer.
  destruct (forallb is_number_or_na cells); [cbn; tauto|].
  destruct (forallb is_bool cells); [cbn; tauto|].
  destruct (forallb is_bool_or_na cells); cbn;
    (split; [discriminate | intros [H | H]; discriminate]).
Qed.

Lemma text_not_number_or_na cells :
  existsb is_text cells = true ->
  forallb is_number_or_na cells = false /\ forallb is_bool cells = false.
Proof.
  rewrite existsb_exists. intros (c & Hc & Ht).
  split.
  - destruct (forallb is_number_or_na cells) eqn:E; [| reflexivity].
    rewrite forallb_forall in E. specialize (E c Hc). destruct c; discriminate.
  - destruct (forallb is_bool cells) eqn:E; [| reflexivity].
    rewrite forallb_forall in E. specialize (E c Hc). destruct c; discriminate.
Qed.

(** A column with a text entry is not of a numeric dtype. *)
Lemma text_not_numeric cells :
  existsb is_text cells = true -> is_numeric_dtype (infer_column cells) = false.
Proof.
  intros Ht. destruct cells as [| c cells]; [reflexivity|].
  unfold infer_column.
  assert (is_numeric_dtype (infer_non_integer (c :: cells)) = false) as Hnon.
  { destruct (is_numeric_dtype (infer_non_integer (c :: cells))) eqn:E; [| reflexivity].
    apply infer_non_integer_numeric in E.
    destruct (text_not_number_or_na _ Ht) as [Hn Hb].
    destruct E as [E | E]; congruence. }
  destruct (try_int64_text _ Ht) as [-> | ->]; [| exact Hnon].
  pose proof (try_uint64_text (c :: cells) false false false Ht) as Hu.
  destruct (try_uint64 (c :: cells) false false false);
    [contradiction | reflexivity | reflexivity | exact Hnon].
Qed.

Lemma try_int64_fits cells :
  forallb fits_int64 cells = true -> try_int64 cells <> Overflow.
Proof.
  induction cells as [| c cells IH]; [discriminate|].
  cbn [forallb]. rewrite andb_true_iff. intros [Hc Hrest].
  destruct c as [| s z | s f | s b | s]; cbn [try_int64]; try discriminate.
  - apply IH. exact Hrest.
  - cbn [fits_int64] in Hc. rewrite Hc. apply IH. exact Hrest.
Qed.

(** A column with a row that holds numbers and missing values only, its
    integers within int64, is of a numeric dtype. *)
Lemma numbers_numeric cells :
  cells <> [] ->
  forallb is_number_or_na cells = true ->
  forallb fits_int64 cells = true ->
  is_numeric_dtype (infer_column cells) = true.
Proof.
  intros Hne Hnum Hfit. destruct cells as [| c cells]; [congruence|].
  unfold infer_column.
  assert (is_numeric_dtype (infer_non_integer (c :: cells)) = true) as Hnon
      by (apply infer_non_integer_numeric; left; exact Hnum).
  pose proof (try_int64_fits _ Hfit) as Hover.
  destruct (try_int64 (c :: cells)); [| contradiction | exact Hnon | exact Hnon].
  destruct (existsb is_na (c :: cells)); [exact Hnon | reflexivity].
Qed.

Lemma try_int64_bool_or_na cells :
  forallb is_bool_or_na cells = true ->
  try_int64 cells = Parsed \/ try_int64 cells = Invalid.
Proof.
  induction cells as [| c cells IH]; [left; reflexivity|].
  cbn [forallb]. rewrite andb_true_iff. intros [Hc Hrest].
  destruct c; try discriminate; cbn [try_int64]; auto.
Qed.

(** A column of booleans is of a numeric dtype; with a missing value
    among the booleans it is not. *)
Lemma booleans_numeric cells :
  forallb is_bool_or_na cells = true ->
  existsb is_bool cells = true ->
  is_numeric_dtype (infer_column cells) = negb (existsb is_na cells).
Proof.
  intros Hall Hbool. destruct cells as [| c cells]; [discriminate|].
  unfold infer_column.
  assert (forallb is_number_or_na (c :: cells) = false) as Hnum.
  { apply existsb_exists in Hbool. destruct Hbool as (x & Hx & Hb).
    destruct (forallb is_number_or_na (c :: cells)) eqn:E; [| reflexivity].
    rewrite forallb_forall in E. specialize (E x Hx). destruct x; discriminate. }
  assert (forallb is_bool (c :: cells) = negb (existsb is_na (c :: cells))) as Hb.
  { clear Hbool Hnum. induction (c :: cells) as [| x l IH]; [reflexivity|].
    cbn [forallb existsb] in *. apply andb_true_iff in Hall. destruct Hall as [Hx Hl].
    rewrite (IH Hl). destruct x; try discriminate; reflexivity. }
  assert (is_numeric_dtype (infer_non_integer (c :: cells))
          = negb (existsb is_na (c :: cells))) as Hnon.
  { unfold infer_non_integer. rewrite Hnum, Hb, Hall.
    destruct (existsb is_na (c :: cells)); reflexivity. }
  assert (forall l, forallb is_bool_or_na l = true -> existsb is_na l = false ->
                    existsb is_bool l = true -> try_int64 l = Invalid) as Hinv.
  { intros l. induction l as [| x l IH]; [discriminate|].
    destruct x; cbn; try discriminate; reflexivity. }
  destruct (try_int64 (c :: cells)) eqn:Et.
  - destruct (existsb is_na (c :: cells)) eqn:Ena; [exact Hnon|].
    rewrite (Hinv _ Hall Ena Hbool) in Et. discriminate.
  - destruct (try_int64_bool_or_na _ Hall); congruence.
  - exact Hnon.
  - exact Hnon.
Qed.




End NumericFacts.

(** ** numpy's quicksort sorts *)

Module NumpyFacts.
Import Calendar Pandas Notions CalendarFacts Numpy SortNotions.

(** *** Arrays of positions *)

Lemma length_store a p x : List.length (store a p x) = List.length a.
Proof.
  revert p. induction a as [| y a IH]; intros p; [reflexivity|].
  destruct p; cbn; [reflexivity | f_equal; apply IH].
Qed.

Lemma item_store_same a p x : (p < List.length a)%nat -> item (store a p x) p = x.
Proof.
  revert p. induction a as [| y a IH]; intros p H; [cbn in H; lia|].
  destruct p; cbn; [reflexivity|]. apply IH. cbn in H. lia.
Qed.

Lemma item_store_other a p q x : p <> q -> item (store a p x) q = item a q.
Proof.
  revert p q. induction a as [| y a IH]; intros p q H; [reflexivity|].
  destruct p, q; cbn; try reflexivity; try lia. apply IH. lia.
Qed.

Lemma store_item a p : store a p (item a p) = a.
Proof.
  revert p. induction a as [| y a IH]; intros p; [reflexivity|].
  destruct p; cbn; [reflexivity | f_equal; apply IH].
Qed.

Lemma store_store a p x y : store (store a p x) p y = store a p y.
Proof.
  revert p. induction a as [| z a IH]; intros p; [reflexivity|].
  destruct p; cbn; [reflexivity | f_equal; apply IH].
Qed.

Lemma store_comm a p q x y :
  p <> q -> store (store a p x) q y = store (store a q y) p x.
Proof.
  revert p q. induction a as [| z a IH]; intros p q H; [reflexivity|].
  destruct p, q; cbn; try reflexivity; try lia. f_equal. apply IH. lia.
Qed.

Lemma length_swap a p q : List.length (swap a p q) = List.length a.
Proof. unfold swap. rewrite !length_store. reflexivity. Qed.

Lemma item_swap_l a p q :
  (p < List.length a)%nat -> (q < List.length a)%nat -> item (swap a p q) p = item a q.
Proof.
  intros Hp Hq. unfold swap. destruct (Nat.eq_dec p q) as [<- | Hne].
  - rewrite store_item. rewrite item_store_same by exact Hp. reflexivity.
  - rewrite item_store_other by lia. apply item_store_same. exact Hp.
Qed.

Lemma item_swap_r a p q :
  (p < List.length a)%nat -> (q < List.length a)%nat -> item (swap a p q) q = item a p.
Proof.
  intros Hp Hq. unfold swap. apply item_store_same. rewrite length_store. exact Hq.
Qed.

Lemma item_swap_other a p q r :
  r <> p -> r <> q -> item (swap a p q) r = item a r.
Proof. intros H1 H2. unfold swap. rewrite !item_store_other by lia. reflexivity. Qed.

(** Storing [x] at a position trades it for the entry that was there. *)
Lemma store_trade a p x :
  (p < List.length a)%nat -> Permutation (x :: a) (item a p :: store a p x).
Proof.
  revert p. induction a as [| y a IH]; intros p H; [cbn in H; lia|].
  destruct p as [| p]; cbn.
  - apply perm_swap.
  - cbn in H. rewrite perm_swap. unfold item. cbn.
    rewrite (IH p ltac:(lia)). apply perm_swap.
Qed.

Lemma swap_permutation a p q :
  (p < List.length a)%nat -> (q < List.length a)%nat -> Permutation (swap a p q) a.
Proof.
  intros Hp Hq. destruct (Nat.eq_dec p q) as [<- | Hne].
  - unfold swap. rewrite store_item, store_item. reflexivity.
  - apply (Permutation_cons_inv (a := item a q)).
    unfold swap.
    pose proof (store_trade (store a p (item a q)) q (item a p)
                  ltac:(rewrite length_store; exact Hq)) as H1.
    rewrite item_store_other in H1 by exact Hne.
    rewrite <- H1. symmetry. apply store_trade. exact Hp.
Qed.

(** Moving a hole: storing at [i] what stands at [j] and filling [j] is
    filling [i] and exchanging the two. *)
Lemma store_hole a i j x :
  i <> j -> (i < List.length a)%nat -> (j < List.length a)%nat ->
  store (store a i (item a j)) j x = swap (store a i x) i j.
Proof.
  intros Hne Hi Hj. unfold swap.
  rewrite item_store_other by exact Hne.
  rewrite item_store_same by exact Hi.
  rewrite store_store. reflexivity.
Qed.

(** *** The order of the keys *)

Lemma ltb_false x y : ts_ltb x y = false <-> ts_le y x.
Proof.
  split; intros H.
  - apply ts_leb_le. destruct (ts_leb y x) eqn:E; [reflexivity|].
    apply ts_leb_false in E. congruence.
  - destruct (ts_ltb x y) eqn:E; [| reflexivity].
    apply ts_ltb_lt in E. contradiction.
Qed.

Lemma ltb_true_le x y : ts_ltb x y = true -> ts_le x y.
Proof. intros H. apply ts_ltb_lt in H. apply ts_lt_le. exact H. Qed.

Section Order.
Variable v : list Timestamp.

Lemma rearranged_refl l r a : rearranged l r a a.
Proof.
  repeat split; auto. intros q Hq. exists q. split; [exact Hq | reflexivity].
Qed.

Lemma rearranged_trans l r a b c :
  rearranged l r a b -> rearranged l r b c -> rearranged l r a c.
Proof.
  intros (L1 & F1 & W1 & P1) (L2 & F2 & W2 & P2).
  split; [congruence|]. split; [| split].
  - intros p Hp. rewrite (F2 p Hp). apply F1. exact Hp.
  - intros q Hq. destruct (W2 q Hq) as (q1 & Hq1 & E1).
    destruct (W1 q1 Hq1) as (q2 & Hq2 & E2). exists q2. split; [exact Hq2 | congruence].
  - rewrite P2. exact P1.
Qed.

Lemma rearranged_wider l r l' r' a b :
  (l' <= l)%nat -> (r <= r')%nat -> rearranged l r a b -> rearranged l' r' a b.
Proof.
  intros Hl Hr (L & F & W & P).
  split; [exact L|]. split; [| split; [| exact P]].
  - intros p Hp. apply F. lia.
  - intros q Hq.
    destruct (Nat.lt_ge_cases q l) as [H1 | H1];
      [exists q; split; [lia | apply F; lia]|].
    destruct (Nat.lt_ge_cases r q) as [H2 | H2];
      [exists q; split; [lia | apply F; lia]|].
    destruct (W q ltac:(lia)) as (q' & Hq' & E). exists q'. split; [lia | exact E].
Qed.

Lemma rearranged_swap l r a p q :
  (l <= p <= r)%nat -> (l <= q <= r)%nat -> (r < List.length a)%nat ->
  rearranged l r a (swap a p q).
Proof.
  intros Hp Hq Hr.
  split; [apply length_swap|]. split; [| split].
  - intros x Hx. apply item_swap_other; lia.
  - intros x Hx. destruct (Nat.eq_dec x p) as [-> | Hxp].
    + exists q. split; [exact Hq | apply item_swap_l; lia].
    + destruct (Nat.eq_dec x q) as [-> | Hxq].
      * exists p. split; [exact Hp | apply item_swap_r; lia].
      * exists x. split; [exact Hx | apply item_swap_other; assumption].
  - apply swap_permutation; lia.
Qed.

(** Bounds on the keys of a part survive a rearrangement of the part. *)
Lemma below_rearranged l r a b x :
  rearranged l r a b -> below v a l r x -> below v b l r x.
Proof.
  intros (_ & _ & W & _) H p Hp. destruct (W p Hp) as (q & Hq & E).
  unfold K. rewrite E. apply H. exact Hq.
Qed.

Lemma above_rearranged l r a b x :
  rearranged l r a b -> above v a l r x -> above v b l r x.
Proof.
  intros (_ & _ & W & _) H p Hp. destruct (W p Hp) as (q & Hq & E).
  unfold K. rewrite E. apply H. exact Hq.
Qed.

Lemma K_fixed l r a b p :
  rearranged l r a b -> (p < l \/ r < p)%nat -> K v b p = K v a p.
Proof. intros (_ & F & _) Hp. unfold K. rewrite (F p Hp). reflexivity. Qed.

(** *** One division around a pivot *)

Lemma scan_up_spec fuel a vp : forall pi s,
  (pi < s)%nat -> ts_le vp (K v a s) -> (s - pi <= fuel)%nat ->
  (pi < scan_up v fuel a vp pi <= s)%nat /\
  ts_le vp (K v a (scan_up v fuel a vp pi)) /\
  forall p, (pi < p < scan_up v fuel a vp pi)%nat -> ts_le (K v a p) vp.
Proof.
  induction fuel as [| f IH]; intros pi s Hlt Hs Hfuel; [lia|].
  cbn [scan_up]. fold (K v a (S pi)).
  destruct (ts_ltb (K v a (S pi)) vp) eqn:E.
  - assert (S pi <> s) as Hne.
    { intros Heq. rewrite Heq in E. apply ts_ltb_lt in E. contradiction. }
    destruct (IH (S pi) s ltac:(lia) Hs ltac:(lia)) as (Hr & Hk & Hbetween).
    split; [lia|]. split; [exact Hk|].
    intros p Hp. destruct (Nat.eq_dec p (S pi)) as [-> | Hp'].
    + apply ltb_true_le. exact E.
    + apply Hbetween. lia.
  - split; [lia|]. split; [apply ltb_false; exact E|]. intros p Hp. lia.
Qed.

Lemma scan_down_spec fuel a vp : forall pj s,
  (s < pj)%nat -> ts_le (K v a s) vp -> (pj - s <= fuel)%nat ->
  (s <= scan_down v fuel a vp pj < pj)%nat /\
  ts_le (K v a (scan_down v fuel a vp pj)) vp /\
  forall p, (scan_down v fuel a vp pj < p < pj)%nat -> ts_le vp (K v a p).
Proof.
  induction fuel as [| f IH]; intros pj s Hlt Hs Hfuel; [lia|].
  cbn [scan_down]. fold (K v a (pj - 1)).
  destruct (ts_ltb vp (K v a (pj - 1))) eqn:E.
  - assert ((pj - 1)%nat <> s) as Hne.
    { intros Heq. rewrite Heq in E. apply ts_ltb_lt in E. contradiction. }
    destruct (IH (pj - 1)%nat s ltac:(lia) Hs ltac:(lia)) as (Hr & Hk & Hbetween).
    split; [lia|]. split; [exact Hk|].
    intros p Hp. destruct (Nat.eq_dec p (pj - 1)) as [-> | Hp'].
    + apply ltb_true_le. exact E.
    + apply Hbetween. lia.
  - split; [lia|]. split; [apply ltb_false; exact E|]. intros p Hp. lia.
Qed.

(** The exchanges around the pivot value [vp], which stands at [hi]:
    from two pointers with small keys up to the first and large keys from
    the second on, to the place where they meet. *)
Lemma partition_loop_spec pl hi vp fuel : forall a pi pj,
  (pl <= pi)%nat -> (pi < pj)%nat -> (pj <= hi)%nat -> (hi < List.length a)%nat ->
  below v a pl pi vp -> above v a pj hi vp -> K v a hi = vp ->
  (pj - pi <= fuel)%nat ->
  exists a' pi',
    partition_loop v fuel a vp pi pj = (a', pi') /\
    rearranged pl hi a a' /\
    (pl < pi' <= hi)%nat /\
    below v a' pl (pi' - 1) vp /\ above v a' pi' hi vp /\ K v a' hi = vp.
Proof.
  induction fuel as [| f IH]; intros a pi pj Hpl Hlt Hpj Hhi Hbelow Habove Hpivot Hfuel;
    [lia|].
  cbn [partition_loop].
  destruct (scan_up_spec (List.length a) a vp pi pj Hlt
              (Habove pj ltac:(lia)) ltac:(lia)) as (Hi & Hki & Hbi).
  destruct (scan_down_spec (List.length a) a vp pj pi Hlt
              (Hbelow pi ltac:(lia)) ltac:(lia)) as (Hj & Hkj & Hbj).
  set (ri := scan_up v (List.length a) a vp pi) in *.
  set (rj := scan_down v (List.length a) a vp pj) in *.
  destruct (Nat.leb_spec rj ri) as [Hcross | Hcross].
  - exists a, ri. split; [reflexivity|]. split; [apply rearranged_refl|].
    split; [lia|]. split; [| split; [| exact Hpivot]].
    + intros p Hp. destruct (Nat.le_gt_cases p pi); [apply Hbelow; lia | apply Hbi; lia].
    + intros p Hp. destruct (Nat.le_gt_cases pj p); [apply Habove; lia|].
      destruct (Nat.eq_dec p ri) as [-> | Hne]; [exact Hki | apply Hbj; lia].
  - assert (K v (swap a ri rj) ri = K v a rj) as Eri
        by (unfold K; rewrite item_swap_l by lia; reflexivity).
    assert (K v (swap a ri rj) rj = K v a ri) as Erj
        by (unfold K; rewrite item_swap_r by lia; reflexivity).
    assert (forall p, p <> ri -> p <> rj -> K v (swap a ri rj) p = K v a p) as Eother
        by (intros p H1 H2; unfold K; rewrite item_swap_other by assumption; reflexivity).
    destruct (IH (swap a ri rj) ri rj) as (a' & pi' & Hloop & Hre & Hpi' & Hb' & Ha' & Hp');
      try lia.
    + rewrite length_swap. exact Hhi.
    + intros p Hp. destruct (Nat.eq_dec p ri) as [-> | Hne].
      * rewrite Eri. exact Hkj.
      * rewrite Eother by lia.
        destruct (Nat.le_gt_cases p pi); [apply Hbelow; lia | apply Hbi; lia].
    + intros p Hp. destruct (Nat.eq_dec p rj) as [-> | Hne].
      * rewrite Erj. exact Hki.
      * rewrite Eother by lia.
        destruct (Nat.le_gt_cases pj p); [apply Habove; lia | apply Hbj; lia].
    + rewrite Eother by lia. exact Hpivot.
    + exists a', pi'. split; [exact Hloop|].
      split; [| repeat split; try assumption; lia].
      eapply rearranged_trans; [| exact Hre].
      apply rearranged_swap; lia.
Qed.

(** Two entries put in order. *)
Lemma order2_spec a lo hi l r :
  (l <= lo)%nat -> (lo < hi)%nat -> (hi <= r)%nat -> (r < List.length a)%nat ->
  let a' := if ts_ltb (key v (item a hi)) (key v (item a lo)) then swap a hi lo else a in
  rearranged l r a a' /\
  ts_le (K v a' lo) (K v a' hi) /\
  (forall p, p <> lo -> p <> hi -> K v a' p = K v a p) /\
  ((K v a' lo = K v a lo /\ K v a' hi = K v a hi) \/
   (K v a' lo = K v a hi /\ K v a' hi = K v a lo)).
Proof.
  intros Hl Hlt Hr Hlen. cbv zeta. fold (K v a hi) (K v a lo).
  destruct (ts_ltb (K v a hi) (K v a lo)) eqn:E.
  - assert (K v (swap a hi lo) lo = K v a hi) as E1
        by (unfold K; rewrite item_swap_r by lia; reflexivity).
    assert (K v (swap a hi lo) hi = K v a lo) as E2
        by (unfold K; rewrite item_swap_l by lia; reflexivity).
    split; [apply rearranged_swap; lia|].
    split; [rewrite E1, E2; apply ltb_true_le; exact E|].
    split; [| right; split; assumption].
    intros p H1 H2. unfold K. rewrite item_swap_other by assumption. reflexivity.
  - split; [apply rearranged_refl|].
    split; [apply ltb_false; exact E|].
    split; [reflexivity | left; split; reflexivity].
Qed.

Lemma median3_spec a pl pm pr :
  (pl < pm)%nat -> (pm < pr)%nat -> (pr < List.length a)%nat ->
  rearranged pl pr a (median3 v a pl pm pr) /\
  ts_le (K v (median3 v a pl pm pr) pl) (K v (median3 v a pl pm pr) pm) /\
  ts_le (K v (median3 v a pl pm pr) pm) (K v (median3 v a pl pm pr) pr).
Proof.
  intros H1 H2 Hlen. unfold median3.
  destruct (order2_spec a pl pm pl pr ltac:(lia) H1 ltac:(lia) Hlen)
    as (R1 & O1 & F1 & C1).
  set (a1 := if ts_ltb (key v (item a pm)) (key v (item a pl)) then swap a pm pl else a) in *.
  assert (List.length a1 = List.length a) as L1 by exact (proj1 R1).
  destruct (order2_spec a1 pm pr pl pr ltac:(lia) H2 ltac:(lia) ltac:(lia))
    as (R2 & O2 & F2 & C2).
  set (a2 := if ts_ltb (key v (item a1 pr)) (key v (item a1 pm)) then swap a1 pr pm else a1)
    in *.
  assert (List.length a2 = List.length a1) as L2 by exact (proj1 R2).
  destruct (order2_spec a2 pl pm pl pr ltac:(lia) H1 ltac:(lia) ltac:(lia))
    as (R3 & O3 & F3 & C3).
  cbv zeta.
  set (a3 := if ts_ltb (key v (item a2 pm)) (key v (item a2 pl)) then swap a2 pm pl else a2)
    in *.
  split; [exact (rearranged_trans _ _ _ _ _ (rearranged_trans _ _ _ _ _ R1 R2) R3)|].
  split; [exact O3|].
  pose proof (F2 pl ltac:(lia) ltac:(lia)) as E2l.
  pose proof (F3 pr ltac:(lia) ltac:(lia)) as E3r.
  rewrite E3r.
  assert (ts_le (K v a2 pl) (K v a2 pr)) as Hlr.
  { rewrite E2l. destruct C2 as [[Em Er] | [Em Er]].
    - apply (ts_le_trans _ (K v a1 pm)); [exact O1|]. rewrite <- Em. exact O2.
    - rewrite Er. exact O1. }
  destruct C3 as [[El Em] | [El Em]]; rewrite Em; assumption.
Qed.

(** One division: the pivot ends at a place within the part, the keys
    before it are not greater and the keys after it not smaller. *)
Lemma division_spec a pl pr :
  (pl + 3 < pr)%nat -> (pr < List.length a)%nat ->
  exists a' pi,
    division v a pl pr = (a', pi) /\
    rearranged pl pr a a' /\
    (pl < pi < pr)%nat /\
    below v a' pl (pi - 1) (K v a' pi) /\ above v a' (pi + 1) pr (K v a' pi).
Proof.
  intros Hsize Hlen. unfold division. cbv zeta.
  set (pm := (pl + Nat.div2 (pr - pl))%nat).
  assert (pl < pm /\ pm < pr - 1)%nat as [Hpm1 Hpm2].
  { unfold pm. pose proof (Nat.div2_odd (pr - pl)) as Hd.
    destruct (Nat.odd (pr - pl)); cbn in Hd; lia. }
  destruct (median3_spec a pl pm pr Hpm1 ltac:(lia) Hlen) as (R1 & Olm & Omr).
  set (a1 := median3 v a pl pm pr) in *.
  assert (List.length a1 = List.length a) as L1 by exact (proj1 R1).
  set (vp := key v (item a1 pm)).
  assert (vp = K v a1 pm) as Evp by reflexivity.
  set (a2 := swap a1 pm (pr - 1)).
  assert (List.length a2 = List.length a) as L2 by (unfold a2; rewrite length_swap; exact L1).
  assert (K v a2 (pr - 1) = vp) as Ehi
      by (unfold a2, K; rewrite item_swap_r by lia; reflexivity).
  assert (K v a2 pl = K v a1 pl) as El
      by (unfold a2, K; rewrite item_swap_other by lia; reflexivity).
  assert (K v a2 pr = K v a1 pr) as Er
      by (unfold a2, K; rewrite item_swap_other by lia; reflexivity).
  destruct (partition_loop_spec pl (pr - 1) vp (List.length a2) a2 pl (pr - 1))
    as (a3 & pi & Hloop & R3 & Hpi & Hb & Ha & Hp); try lia.
  { intros p Hp. assert (p = pl) as -> by lia. rewrite El, Evp. exact Olm. }
  { intros p Hp. assert (p = (pr - 1)%nat) as -> by lia. rewrite Ehi. apply ts_le_refl. }
  { exact Ehi. }
  rewrite Hloop.
  assert (List.length a3 = List.length a) as L3 by (rewrite (proj1 R3); exact L2).
  exists (swap a3 pi (pr - 1)), pi. split; [reflexivity|].
  assert (K v (swap a3 pi (pr - 1)) pi = vp) as Epi
      by (unfold K; rewrite item_swap_l by lia; exact Hp).
  split.
  { eapply rearranged_trans; [exact R1|].
    eapply rearranged_trans; [apply (rearranged_swap pl pr a1 pm (pr - 1)); lia|].
    eapply rearranged_trans; [exact (rearranged_wider pl (pr - 1) pl pr a2 a3 ltac:(lia) ltac:(lia) R3)|].
    apply rearranged_swap; lia. }
  split; [lia|]. rewrite Epi. split.
  - intros p Hp'. unfold K. rewrite item_swap_other by lia. apply Hb. lia.
  - intros p Hp'. destruct (Nat.eq_dec p (pr - 1)) as [-> | Hne].
    + unfold K. rewrite item_swap_r by lia. apply Ha. lia.
    + unfold K. rewrite item_swap_other by lia.
      destruct (Nat.eq_dec p pr) as [-> | Hne'].
      * fold (K v a3 pr). rewrite (K_fixed _ _ _ _ _ R3) by lia.
        rewrite Er, Evp. exact Omr.
      * apply Ha. lia.
Qed.

(** *** Insertion sort *)

(** The entries above the one to insert are moved up one place each, as
    long as their keys are greater.  [F], the array with the entry put in
    the free place, is sorted but for the free place. *)
Lemma shift_spec pl pi vi fuel : forall cur pj,
  (pl <= pj)%nat -> (pj <= pi)%nat -> (pi < List.length cur)%nat ->
  (forall p q, (pl <= p)%nat -> (p <= q)%nat -> (q <= pi)%nat -> p <> pj -> q <> pj ->
               ts_le (K v (store cur pj vi) p) (K v (store cur pj vi) q)) ->
  above v (store cur pj vi) (pj + 1) pi (key v vi) ->
  (pj - pl <= fuel)%nat ->
  exists cur' pj',
    shift v fuel cur pl (key v vi) pj = (cur', pj') /\
    rearranged pl pi (store cur pj vi) (store cur' pj' vi) /\
    sorted_seg v (store cur' pj' vi) pl pi.
Proof.
  induction fuel as [| f IH]; intros cur pj Hpl Hpi Hlen Hsorted Habove Hfuel.
  - assert (pj = pl) as -> by lia. exists cur, pl.
    split; [reflexivity|]. split; [apply rearranged_refl|].
    intros p q H1 H2 H3.
    destruct (Nat.eq_dec p pl) as [-> | Hp].
    + destruct (Nat.eq_dec q pl) as [-> | Hq]; [apply ts_le_refl|].
      unfold K at 1. rewrite item_store_same by lia. apply Habove. lia.
    + apply Hsorted; lia.
  - cbn [shift].
    assert (K v (store cur pj vi) pj = key v vi) as Ehole
        by (unfold K; rewrite item_store_same by lia; reflexivity).
    destruct (Nat.ltb_spec pl pj) as [Hlt | Hge]; cbn [andb].
    + assert (item cur (pj - 1) = item (store cur pj vi) (pj - 1)) as Eprev
          by (rewrite item_store_other by lia; reflexivity).
      rewrite Eprev. fold (K v (store cur pj vi) (pj - 1)).
      destruct (ts_ltb (key v vi) (K v (store cur pj vi) (pj - 1))) eqn:E.
      * rewrite <- Eprev.
        pose proof (store_hole cur pj (pj - 1) vi ltac:(lia) ltac:(lia) ltac:(lia)) as Hhole.
        set (F := store cur pj vi) in *.
        assert (List.length F = List.length cur) as LF by apply length_store.
        assert (K v (swap F pj (pj - 1)) pj = K v F (pj - 1)) as E1
            by (unfold K; rewrite item_swap_l by lia; reflexivity).
        assert (forall p, p <> pj -> p <> (pj - 1)%nat -> K v (swap F pj (pj - 1)) p = K v F p)
          as Eother
            by (intros p H1 H2; unfold K; rewrite item_swap_other by assumption; reflexivity).
        destruct (IH (store cur pj (item cur (pj - 1))) (pj - 1)%nat)
          as (cur' & pj' & Hshift & Hre & Hs); try lia.
        { rewrite length_store. exact Hlen. }
        { rewrite Hhole. intros p q H1 H2 H3 Hp Hq.
          destruct (Nat.eq_dec p pj) as [-> | Hp'];
            destruct (Nat.eq_dec q pj) as [-> | Hq'].
          - apply ts_le_refl.
          - rewrite E1, Eother by lia. apply Hsorted; lia.
          - rewrite E1, Eother by lia. apply Hsorted; lia.
          - rewrite !Eother by lia. apply Hsorted; lia. }
        { rewrite Hhole. replace (pj - 1 + 1)%nat with pj by lia.
          intros p Hp. destruct (Nat.eq_dec p pj) as [-> | Hp'].
          - rewrite E1. apply ltb_true_le. exact E.
          - rewrite Eother by lia. apply Habove. lia. }
        exists cur', pj'. split; [exact Hshift|]. split; [| exact Hs].
        eapply rearranged_trans; [| exact Hre].
        rewrite Hhole. apply rearranged_swap; lia.
      * exists cur, pj. split; [reflexivity|]. split; [apply rearranged_refl|].
        apply ltb_false in E.
        intros p q H1 H2 H3.
        destruct (Nat.eq_dec p q) as [-> | Hpq]; [apply ts_le_refl|].
        destruct (Nat.eq_dec q pj) as [-> | Hq].
        { rewrite Ehole. apply (ts_le_trans _ (K v (store cur pj vi) (pj - 1))); [| exact E].
          destruct (Nat.eq_dec p (pj - 1)) as [-> | Hp']; [apply ts_le_refl|].
          apply Hsorted; lia. }
        destruct (Nat.eq_dec p pj) as [-> | Hp].
        { rewrite Ehole. apply Habove. lia. }
        apply Hsorted; lia.
    + assert (pj = pl) as -> by lia. exists cur, pl.
      split; [reflexivity|]. split; [apply rearranged_refl|].
      intros p q H1 H2 H3.
      destruct (Nat.eq_dec p pl) as [-> | Hp].
      * destruct (Nat.eq_dec q pl) as [-> | Hq]; [apply ts_le_refl|].
        rewrite Ehole. apply Habove. lia.
      * apply Hsorted; lia.
Qed.

Lemma insertion_sort_spec pl : forall count a pi,
  (pl < pi)%nat -> (pi + count <= List.length a)%nat ->
  sorted_seg v a pl (pi - 1) ->
  rearranged pl (pi + count - 1) a (insertion_sort v count a pl pi) /\
  sorted_seg v (insertion_sort v count a pl pi) pl (pi + count - 1).
Proof.
  induction count as [| c IH]; intros a pi Hpi Hlen Hsorted.
  - cbn [insertion_sort]. rewrite Nat.add_0_r. split; [apply rearranged_refl | exact Hsorted].
  - cbn [insertion_sort].
    destruct (shift_spec pl pi (item a pi) (List.length a) a pi)
      as (cur' & pj' & Hshift & Hre & Hs); try lia.
    { rewrite store_item. intros p q H1 H2 H3 Hp Hq. apply Hsorted; lia. }
    { intros p Hp. lia. }
    rewrite Hshift. rewrite store_item in Hre.
    set (a1 := store cur' pj' (item a pi)) in *.
    assert (List.length a1 = List.length a) as L1 by exact (proj1 Hre).
    destruct (IH a1 (S pi)) as (Hre' & Hs'); try lia.
    { replace (S pi - 1)%nat with pi by lia. exact Hs. }
    replace (S pi + c - 1)%nat with (pi + S c - 1)%nat in * by lia.
    split; [| exact Hs'].
    eapply rearranged_trans; [| exact Hre'].
    apply (rearranged_wider pl pi); try lia. exact Hre.
Qed.

(** *** Heapsort *)

(** In a heap every entry dominates its two children; here for the
    entries from [lo] on, among the first [n] of the part at [base]. *)
Lemma sift_spec base n lo tmp fuel : forall cur i,
  (1 <= lo)%nat -> (lo <= i)%nat -> (i <= n)%nat -> (base + n <= List.length cur)%nat ->
  (forall k c, (lo <= k)%nat -> k <> i -> c = (2 * k)%nat \/ c = (2 * k + 1)%nat ->
               (c <= n)%nat ->
               ts_le (K v (store1 cur base i tmp) (base + c - 1))
                     (K v (store1 cur base i tmp) (base + k - 1))) ->
  (forall p c, (lo <= p)%nat -> i = (2 * p)%nat \/ i = (2 * p + 1)%nat ->
               c = (2 * i)%nat \/ c = (2 * i + 1)%nat -> (c <= n)%nat ->
               ts_le (K v (store1 cur base i tmp) (base + c - 1))
                     (K v (store1 cur base i tmp) (base + p - 1))) ->
  (n + 1 - i <= fuel)%nat ->
  exists cur' i',
    sift v fuel cur base tmp i (i + i) n = (cur', i') /\
    rearranged (base + lo - 1) (base + n - 1)
               (store1 cur base i tmp) (store1 cur' base i' tmp) /\
    (forall k c, (lo <= k)%nat -> c = (2 * k)%nat \/ c = (2 * k + 1)%nat -> (c <= n)%nat ->
                 ts_le (K v (store1 cur' base i' tmp) (base + c - 1))
                       (K v (store1 cur' base i' tmp) (base + k - 1))).
Proof.
  induction fuel as [| f IH]; intros cur i Hlo Hi Hn Hlen Hheap Hgrand Hfuel; [lia|].
  cbn [sift].
  set (F := store1 cur base i tmp) in *.
  assert (List.length F = List.length cur) as LF by apply length_store.
  assert (K v F (base + i - 1) = key v tmp) as Ehole
      by (unfold F, store1, K; rewrite item_store_same by lia; reflexivity).
  assert (forall k, k <> i -> (1 <= k)%nat -> item1 cur base k = item F (base + k - 1)) as Ecur.
  { intros k Hk Hk1. unfold F, store1, item1. rewrite item_store_other by lia. reflexivity. }
  (* the heap is complete when the entry dominates the children of the free place *)
  assert ((forall c, c = (2 * i)%nat \/ c = (2 * i + 1)%nat -> (c <= n)%nat ->
                     ts_le (K v F (base + c - 1)) (key v tmp)) ->
          exists cur' i',
            (cur, i) = (cur', i') /\
            rearranged (base + lo - 1) (base + n - 1) F (store1 cur' base i' tmp) /\
            (forall k c, (lo <= k)%nat -> c = (2 * k)%nat \/ c = (2 * k + 1)%nat ->
                         (c <= n)%nat ->
                         ts_le (K v (store1 cur' base i' tmp) (base + c - 1))
                               (K v (store1 cur' base i' tmp) (base + k - 1)))) as Hdone.
  { intros Hchildren. exists cur, i. split; [reflexivity|].
    split; [apply rearranged_refl|]. fold F.
    intros k c Hk Hc Hcn. destruct (Nat.eq_dec k i) as [-> | Hki].
    - rewrite Ehole. apply Hchildren; assumption.
    - apply Hheap; assumption. }
  destruct (Nat.leb_spec (i + i) n) as [Hj | Hj].
  2: { apply Hdone. intros c Hc Hcn. lia. }
  set (j := if ((i + i <? n)%nat
                && ts_ltb (key v (item1 cur base (i + i))) (key v (item1 cur base (S (i + i)))))%bool
            then S (i + i) else (i + i)%nat).
  assert ((j = (2 * i)%nat \/ j = (2 * i + 1)%nat) /\ (j <= n)%nat /\
          forall c, c = (2 * i)%nat \/ c = (2 * i + 1)%nat -> (c <= n)%nat ->
                    ts_le (K v F (base + c - 1)) (K v F (base + j - 1))) as (Hjc & Hjn & Hlarger).
  { unfold j. rewrite !Ecur by lia.
    replace (base + S (i + i) - 1)%nat with (base + (2 * i + 1) - 1)%nat by lia.
    replace (base + (i + i) - 1)%nat with (base + 2 * i - 1)%nat by lia.
    fold (K v F (base + 2 * i - 1)) (K v F (base + (2 * i + 1) - 1)).
    destruct (Nat.ltb_spec (i + i) n) as [Hlt | Hge]; cbn [andb].
    - destruct (ts_ltb (K v F (base + 2 * i - 1)) (K v F (base + (2 * i + 1) - 1))) eqn:E.
      + split; [right; lia|]. split; [lia|].
        intros c [-> | ->] Hcn.
        * replace (base + S (i + i) - 1)%nat with (base + (2 * i + 1) - 1)%nat by lia.
          apply ltb_true_le. exact E.
        * replace (base + S (i + i) - 1)%nat with (base + (2 * i + 1) - 1)%nat by lia.
          apply ts_le_refl.
      + split; [left; lia|]. split; [lia|].
        replace (base + (i + i) - 1)%nat with (base + 2 * i - 1)%nat by lia.
        intros c [-> | ->] Hcn; [apply ts_le_refl | apply ltb_false; exact E].
    - split; [left; lia|]. split; [lia|].
      replace (base + (i + i) - 1)%nat with (base + 2 * i - 1)%nat by lia.
      intros c [-> | ->] Hcn; [apply ts_le_refl | lia]. }
  fold j. rewrite (Ecur j) by lia. fold (K v F (base + j - 1)).
  destruct (ts_ltb (key v tmp) (K v F (base + j - 1))) eqn:E.
  2: { apply Hdone. intros c Hc Hcn.
       apply (ts_le_trans _ (K v F (base + j - 1))); [apply Hlarger; assumption|].
       apply ltb_false. exact E. }
  rewrite <- (Ecur j) by lia.
  assert (store1 (store1 cur base i (item1 cur base j)) base j tmp
          = swap F (base + i - 1) (base + j - 1)) as Hhole.
  { unfold store1, item1, F, store1. apply store_hole; lia. }
  assert (K v (swap F (base + i - 1) (base + j - 1)) (base + i - 1) = K v F (base + j - 1))
    as E1 by (unfold K; rewrite item_swap_l by lia; reflexivity).
  assert (K v (swap F (base + i - 1) (base + j - 1)) (base + j - 1) = key v tmp)
    as E2 by (unfold K; rewrite item_swap_r by lia; exact Ehole).
  assert (forall k, k <> i -> k <> j -> (1 <= k)%nat ->
                    K v (swap F (base + i - 1) (base + j - 1)) (base + k - 1)
                    = K v F (base + k - 1)) as Eother
      by (intros k H1 H2 H3; unfold K; rewrite item_swap_other by lia; reflexivity).
  replace (j + j)%nat with (j + j)%nat by reflexivity.
  destruct (IH (store1 cur base i (item1 cur base j)) j)
    as (cur' & i' & Hsift & Hre & Hheap'); try lia.
  { unfold store1. rewrite length_store. exact Hlen. }
  { rewrite Hhole. intros k c Hk Hkj Hc Hcn.
    destruct (Nat.eq_dec k i) as [-> | Hki].
    - rewrite E1. destruct (Nat.eq_dec c j) as [-> | Hcj].
      + rewrite E2. apply ltb_true_le. exact E.
      + rewrite Eother by lia. apply Hlarger; [lia | exact Hcn].
    - destruct (Nat.eq_dec c i) as [-> | Hci].
      + rewrite E1, Eother by lia. apply (Hgrand k j); try assumption; lia.
      + assert (c <> j) by lia. rewrite !Eother by lia. apply Hheap; assumption. }
  { rewrite Hhole. intros p c Hp Hjp Hc Hcn.
    assert (p = i) as -> by lia.
    rewrite E1, Eother by lia. apply Hheap; try assumption; lia. }
  exists cur', i'. split; [exact Hsift|]. split; [| exact Hheap'].
  eapply rearranged_trans; [| exact Hre].
  rewrite Hhole. apply rearranged_swap; lia.
Qed.

Lemma heapify_spec base n : forall l a,
  (l <= n)%nat -> (base + n <= List.length a)%nat ->
  heap v a base (S l) n ->
  rearranged base (base + n - 1) a (heapify v l a base n) /\
  heap v (heapify v l a base n) base 1 n.
Proof.
  induction l as [| l IH]; intros a Hl Hlen Hheap.
  - split; [apply rearranged_refl | exact Hheap].
  - cbn [heapify].
    assert (store1 a base (S l) (item1 a base (S l)) = a) as Efill
        by (unfold store1, item1; apply store_item).
    destruct (sift_spec base n (S l) (item1 a base (S l)) (List.length a) a (S l))
      as (cur' & i' & Hsift & Hre & Hheap'); try lia.
    + rewrite Efill. intros k c Hk Hne Hc Hcn. apply Hheap; try assumption. lia.
    + rewrite Hsift. rewrite Efill in Hre.
      destruct Hre as (L & Hre). pose proof (conj L Hre) as Hre'.
      destruct (IH (store1 cur' base i' (item1 a base (S l)))) as (Hre2 & Hheap2);
        try lia; try exact Hheap'.
      split; [| exact Hheap2].
      eapply rearranged_trans; [| exact Hre2].
      apply (rearranged_wider (base + S l - 1) (base + n - 1)); [lia | lia | exact Hre'].
Qed.

Lemma heap_top a base n :
  heap v a base 1 n ->
  forall k, (1 <= k <= n)%nat -> ts_le (K v a (base + k - 1)) (K v a (base + 1 - 1)).
Proof.
  intros Hheap k. induction k as [k IH] using (well_founded_induction lt_wf).
  intros Hk. destruct (Nat.eq_dec k 1) as [-> | Hne]; [apply ts_le_refl|].
  pose proof (Nat.div2_odd k) as Hhalf.
  assert (k = (2 * Nat.div2 k)%nat \/ k = (2 * Nat.div2 k + 1)%nat) as Hc
    by (destruct (Nat.odd k); cbn [Nat.b2n] in Hhalf; lia).
  apply (ts_le_trans _ (K v a (base + Nat.div2 k - 1))).
  - apply Hheap; [lia | exact Hc | lia].
  - apply IH; lia.
Qed.

Lemma sort_down_spec base N : forall m a,
  (m <= N)%nat -> (base + N <= List.length a)%nat ->
  heap v a base 1 m ->
  sorted_seg v a (base + m) (base + N - 1) ->
  (forall p q, (base <= p < base + m)%nat -> (base + m <= q <= base + N - 1)%nat ->
               ts_le (K v a p) (K v a q)) ->
  rearranged base (base + N - 1) a (sort_down v m a base) /\
  sorted_seg v (sort_down v m a base) base (base + N - 1).
Proof.
  induction m as [| m IH]; intros a Hm Hlen Hheap Htail Hbelow.
  - split; [apply rearranged_refl|]. cbn [sort_down].
    replace (base + 0)%nat with base in Htail by lia. exact Htail.
  - destruct m as [| m'].
    + split; [apply rearranged_refl|]. cbn [sort_down].
      intros p q Hp Hpq Hq. destruct (Nat.eq_dec p base) as [-> | Hpb].
      * destruct (Nat.eq_dec q base) as [-> | Hqb]; [apply ts_le_refl|].
        apply Hbelow; lia.
      * apply Htail; lia.
    + set (m := S (S m')) in *. set (n' := S m') in *.
      assert (m = S n') as Hmn by reflexivity.
      change (sort_down v m a base)
        with (let tmp := item1 a base m in
              let a1 := store1 a base m (item1 a base 1) in
              let '(a', i) := sift v (List.length a1) a1 base tmp 1 2 n' in
              sort_down v n' (store1 a' base i tmp) base).
      cbv zeta.
      set (tmp := item1 a base m). set (a1 := store1 a base m (item1 a base 1)).
      set (F := swap a (base + m - 1) (base + 1 - 1)).
      assert (store1 a1 base 1 tmp = F) as EF.
      { unfold a1, store1, item1, tmp, item1, F.
        rewrite store_hole by lia. rewrite store_item. reflexivity. }
      assert (List.length a1 = List.length a) as La1 by apply length_store.
      assert (K v F (base + 1 - 1) = K v a (base + m - 1)) as Etop
          by (unfold F, K; rewrite item_swap_r by lia; reflexivity).
      assert (K v F (base + m - 1) = K v a (base + 1 - 1)) as Elast
          by (unfold F, K; rewrite item_swap_l by lia; reflexivity).
      assert (forall p, p <> (base + 1 - 1)%nat -> p <> (base + m - 1)%nat ->
                        K v F p = K v a p) as Eother
          by (intros p H1 H2; unfold F, K; rewrite item_swap_other by lia; reflexivity).
      assert (forall p, (base <= p < base + m)%nat ->
                        exists k, (1 <= k <= m)%nat /\ K v F p = K v a (base + k - 1)) as Hfrom.
      { intros p Hp. destruct (Nat.eq_dec p (base + 1 - 1)) as [-> | H1].
        - exists m. split; [lia | exact Etop].
        - destruct (Nat.eq_dec p (base + m - 1)) as [-> | H2].
          + exists 1%nat. split; [lia | exact Elast].
          + exists (p - base + 1)%nat. split; [lia|].
            rewrite Eother by assumption. f_equal. lia. }
      destruct (sift_spec base n' 1 tmp (List.length a1) a1 1)
        as (cur' & i' & Hsift & Hre & Hheap'); try lia.
      * rewrite EF. intros k c Hk Hne Hc Hcn.
        rewrite !Eother by lia. apply Hheap; try assumption; lia.
      * change (1 + 1)%nat with 2%nat in Hsift. rewrite Hsift.
        rewrite EF in Hre.
        set (F' := store1 cur' base i' tmp) in *.
        assert (List.length F' = List.length a) as LF'
            by (destruct Hre as (L & _); rewrite L; apply length_swap).
        assert (rearranged base (base + N - 1) a F') as Hre'.
        { apply (rearranged_trans _ _ _ F).
          - apply rearranged_swap; lia.
          - apply (rearranged_wider (base + 1 - 1) (base + n' - 1)); [lia | lia | exact Hre]. }
        assert (forall q, (base + n' <= q)%nat -> K v F' q = K v F q) as Ehigh
            by (intros q Hq; apply (K_fixed _ _ _ _ _ Hre); lia).
        destruct (IH F') as (Hre2 & Hsorted); try lia; try exact Hheap'.
        -- intros p q Hp Hpq Hq. rewrite !Ehigh by lia.
           destruct (Nat.eq_dec p (base + m - 1)) as [-> | Hpm].
           ++ rewrite Elast. destruct (Nat.eq_dec q (base + m - 1)) as [-> | Hqm].
              ** rewrite Elast. apply ts_le_refl.
              ** rewrite Eother by lia. apply Hbelow; lia.
           ++ rewrite !Eother by lia. apply Htail; lia.
        -- intros p q Hp Hq. rewrite (Ehigh q) by lia.
           destruct Hre as (_ & _ & W & _).
           destruct (W p) as (p' & Hp' & Ep); [lia|].
           unfold K at 1. rewrite Ep. fold (K v F p').
           destruct (Hfrom p') as (k & Hk & Ek); [lia|]. rewrite Ek.
           destruct (Nat.eq_dec q (base + m - 1)) as [-> | Hqm].
           ++ rewrite Elast. apply heap_top with (n := m); assumption.
           ++ rewrite Eother by lia. apply Hbelow; lia.
        -- split; [| exact Hsorted].
           eapply rearranged_trans; [exact Hre' | exact Hre2].
Qed.

Lemma aheapsort_spec a pl pr :
  (pl <= pr)%nat -> (pr < List.length a)%nat ->
  rearranged pl pr a (aheapsort v a pl (pr - pl + 1)) /\
  sorted_seg v (aheapsort v a pl (pr - pl + 1)) pl pr.
Proof.
  intros Hle Hpr. unfold aheapsort.
  set (n := (pr - pl + 1)%nat).
  assert (pr = (pl + n - 1)%nat) as Epr by lia.
  pose proof (Nat.div2_odd n) as Hhalf.
  assert (n <= 2 * Nat.div2 n + 1)%nat as Hn
      by (destruct (Nat.odd n); cbn [Nat.b2n] in Hhalf; lia).
  destruct (heapify_spec pl n (Nat.div2 n) a) as (Hre & Hheap); try lia.
  { intros k c Hk Hc Hcn. lia. }
  set (b := heapify v (Nat.div2 n) a pl n) in *.
  assert (List.length b = List.length a) as Lb by (destruct Hre as (L & _); exact L).
  destruct (sort_down_spec pl n n b) as (Hre2 & Hsorted); try lia; try exact Hheap.
  { intros p q Hp Hpq Hq. lia. }
  rewrite Epr. split; [| exact Hsorted].
  eapply rearranged_trans; [exact Hre | exact Hre2].
Qed.

(** *** The parts still to be sorted *)

Lemma settled_refine a a' s rest segs' :
  settled v a (s :: rest) -> Forall (apart s) rest ->
  (snd s < List.length a)%nat ->
  rearranged (fst s) (snd s) a a' ->
  (forall t, In t rest -> In t segs') ->
  (forall p q, (fst s <= p)%nat -> (p < q)%nat -> (q <= snd s)%nat ->
     ts_le (K v a' p) (K v a' q) \/ exists t, In t segs' /\ inside t p /\ inside t q) ->
  settled v a' segs'.
Proof.
  intros Hset Hapart Hlast Hre Hkeep Hin p q Hpq Hq.
  pose proof Hre as (L & Fx & W & _). rewrite L in Hq.
  rewrite Forall_forall in Hapart.
  assert (forall x y, inside s x -> ~ inside s y -> (y < List.length a)%nat ->
                      (x < List.length a)%nat ->
                      ~ exists t, In t (s :: rest) /\ inside t x /\ inside t y) as Hcross.
  { intros x y Hx Hy _ _ (t & [<- | Ht] & Htx & Hty); [contradiction|].
    specialize (Hapart t Ht). unfold inside, apart in *. lia. }
  assert (inside s p \/ ~ inside s p) as [Hp | Hp] by (unfold inside; lia);
    (assert (inside s q \/ ~ inside s q) as [Hq' | Hq'] by (unfold inside; lia)).
  - apply Hin; unfold inside in *; lia.
  - destruct (W p Hp) as (p' & Hp' & Ep).
    assert (K v a' p = K v a p') as -> by (unfold K; rewrite Ep; reflexivity).
    assert (K v a' q = K v a q) as ->
        by (unfold K; rewrite Fx by (unfold inside in *; lia); reflexivity).
    destruct (Hset p' q) as [Hle | Hex]; [unfold inside in *; lia | exact Hq | left; exact Hle |].
    exfalso. apply (Hcross p' q); try assumption. unfold inside in *. lia.
  - destruct (W q Hq') as (q' & Hq'' & Eq).
    assert (K v a' q = K v a q') as -> by (unfold K; rewrite Eq; reflexivity).
    assert (K v a' p = K v a p) as ->
        by (unfold K; rewrite Fx by (unfold inside in *; lia); reflexivity).
    destruct (Hset p q') as [Hle | Hex];
      [unfold inside in *; lia | unfold inside in *; lia | left; exact Hle |].
    exfalso. destruct Hex as (t & Ht & Htp & Htq).
    apply (Hcross q' p); try assumption; try (unfold inside in *; lia).
    exists t. tauto.
  - assert (K v a' p = K v a p) as ->
        by (unfold K; rewrite Fx by (unfold inside in *; lia); reflexivity).
    assert (K v a' q = K v a q) as ->
        by (unfold K; rewrite Fx by (unfold inside in *; lia); reflexivity).
    destruct (Hset p q Hpq Hq) as [Hle | (t & [<- | Ht] & Htp & Htq)];
      [left; exact Hle | contradiction |].
    right. exists t. split; [apply Hkeep; exact Ht | tauto].
Qed.

Lemma apart_part s s' t :
  (fst s <= fst s')%nat -> (snd s' <= snd s)%nat -> apart s t -> apart s' t.
Proof. unfold apart. lia. Qed.

Lemma pending_retire n a a' s rest :
  pending v n a (s :: rest) ->
  rearranged (fst s) (snd s) a a' -> sorted_seg v a' (fst s) (snd s) ->
  pending v n a' rest.
Proof.
  intros (L & Hproper & (Hapart & Hall) & Hset) Hre Hsorted.
  split; [destruct Hre as (L' & _); congruence|].
  inversion Hproper as [| s0 r0 Hs Hrest]; subst. unfold proper in Hs.
  split; [exact Hrest|]. split; [exact Hall|].
  apply (settled_refine a a' s rest rest); try assumption; [lia | tauto |].
  intros p q Hp Hpq Hq. left. apply Hsorted; lia.
Qed.

Lemma pending_split n a a' pl pr pi rest :
  pending v n a ((pl, pr) :: rest) ->
  rearranged pl pr a a' -> (pl < pi < pr)%nat ->
  below v a' pl (pi - 1) (K v a' pi) -> above v a' (pi + 1) pr (K v a' pi) ->
  pending v n a' ((pl, (pi - 1)%nat) :: (S pi, pr) :: rest) /\
  pending v n a' ((S pi, pr) :: (pl, (pi - 1)%nat) :: rest).
Proof.
  intros (L & Hproper & (Hapart & Hall) & Hset) Hre Hpi Hbelow Habove.
  assert (List.length a' = n) as L' by (destruct Hre as (L' & _); congruence).
  inversion Hproper as [| s0 r0 Hs Hrest]; subst. unfold proper in Hs. cbn [fst snd] in Hs.
  assert (Forall (apart (pl, (pi - 1)%nat)) rest) as Hleft
      by (eapply Forall_impl; [| exact Hapart]; intros t; apply apart_part; cbn; lia).
  assert (Forall (apart (S pi, pr)) rest) as Hright
      by (eapply Forall_impl; [| exact Hapart]; intros t; apply apart_part; cbn; lia).
  assert (forall segs',
             In (pl, (pi - 1)%nat) segs' -> In (S pi, pr) segs' ->
             (forall t, In t rest -> In t segs') -> settled v a' segs') as Hsettled.
  { intros segs' Hl Hr Hkeep.
    apply (settled_refine a a' (pl, pr) rest segs'); try assumption; [cbn [snd]; lia|].
    cbn [fst snd]. intros p q Hp Hpq Hq.
    destruct (Nat.lt_ge_cases q pi) as [Hqpi | Hqpi].
    - right. exists (pl, (pi - 1)%nat). unfold inside. cbn [fst snd]. split; [exact Hl | lia].
    - destruct (Nat.lt_ge_cases pi p) as [Hppi | Hppi].
      + right. exists (S pi, pr). unfold inside. cbn [fst snd]. split; [exact Hr | lia].
      + left. apply (ts_le_trans _ (K v a' pi)).
        * destruct (Nat.eq_dec p pi) as [-> | Hne]; [apply ts_le_refl | apply Hbelow; lia].
        * destruct (Nat.eq_dec q pi) as [-> | Hne]; [apply ts_le_refl | apply Habove; lia]. }
  split.
  - split; [exact L'|]. split; [| split].
    + repeat constructor; unfold proper; cbn [fst snd]; try lia. exact Hrest.
    + cbn [all_apart]. repeat split; try assumption.
      constructor; [unfold apart; cbn; lia | exact Hleft].
    + apply Hsettled; cbn [In]; auto.
  - split; [exact L'|]. split; [| split].
    + repeat constructor; unfold proper; cbn [fst snd]; try lia. exact Hrest.
    + cbn [all_apart]. repeat split; try assumption.
      constructor; [unfold apart; cbn; lia | exact Hright].
    + apply Hsettled; cbn [In]; auto.
Qed.

(** *** The division loop *)

Lemma divide_step f a pl pr cdepth stack :
  divide v (S f) a pl pr cdepth stack
  = if (SMALL_QUICKSORT <? pr - pl)%nat then
      let '(a', pi) := division v a pl pr in
      if (pi - pl <? pr - pi)%nat then
        divide v f a' pl (pi - 1) (cdepth - 1)%Z ((S pi, pr, (cdepth - 1)%Z) :: stack)
      else
        divide v f a' (S pi) pr (cdepth - 1)%Z ((pl, (pi - 1)%nat, (cdepth - 1)%Z) :: stack)
    else (a, pl, pr, stack).
Proof.
  cbn [divide]. unfold division, median3.
  destruct (SMALL_QUICKSORT <? pr - pl)%nat; [| reflexivity].
  match goal with
  | |- context [partition_loop v ?n ?b ?vp ?i ?j] =>
      destruct (partition_loop v n b vp i j) as [b' pi]
  end.
  reflexivity.
Qed.

Lemma divide_spec n : forall fuel a pl pr cdepth stack,
  pending v n a ((pl, pr) :: parts stack) ->
  (pr - pl <= fuel)%nat ->
  exists a' pl' pr' stack',
    divide v fuel a pl pr cdepth stack = (a', pl', pr', stack') /\
    pending v n a' ((pl', pr') :: parts stack') /\
    (pr' - pl' <= SMALL_QUICKSORT)%nat /\
    Permutation a' a /\
    (weight ((pl', pr') :: parts stack') <= weight ((pl, pr) :: parts stack))%nat.
Proof.
  induction fuel as [| f IH]; intros a pl pr cdepth stack Hpend Hfuel.
  - exists a, pl, pr, stack. cbn [divide]. repeat split; try apply Hpend; auto.
    unfold SMALL_QUICKSORT. lia.
  - rewrite divide_step.
    destruct (Nat.ltb_spec SMALL_QUICKSORT (pr - pl)) as [Hbig | Hsmall].
    2: { exists a, pl, pr, stack. repeat split; try apply Hpend; auto. }
    unfold SMALL_QUICKSORT in Hbig.
    pose proof Hpend as (L & Hproper & _).
    inversion Hproper as [| s0 r0 Hs _]; subst. unfold proper in Hs. cbn [fst snd] in Hs.
    destruct (division_spec a pl pr) as (a' & pi & Ediv & Hre & Hpi & Hbelow & Habove);
      try lia.
    rewrite Ediv.
    destruct (pending_split _ a a' pl pr pi (parts stack) Hpend Hre Hpi Hbelow Habove)
      as (Hleft & Hright).
    assert (Permutation a' a) as Hperm by (destruct Hre as (_ & _ & _ & P); exact P).
    destruct (pi - pl <? pr - pi)%nat.
    + destruct (IH a' pl (pi - 1)%nat (cdepth - 1)%Z ((S pi, pr, (cdepth - 1)%Z) :: stack))
        as (a2 & pl2 & pr2 & stack2 & E & Hpend2 & Hsmall2 & Hperm2 & Hw);
        [exact Hleft | lia |].
      exists a2, pl2, pr2, stack2. split; [exact E|]. split; [exact Hpend2|].
      split; [exact Hsmall2|]. split; [rewrite Hperm2; exact Hperm|].
      etransitivity; [exact Hw|]. unfold parts. cbn [weight map fst snd]. lia.
    + destruct (IH a' (S pi) pr (cdepth - 1)%Z ((pl, (pi - 1)%nat, (cdepth - 1)%Z) :: stack))
        as (a2 & pl2 & pr2 & stack2 & E & Hpend2 & Hsmall2 & Hperm2 & Hw);
        [exact Hright | lia |].
      exists a2, pl2, pr2, stack2. split; [exact E|]. split; [exact Hpend2|].
      split; [exact Hsmall2|]. split; [rewrite Hperm2; exact Hperm|].
      etransitivity; [exact Hw|]. unfold parts. cbn [weight map fst snd]. lia.
Qed.

(** *** The loop over the parts *)

Lemma sort_parts_spec n : forall fuel a pl pr cdepth stack,
  pending v n a ((pl, pr) :: parts stack) ->
  (weight ((pl, pr) :: parts stack) <= fuel)%nat ->
  Permutation (sort_parts v fuel a pl pr cdepth stack) a /\
  List.length (sort_parts v fuel a pl pr cdepth stack) = n /\
  settled v (sort_parts v fuel a pl pr cdepth stack) [].
Proof.
  induction fuel as [| f IH]; intros a pl pr cdepth stack Hpend Hw.
  - cbn [weight] in Hw. lia.
  - pose proof Hpend as (L & Hproper & _).
    inversion Hproper as [| s0 r0 Hs _]; subst. unfold proper in Hs. cbn [fst snd] in Hs.
    assert (exists a1 stack1,
               (if (cdepth <? 0)%Z then (aheapsort v a pl (pr - pl + 1), stack)
                else
                  let '(a', pl', pr', stack') :=
                    divide v (List.length a) a pl pr cdepth stack in
                  (insertion_sort v (pr' - pl') a' pl' (S pl'), stack'))
               = (a1, stack1) /\
               pending v (List.length a) a1 (parts stack1) /\
               (weight (parts stack1) <= f)%nat /\
               Permutation a1 a) as (a1 & stack1 & E & Hpend1 & Hw1 & Hperm1).
    { destruct (cdepth <? 0)%Z.
      - destruct (aheapsort_spec a pl pr) as (Hre & Hsorted); try lia.
        exists (aheapsort v a pl (pr - pl + 1)), stack. split; [reflexivity|].
        split; [| split].
        + apply (pending_retire _ a _ (pl, pr)); assumption.
        + cbn [weight fst snd] in Hw. lia.
        + destruct Hre as (_ & _ & _ & P). exact P.
      - destruct (divide_spec _ (List.length a) a pl pr cdepth stack Hpend)
          as (a' & pl' & pr' & stack' & E & Hpend' & Hsmall & Hperm & Hw'); [lia|].
        rewrite E.
        pose proof Hpend' as (L' & Hproper' & _).
        inversion Hproper' as [| s1 r1 Hs' _]; subst.
        unfold proper in Hs'. cbn [fst snd] in Hs'.
        destruct (insertion_sort_spec pl' (pr' - pl') a' (S pl')) as (Hre & Hsorted);
          try lia.
        { intros p q Hp Hpq Hq. replace q with p by lia. apply ts_le_refl. }
        replace (S pl' + (pr' - pl') - 1)%nat with pr' in Hre, Hsorted by lia.
        exists (insertion_sort v (pr' - pl') a' pl' (S pl')), stack'.
        split; [reflexivity|]. split; [| split].
        + apply (pending_retire _ a' _ (pl', pr')); assumption.
        + cbn [weight fst snd] in Hw'. cbn [weight fst snd] in Hw. lia.
        + destruct Hre as (_ & _ & _ & P). rewrite P. exact Hperm. }
    change (sort_parts v (S f) a pl pr cdepth stack)
      with (let '(a, stack) :=
              if (cdepth <? 0)%Z then (aheapsort v a pl (pr - pl + 1), stack)
              else
                let '(a, pl', pr', stack') :=
                  divide v (List.length a) a pl pr cdepth stack in
                (insertion_sort v (pr' - pl') a pl' (S pl'), stack') in
            match stack with
            | [] => a
            | (pl, pr, cdepth) :: rest => sort_parts v f a pl pr cdepth rest
            end).
    rewrite E.
    destruct stack1 as [| [[pl1 pr1] cdepth1] rest].
    + split; [exact Hperm1|]. destruct Hpend1 as (L1 & _ & _ & Hset). split; assumption.
    + destruct (IH a1 pl1 pr1 cdepth1 rest Hpend1 Hw1) as (P & L1 & Hset).
      split; [rewrite P; exact Hperm1|]. split; assumption.
Qed.

End Order.

(** *** [aquicksort] sorts *)

Lemma aquicksort_spec (v : list Timestamp) :
  Permutation (aquicksort v) (seq 0 (List.length v)) /\
  forall p q, (p < q)%nat -> (q < List.length v)%nat ->
              ts_le (K v (aquicksort v) p) (K v (aquicksort v) q).
Proof.
  unfold aquicksort.
  destruct (Nat.eq_dec (List.length v) 0) as [E | Hne].
  - rewrite E. cbn. split; [constructor | intros; lia].
  - set (n := List.length v) in *.
    destruct (sort_parts_spec v n (S n) (seq 0 n) 0 (n - 1)
                              (2 * Z.log2 (Z.of_nat n))%Z [])
      as (P & L & Hset).
    + split; [apply length_seq|]. split; [| split].
      * repeat constructor; cbn [fst snd]; lia.
      * cbn. split; [constructor | exact I].
      * intros p q Hpq Hq. rewrite length_seq in Hq. right.
        exists (0%nat, (n - 1)%nat). unfold inside. cbn [fst snd In]. split; [auto | lia].
    + cbn [weight parts map fst snd]. lia.
    + split; [exact P|]. intros p q Hpq Hq.
      destruct (Hset p q Hpq) as [Hle | (s & [] & _)]; [rewrite L; exact Hq | exact Hle].
Qed.

Lemma take_keys (v : list Timestamp) : forall idx,
  Forall (fun i => (i < List.length v)%nat) idx -> take idx v = map (key v) idx.
Proof.
  induction idx as [| i idx IH]; intros H; [reflexivity|].
  inversion H as [| i0 r0 Hi Hrest]; subst.
  change (take (i :: idx) v)
    with ((match nth_error v i with Some x => [x] | None => [] end) ++ take idx v).
  rewrite IH by exact Hrest.
  rewrite (nth_error_nth' v (midnight (mkDate 1970 1 1)) Hi). reflexivity.
Qed.

Lemma ascending_adjacent (d : Timestamp) : forall l,
  (forall p, (S p < List.length l)%nat -> ts_le (nth p l d) (nth (S p) l d)) ->
  ascending l = true.
Proof.
  induction l as [| x [| y l] IH]; intros H; try reflexivity.
  change (ts_leb x y && ascending (y :: l) = true).
  apply andb_true_iff. split.
  - apply ts_leb_le. apply (H 0%nat). cbn. lia.
  - apply IH. intros p Hp. apply (H (S p)). cbn in *. lia.
Qed.

(** numpy's quicksort answers a sorted arrangement of any keys. *)
Lemma aquicksort_sorts (v : list Timestamp) :
  sorted_permutation v (aquicksort v) = true.
Proof.
  destruct (aquicksort_spec v) as (P & Hle).
  unfold sorted_permutation. apply andb_true_iff. split.
  - unfold is_permutation_of_range. apply andb_true_iff. split.
    + apply Nat.eqb_eq. rewrite (Permutation_length P). apply length_seq.
    + apply forallb_forall. intros i Hi. apply existsb_exists.
      exists i. split; [| apply Nat.eqb_refl].
      apply (Permutation_in i (Permutation_sym P)). exact Hi.
  - rewrite take_keys.
    + apply (ascending_adjacent (key v 0)). intros p Hp.
      rewrite length_map, (Permutation_length P), length_seq in Hp.
      rewrite !map_nth. apply (Hle p (S p)); lia.
    + apply Forall_forall. intros i Hi.
      apply (Permutation_in i P) in Hi. apply in_seq in Hi. lia.
Qed.

End NumpyFacts.

(** ** Line 48: the rows in order of date *)

Module SortingFacts.
Import Calendar Notions CalendarFacts Pandas Prophet App ScriptFacts FrameFacts.

Lemma is_permutation_of_range_spec idx n :
  is_permutation_of_range idx n = true -> Permutation idx (seq 0 n).
Proof.
  unfold is_permutation_of_range. rewrite andb_true_iff, Nat.eqb_eq, forallb_forall.
  intros [Hlen Hall]. symmetry. apply NoDup_Permutation_bis.
  - apply seq_NoDup.
  - rewrite length_seq. lia.
  - intros i Hi. specialize (Hall i Hi). apply existsb_exists in Hall.
    destruct Hall as (j & Hj & Heq). apply Nat.eqb_eq in Heq. subst. exact Hj.
Qed.

Lemma ascending_sorted l : ascending l = true -> Sorted ts_le l.
Proof.
  induction l as [| a [| b l] IH]; intros H.
  - constructor.
  - repeat constructor.
  - cbn [ascending] in H. apply andb_true_iff in H. destruct H as [Hab H].
    constructor; [apply IH; exact H|]. constructor. apply ts_leb_le. exact Hab.
Qed.

Lemma take_app {A} (i j : list nat) (l : list A) :
  take (i ++ j) l = take i l ++ take j l.
Proof. unfold take. apply flat_map_app. Qed.

(** Taking the positions [0 .. n-1] in turn gives the list back. *)
Lemma take_seq {A} (l pre : list A) :
  take (seq (List.length pre) (List.length l)) (pre ++ l) = l.
Proof.
  revert pre. induction l as [| x l IH]; intros pre; [reflexivity|].
  cbn [List.length seq]. unfold take. cbn [flat_map].
  rewrite nth_error_app2 by lia. rewrite Nat.sub_diag. cbn.
  f_equal. specialize (IH (pre ++ [x])).
  rewrite length_app, <- app_assoc in IH. cbn in IH.
  rewrite Nat.add_1_r in IH. exact IH.
Qed.

(** Taking along a permutation of the positions rearranges the list. *)
Lemma take_permutation {A} idx (l : list A) :
  Permutation idx (seq 0 (List.length l)) -> Permutation (take idx l) l.
Proof.
  intros H. unfold take.
  rewrite (Permutation_flat_map _ H).
  change (Permutation (take (seq (List.length (@nil A)) (List.length l)) ([] ++ l)) l).
  rewrite take_seq. reflexivity.
Qed.

(** Taking the positions selected by a test is filtering by the test. *)
Lemma take_positions {A} (keep : A -> bool) (l pre : list A) :
  take (positions keep l (List.length pre)) (pre ++ l) = filter keep l.
Proof.
  revert pre. induction l as [| x l IH]; intros pre; [reflexivity|].
  specialize (IH (pre ++ [x])).
  rewrite length_app, <- app_assoc in IH. cbn in IH. rewrite Nat.add_1_r in IH.
  cbn [positions filter]. destruct (keep x).
  - unfold take in *. cbn [flat_map].
    rewrite nth_error_app2 by lia. rewrite Nat.sub_diag. cbn. f_equal. exact IH.
  - exact IH.
Qed.

Lemma take_positions_0 {A} (keep : A -> bool) (l : list A) :
  take (positions keep l 0) l = filter keep l.
Proof. exact (take_positions keep l []). Qed.

Lemma positions_bound {A} (keep : A -> bool) (l : list A) i p :
  In p (positions keep l i) -> (i <= p < i + List.length l)%nat.
Proof.
  revert i. induction l as [| x l IH]; intros i Hp; [destruct Hp|].
  cbn in Hp. destruct (keep x).
  - destruct Hp as [<- | Hp]; [cbn; lia|]. apply IH in Hp. cbn. lia.
  - apply IH in Hp. cbn. lia.
Qed.

(** The positions that pass a test and those that fail it are all the
    positions. *)
Lemma positions_partition {A} (keep : A -> bool) (l : list A) i :
  Permutation (positions keep l i ++ positions (fun x => negb (keep x)) l i)
              (seq i (List.length l)).
Proof.
  revert i. induction l as [| x l IH]; intros i; [reflexivity|].
  cbn [positions List.length seq]. destruct (keep x); cbn [negb].
  - cbn. constructor. apply IH.
  - rewrite <- Permutation_middle. constructor. apply IH.
Qed.

Lemma positions_length {A} (keep : A -> bool) (l : list A) i :
  List.length (positions keep l i) = List.length (filter keep l).
Proof.
  revert i. induction l as [| x l IH]; intros i; [reflexivity|].
  cbn. destruct (keep x); cbn; rewrite IH; reflexivity.
Qed.

Lemma filter_is_some {A} (l : list (option A)) :
  filter is_some l = map Some (somes l).
Proof.
  induction l as [| [x |] l IH]; cbn; [reflexivity | f_equal; exact IH | exact IH].
Qed.

Lemma take_map {A B} (f : A -> B) idx (l : list A) :
  take idx (map f l) = map f (take idx l).
Proof.
  unfold take. induction idx as [| i idx IH]; [reflexivity|].
  cbn. rewrite map_app, IH, nth_error_map.
  destruct (nth_error l i); reflexivity.
Qed.

(** Taking along positions taken from a list of valid positions. *)
Lemma take_take {A} sigma (ps : list nat) (l : list A) :
  (forall p, In p ps -> (p < List.length l)%nat) ->
  take (take sigma ps) l = take sigma (take ps l).
Proof.
  intros Hvalid.
  assert (forall i, take (match nth_error ps i with Some p => [p] | None => [] end) l
                    = match nth_error (take ps l) i with Some x => [x] | None => [] end)
    as Hat.
  { clear sigma. induction ps as [| p ps IH]; intros i.
    - destruct i; reflexivity.
    - assert (p < List.length l)%nat as Hp by (apply Hvalid; left; reflexivity).
      destruct (nth_error l p) as [x |] eqn:E;
        [| apply nth_error_None in E; lia].
      assert (take (p :: ps) l = x :: take ps l) as ->
          by (unfold take; cbn; rewrite E; reflexivity).
      destruct i as [| i]; cbn.
      + unfold take. cbn. rewrite E. reflexivity.
      + apply IH. intros q Hq. apply Hvalid. right. exact Hq. }
  induction sigma as [| i sigma IH]; [reflexivity|].
  change (take (i :: sigma) ps)
    with ((match nth_error ps i with Some p => [p] | None => [] end) ++ take sigma ps).
  rewrite take_app, Hat, IH. reflexivity.
Qed.

(** The indexer of [sort_values] rearranges the rows, puts the dates in
    ascending order and the missing dates last. *)
Lemma nargsort_spec libs items :
  sorted_permutation (somes items) (argsort libs (somes items)) = true ->
  Permutation (nargsort libs items) (seq 0 (List.length items)) /\
  take (nargsort libs items) items
  = map Some (take (argsort libs (somes items)) (somes items))
    ++ filter (fun o => negb (is_some o)) items /\
  Sorted ts_le (take (argsort libs (somes items)) (somes items)).
Proof.
  unfold sorted_permutation. rewrite andb_true_iff. intros [Hperm Hasc].
  apply is_permutation_of_range_spec in Hperm.
  assert (List.length (positions is_some items 0) = List.length (somes items)) as Hlen.
  { rewrite positions_length, filter_is_some, length_map. reflexivity. }
  split; [| split].
  - unfold nargsort.
    rewrite <- (positions_partition is_some items 0).
    apply Permutation_app_tail. apply take_permutation.
    rewrite Hlen. exact Hperm.
  - unfold nargsort. rewrite take_app. f_equal.
    + rewrite take_take.
      * rewrite take_positions_0, filter_is_some.
        apply take_map.
      * intros p Hp. apply positions_bound in Hp. lia.
    + apply take_positions_0.
  - apply ascending_sorted. exact Hasc.
Qed.

(** C6, as the code has it.  With two different labels, the date column
    converted to [items] and a target column [cy]: line 48 yields exactly
    the two columns, named [ds] and [y], and both hold the rows of the
    input in the order of one indexer, so each date stays with its value.
    Whenever numpy's [argsort] answers a sorted arrangement of the dates
    that are not missing, the indexer holds every row once, the dates
    ascend and the missing ones come last; and numpy's quicksort does
    answer a sorted arrangement, whatever the dates.  The order among
    rows of equal dates is the one [argsort] leaves. *)
Theorem prepare_projects_renames_sorts
        (libs : Libs) (df : DataFrame) (date_col y_col : string)
        (col cy : Column) (items : list (option Timestamp)) :
  date_col <> y_col ->
  getitem df date_col = Ok col ->
  to_datetime_items libs true col = Ok items ->
  getitem df y_col = Ok cy ->
  exists indexer,
    prepare libs (setitem df date_col (Datetime64 items)) date_col y_col
    = Ok [ ("ds", Datetime64 (take indexer items));
           ("y", take_column indexer cy) ] /\
    (sorted_permutation (somes items) (argsort libs (somes items)) = true ->
     exists sorted,
       Permutation indexer (seq 0 (List.length items)) /\
       take indexer items
       = map Some sorted ++ filter (fun o => negb (is_some o)) items /\
       Permutation sorted (somes items) /\
       Sorted ts_le sorted) /\
    (argsort libs = Numpy.aquicksort ->
     sorted_permutation (somes items) (argsort libs (somes items)) = true).
Proof.
  intros Hne Hcol Hitems Hy.
  exists (nargsort libs items).
  split; [| split].
  - apply prepare_distinct; [exact Hne | exact (setitem_getitem _ _ _ _ Hcol) |].
    rewrite setitem_getitem_other by congruence. exact Hy.
  - intros Hsort.
    destruct (nargsort_spec libs items Hsort) as (Hperm & Htake & Hsorted).
    exists (take (argsort libs (somes items)) (somes items)).
    split; [exact Hperm | split; [exact Htake | split; [| exact Hsorted]]].
    apply take_permutation. apply is_permutation_of_range_spec.
    unfold sorted_permutation in Hsort. apply andb_true_iff in Hsort. tauto.
  - intros Hnumpy. rewrite Hnumpy. apply NumpyFacts.aquicksort_sorts.
Qed.

(** The theorem at the file of four months, whose rows come out in the
    order September, October, November, December. *)
Lemma prepare_projects_renames_sorts_witness :
  argsort Samples.sample_libs = Numpy.aquicksort /\
  sorted_permutation
    [midnight (mkDate 2023 10 1); midnight (mkDate 2023 12 1);
     midnight (mkDate 2023 11 1); midnight (mkDate 2023 9 1)]
    (Numpy.aquicksort
       [midnight (mkDate 2023 10 1); midnight (mkDate 2023 12 1);
        midnight (mkDate 2023 11 1); midnight (mkDate 2023 9 1)]) = true /\
  prepare Samples.sample_libs
          (setitem (read_csv monthly_raw) "Date"
             (Datetime64 [Some (midnight (mkDate 2023 10 1));
                          Some (midnight (mkDate 2023 12 1));
                          Some (midnight (mkDate 2023 11 1));
                          Some (midnight (mkDate 2023 9 1))]))
          "Date" "Calls"
  = Ok monthly_frame /\
  exists indexer,
    prepare Samples.sample_libs
            (setitem (read_csv monthly_raw) "Date"
               (Datetime64 [Some (midnight (mkDate 2023 10 1));
                            Some (midnight (mkDate 2023 12 1));
                            Some (midnight (mkDate 2023 11 1));
                            Some (midnight (mkDate 2023 9 1))]))
            "Date" "Calls"
    = Ok [ ("ds", Datetime64 (take indexer
                                   [Some (midnight (mkDate 2023 10 1));
                                    Some (midnight (mkDate 2023 12 1));
                                    Some (midnight (mkDate 2023 11 1));
                                    Some (midnight (mkDate 2023 9 1))]));
           ("y", take_column indexer (Int64 [5; 7; 6; 1])) ] /\
    Permutation indexer (seq 0 4).
Proof.
  split; [reflexivity|]. split; [reflexivity|]. split; [reflexivity|].
  destruct (prepare_projects_renames_sorts
              Samples.sample_libs (read_csv monthly_raw) "Date" "Calls"
              (Object [PyStr "01/10/2023"; PyStr "01/12/2023"; PyStr "01/11/2023";
                       PyStr "01/09/2023"])
              (Int64 [5; 7; 6; 1])
              [Some (midnight (mkDate 2023 10 1)); Some (midnight (mkDate 2023 12 1));
               Some (midnight (mkDate 2023 11 1)); Some (midnight (mkDate 2023 9 1))]
              ltac:(discriminate) eq_refl eq_refl eq_refl)
    as (indexer & Hprep & Hsorted & Hnumpy).
  exists indexer. split; [exact Hprep|].
  destruct (Hsorted (Hnumpy eq_refl)) as (sorted & Hperm & _). exact Hperm.
Defined.

(** C6 as stated fails: the script asks for the default sort, quicksort,
    which is not stable.  Of eighteen rows on one date with the calls 1
    to 18, numpy's quicksort (which divides a column of more than 17 rows
    around a pivot) leaves the calls in the order 1, 16, 15, ..., 2, 17,
    18. *)
Lemma equal_dates_may_change_places :
  sorted_permutation (repeat same_day 18) (Numpy.aquicksort (repeat same_day 18))
  = true /\
  converted Samples.sample_libs (read_csv ties_raw) "Date"
  = Ok (setitem (read_csv ties_raw) "Date" (Datetime64 (repeat (Some same_day) 18))) /\
  getitem (read_csv ties_raw) "Calls"
  = Ok (Int64 [1; 2; 3; 4; 5; 6; 7; 8; 9; 10; 11; 12; 13; 14; 15; 16; 17; 18]) /\
  prepare Samples.sample_libs
          (setitem (read_csv ties_raw) "Date" (Datetime64 (repeat (Some same_day) 18)))
          "Date" "Calls"
  = Ok [ ("ds", Datetime64 (repeat (Some same_day) 18));
         ("y", Int64 [1; 16; 15; 14; 13; 12; 11; 10; 9; 8; 7; 6; 5; 4; 3; 2; 17; 18]) ].
Proof. repeat split; vm_compute; reflexivity. Qed.

End SortingFacts.

(** ** Lines 72 to 79: the dates of the forecast *)

Module ForecastFacts.
Import Calendar Notions CalendarFacts Pandas Prophet App WindowFacts.

(** *** Sorting and distinct entries *)

Lemma insert_sorted_perm t l : Permutation (insert_sorted t l) (t :: l).
Proof.
  induction l as [| u l IH]; [reflexivity|].
  cbn. destruct (ts_leb t u); [reflexivity|].
  rewrite IH. apply perm_swap.
Qed.

Lemma sort_ts_perm l : Permutation (sort_ts l) l.
Proof.
  induction l as [| t l IH]; [reflexivity|].
  change (sort_ts (t :: l)) with (insert_sorted t (sort_ts l)).
  rewrite insert_sorted_perm. constructor. exact IH.
Qed.

Lemma insert_sorted_sorted t l :
  Sorted ts_le l -> Sorted ts_le (insert_sorted t l).
Proof.
  induction l as [| u l IH]; intros Hs; [repeat constructor|].
  cbn. destruct (ts_leb t u) eqn:E.
  - constructor; [exact Hs|]. constructor. apply ts_leb_le. exact E.
  - apply ts_leb_false, ts_ltb_lt, ts_lt_le in E.
    inversion Hs as [| ? ? Hs' Hhd]; subst.
    constructor; [apply IH; exact Hs'|].
    destruct l as [| v l]; cbn.
    + constructor. exact E.
    + destruct (ts_leb t v); constructor; [exact E|].
      inversion Hhd; subst. assumption.
Qed.

Lemma sort_ts_sorted l : Sorted ts_le (sort_ts l).
Proof.
  induction l as [| t l IH]; [constructor|].
  change (sort_ts (t :: l)) with (insert_sorted t (sort_ts l)).
  apply insert_sorted_sorted. exact IH.
Qed.

(** Sorting a list that ascends leaves it as it is. *)
Lemma sort_ts_id l : Sorted ts_le l -> sort_ts l = l.
Proof.
  induction l as [| t l IH]; intros Hs; [reflexivity|].
  inversion Hs as [| ? ? Hs' Hhd]; subst.
  change (sort_ts (t :: l)) with (insert_sorted t (sort_ts l)).
  rewrite (IH Hs').
  destruct l as [| u l]; [reflexivity|].
  cbn. inversion Hhd as [| ? ? Hle]; subst.
  apply ts_leb_le in Hle. rewrite Hle. reflexivity.
Qed.

Lemma sorted_app l1 l2 :
  Sorted ts_le l1 -> Sorted ts_le l2 ->
  (forall a b, In a l1 -> In b l2 -> ts_le a b) ->
  Sorted ts_le (l1 ++ l2).
Proof.
  induction l1 as [| a l1 IH]; intros H1 H2 Hle; [exact H2|].
  inversion H1 as [| ? ? H1' Hhd]; subst.
  cbn. constructor.
  - apply IH; [exact H1' | exact H2 |].
    intros x y Hx Hy. apply Hle; [right; exact Hx | exact Hy].
  - destruct l1 as [| a' l1]; cbn.
    + destruct l2 as [| b l2]; constructor.
      apply Hle; left; reflexivity.
    + inversion Hhd; subst. constructor. assumption.
Qed.

Lemma unique_in t l : In t (unique l) <-> In t l.
Proof.
  induction l as [| u l IH]; [tauto|].
  cbn. rewrite filter_In, IH.
  split.
  - intros [H | [H _]]; auto.
  - intros [H | H]; [left; exact H|].
    destruct (ts_eqb u t) eqn:E.
    + apply ts_eqb_eq in E. left. exact E.
    + right. split; [exact H | reflexivity].
Qed.

Lemma unique_NoDup l : NoDup (unique l).
Proof.
  induction l as [| t l IH]; [constructor|].
  cbn. constructor.
  - rewrite filter_In. intros [_ H].
    rewrite (proj2 (ts_eqb_eq t t) eq_refl) in H. discriminate.
  - apply NoDup_filter. exact IH.
Qed.

Lemma unique_id l : NoDup l -> unique l = l.
Proof.
  induction l as [| t l IH]; intros Hnd; [reflexivity|].
  inversion Hnd as [| ? ? Hnotin Hnd']; subst.
  cbn. rewrite (IH Hnd'). f_equal.
  apply forallb_filter_id. apply forallb_forall.
  intros u Hu. destruct (ts_eqb t u) eqn:E; [| reflexivity].
  apply ts_eqb_eq in E. subst. contradiction.
Qed.

Lemma somes_map_Some {A} (l : list A) : somes (map Some l) = l.
Proof. induction l as [| x l IH]; [reflexivity | cbn; f_equal; exact IH]. Qed.

Lemma somes_app {A} (l1 l2 : list (option A)) :
  somes (l1 ++ l2) = somes l1 ++ somes l2.
Proof.
  induction l1 as [| [x |] l1 IH]; cbn; [reflexivity | f_equal; exact IH | exact IH].
Qed.

Lemma all_some_map {A} (l : list (option A)) :
  forallb is_some l = true -> l = map Some (somes l).
Proof.
  induction l as [| [x |] l IH]; cbn; intros H;
    [reflexivity | f_equal; apply IH; exact H | discriminate].
Qed.

Lemma forallb_is_some_map {A} (l : list A) : forallb is_some (map Some l) = true.
Proof. induction l as [| x l IH]; [reflexivity | exact IH]. Qed.

Lemma select_all_some {A} mask (l : list (option A)) :
  forallb is_some l = true -> forallb is_some (select mask l) = true.
Proof.
  revert mask. induction l as [| x l IH]; intros mask H.
  - destruct mask as [| [|] mask]; reflexivity.
  - cbn in H. apply andb_true_iff in H. destruct H as [Hx Hl].
    destruct mask as [| [|] mask]; cbn; [reflexivity | | apply IH; exact Hl].
    rewrite Hx. apply IH. exact Hl.
Qed.

(** The dates that [fit] keeps are the distinct dates of the frame in
    ascending order, when none is missing. *)
Lemma unique_sorted_all_some items :
  forallb is_some items = true ->
  unique_sorted items = map Some (sort_ts (unique (somes items))).
Proof. intros H. unfold unique_sorted. rewrite H. apply app_nil_r. Qed.

(** Their greatest is the greatest date of the frame. *)
Lemma max_unique_sorted items last :
  Pandas.max items = Some last ->
  Pandas.max (map Some (sort_ts (unique (somes items)))) = Some last.
Proof.
  intros Hmax. destruct (max_spec _ _ Hmax) as [Hin Hub].
  destruct (Pandas.max (map Some (sort_ts (unique (somes items))))) as [m |] eqn:E.
  - destruct (max_spec _ _ E) as [Hin' Hub'].
    f_equal. apply ts_le_antisym.
    + apply Hub. apply in_somes. apply unique_in.
      apply (Permutation_in _ (sort_ts_perm _)).
      apply in_somes in Hin'. rewrite somes_map_Some in Hin'. exact Hin'.
    + apply Hub'. apply in_map.
      apply (Permutation_in _ (Permutation_sym (sort_ts_perm _))).
      apply unique_in. apply in_somes. exact Hin.
  - apply max_none in E. rewrite somes_map_Some in E.
    apply in_somes in Hin. apply unique_in in Hin.
    apply (Permutation_in _ (Permutation_sym (sort_ts_perm _))) in Hin.
    rewrite E in Hin. destruct Hin.
Qed.

(** *** The three month starts after the last date *)

(** The next month start is later than any timestamp of the month. *)
Lemma MonthBegin_next_later t : ~ ts_le (MonthBegin_next t) t.
Proof.
  destruct t as [[y m d] n]. unfold MonthBegin_next, next_month_start, ts_le.
  cbn [ts_date ts_nanos year month day].
  destruct (Z.eqb_spec m 12); cbn [year month day]; lia.
Qed.

Lemma MonthBegin_next_spec t :
  let n := MonthBegin_next t in
  day (ts_date n) = 1 /\
  ts_nanos n = ts_nanos t /\
  (1 <= month (ts_date t) <= 12 ->
   month_index (ts_date n) = month_index (ts_date t) + 1 /\
   1 <= month (ts_date n) <= 12).
Proof.
  destruct t as [[y m d] n]. unfold MonthBegin_next, next_month_start, month_index.
  cbn [ts_date ts_nanos year month day].
  destruct (Z.eqb_spec m 12); cbn [year month day]; lia.
Qed.

Lemma ts_ltb_true a b : ~ ts_le b a -> ts_ltb a b = true.
Proof. apply ts_ltb_lt. Qed.

Lemma later_trans a b c : ~ ts_le b a -> ~ ts_le c b -> ~ ts_le c a.
Proof. unfold ts_le. cbn. lia. Qed.

Lemma ts_ltb_irrefl a : ts_ltb a a = false.
Proof.
  destruct (ts_ltb a a) eqn:E; [| reflexivity].
  apply ts_ltb_lt in E. exfalso. apply E. apply ts_le_refl.
Qed.

(** Of the four dates that [date_range] generates from the last date, the
    three kept are the next three month starts. *)
Lemma future_dates last :
  firstn 3 (filter (fun d => ts_ltb last d) (generate_range (rollforward last) 4))
  = [ MonthBegin_next last;
      MonthBegin_next (MonthBegin_next last);
      MonthBegin_next (MonthBegin_next (MonthBegin_next last)) ].
Proof.
  pose proof (MonthBegin_next_later last) as H1.
  pose proof (MonthBegin_next_later (MonthBegin_next last)) as H2.
  pose proof (MonthBegin_next_later (MonthBegin_next (MonthBegin_next last))) as H3.
  pose proof (MonthBegin_next_later
                (MonthBegin_next (MonthBegin_next (MonthBegin_next last)))) as H4.
  pose proof (later_trans _ _ _ H1 H2) as H12.
  pose proof (later_trans _ _ _ H12 H3) as H13.
  pose proof (later_trans _ _ _ H13 H4) as H14.
  unfold rollforward. destruct (is_on_offset last); cbn [generate_range filter].
  - rewrite ts_ltb_irrefl.
    rewrite (ts_ltb_true _ _ H1), (ts_ltb_true _ _ H12), (ts_ltb_true _ _ H13).
    reflexivity.
  - rewrite (ts_ltb_true _ _ H1), (ts_ltb_true _ _ H12), (ts_ltb_true _ _ H13),
      (ts_ltb_true _ _ H14).
    reflexivity.
Qed.

(** *** The forecast *)

Lemma fit_ok libs df_prophet y items ys :
  getitem df_prophet "y" = Ok y ->
  getitem df_prophet "ds" = Ok (Datetime64 items) ->
  (2 <= observations y)%nat ->
  to_numeric y = Ok ys ->
  forallb is_some items = true ->
  constant (map snd (training_rows y items ys)) = true \/
  stan_fit libs (training_rows y items ys) = Ok tt ->
  fit libs df_prophet
  = Ok (mkModel (unique_sorted items) (training_rows y items ys)).
Proof.
  intros Hy Hd Hn Hys Hall Hfit. unfold fit.
  rewrite (ErrorFacts.has_column_getitem _ _ _ Hy),
    (ErrorFacts.has_column_getitem _ _ _ Hd).
  cbn [negb orb]. rewrite Hy, Hd. cbn [rbind].
  unfold observations in Hn.
  destruct (Nat.ltb_spec (List.length (filter (fun b : bool => b) (notnull y))) 2);
    [lia|].
  cbn [to_datetime_items rbind]. rewrite Hys. cbn [rbind].
  rewrite (select_all_some (notnull y) items Hall). cbn [negb].
  fold (training_rows y items ys).
  destruct (constant (map snd (training_rows y items ys))); [reflexivity|].
  destruct Hfit as [Hc | Hs]; [discriminate|]. rewrite Hs. reflexivity.
Qed.

(** Lines 72 to 79 on a frame that [fit] accepts and whose month starts
    ahead are representable: the forecast has one record for each
    distinct date of the frame, in ascending order, and then one for each
    of the next three month starts. *)
Lemma forecast_of_dates libs df_prophet y items ys last :
  getitem df_prophet "y" = Ok y ->
  getitem df_prophet "ds" = Ok (Datetime64 items) ->
  (2 <= observations y)%nat ->
  to_numeric y = Ok ys ->
  forallb is_some items = true ->
  constant (map snd (training_rows y items ys)) = true \/
  stan_fit libs (training_rows y items ys) = Ok tt ->
  Pandas.max items = Some last ->
  forallb in_bounds (generate_range (rollforward last) 4) = true ->
  forecast_of libs df_prophet
  = Ok (map (fun t => mkRecord t (predict_at libs (training_rows y items ys) t))
            (sort_ts (unique (somes items))
             ++ [ MonthBegin_next last;
                  MonthBegin_next (MonthBegin_next last);
                  MonthBegin_next (MonthBegin_next (MonthBegin_next last)) ])) /\
  Sorted ts_le (sort_ts (unique (somes items))
                ++ [ MonthBegin_next last;
                     MonthBegin_next (MonthBegin_next last);
                     MonthBegin_next (MonthBegin_next (MonthBegin_next last)) ]).
Proof.
  intros Hy Hd Hn Hys Hall Hfit Hmax Hbounds.
  assert (Sorted ts_le (sort_ts (unique (somes items))
                        ++ [ MonthBegin_next last;
                             MonthBegin_next (MonthBegin_next last);
                             MonthBegin_next (MonthBegin_next (MonthBegin_next last)) ]))
    as Hsorted.
  { pose proof (MonthBegin_next_later last) as H1.
    pose proof (MonthBegin_next_later (MonthBegin_next last)) as H2.
    pose proof (MonthBegin_next_later (MonthBegin_next (MonthBegin_next last))) as H3.
    pose proof (later_trans _ _ _ H1 H2) as H12.
    pose proof (later_trans _ _ _ H12 H3) as H13.
    apply sorted_app.
    - apply sort_ts_sorted.
    - apply Sorted_cons; [apply Sorted_cons; [apply Sorted_cons; [apply Sorted_nil|]|]|].
      + apply HdRel_nil.
      + apply HdRel_cons. apply ts_lt_le. exact H3.
      + apply HdRel_cons. apply ts_lt_le. exact H2.
    - intros a b Ha Hb.
      apply (Permutation_in _ (sort_ts_perm _)) in Ha.
      apply unique_in, in_somes in Ha.
      destruct (max_spec _ _ Hmax) as [_ Hub].
      apply (ts_le_trans _ last); [apply Hub; exact Ha|].
      destruct Hb as [<- | [<- | [<- | []]]]; apply ts_lt_le; assumption. }
  split; [| exact Hsorted].
  unfold forecast_of.
  rewrite (fit_ok libs _ _ _ _ Hy Hd Hn Hys Hall Hfit). cbn [rbind].
  unfold make_future_dataframe. cbn [history_dates].
  rewrite (unique_sorted_all_some _ Hall), (max_unique_sorted _ _ Hmax).
  unfold date_range_MS. change (3 + 1)%nat with 4%nat.
  rewrite Hbounds. cbn [rbind]. rewrite future_dates.
  unfold predict. cbn [history]. rewrite <- map_app.
  rewrite forallb_is_some_map. cbn [negb]. rewrite somes_map_Some.
  rewrite (sort_ts_id _ Hsorted). reflexivity.
Qed.

(** C2, as the code has it.  For a prepared frame with at least two rows
    whose target is not missing, no missing date, a fit that goes through
    and month starts ahead that are representable: the forecast is
    produced; it holds the distinct dates of the input, each once, as
    given and in ascending order, and then exactly three more records, on
    the first days of the next three months after the last date, at its
    time of day.  Its length is the number of distinct dates plus 3, which
    is the number of rows plus 3 when no date occurs twice. *)
Theorem forecast_covers_distinct_dates
        (libs : Libs) (df_prophet : DataFrame) (y : Column)
        (items : list (option Timestamp)) (ys : list (option Q)) (last : Timestamp) :
  getitem df_prophet "y" = Ok y ->
  getitem df_prophet "ds" = Ok (Datetime64 items) ->
  (2 <= observations y)%nat ->
  to_numeric y = Ok ys ->
  forallb is_some items = true ->
  constant (map snd (training_rows y items ys)) = true \/
  stan_fit libs (training_rows y items ys) = Ok tt ->
  Pandas.max items = Some last ->
  forallb in_bounds (generate_range (rollforward last) 4) = true ->
  exists forecast n1 n2 n3,
    forecast_of libs df_prophet = Ok forecast /\
    map ds forecast = sort_ts (unique (somes items)) ++ [n1; n2; n3] /\
    Sorted ts_le (map ds forecast) /\
    NoDup (sort_ts (unique (somes items))) /\
    (forall t, In (Some t) items <-> In t (sort_ts (unique (somes items)))) /\
    (forall t, In (Some t) items -> ts_le t last) /\
    n1 = MonthBegin_next last /\ n2 = MonthBegin_next n1 /\ n3 = MonthBegin_next n2 /\
    ~ ts_le n1 last /\
    (day (ts_date n1) = 1 /\ day (ts_date n2) = 1 /\ day (ts_date n3) = 1) /\
    (ts_nanos n1 = ts_nanos last /\ ts_nanos n2 = ts_nanos last /\
     ts_nanos n3 = ts_nanos last) /\
    (1 <= month (ts_date last) <= 12 ->
     month_index (ts_date n1) = month_index (ts_date last) + 1 /\
     month_index (ts_date n2) = month_index (ts_date last) + 2 /\
     month_index (ts_date n3) = month_index (ts_date last) + 3) /\
    List.length forecast = (List.length (unique (somes items)) + 3)%nat /\
    (NoDup items -> List.length forecast = (List.length items + 3)%nat).
Proof.
  intros Hy Hd Hn Hys Hall Hfit Hmax Hbounds.
  destruct (forecast_of_dates libs _ _ _ _ _ Hy Hd Hn Hys Hall Hfit Hmax Hbounds)
    as [Hforecast Hsorted].
  set (n1 := MonthBegin_next last) in *.
  set (n2 := MonthBegin_next n1) in *.
  set (n3 := MonthBegin_next n2) in *.
  eexists _, n1, n2, n3.
  split; [exact Hforecast|].
  assert (forall l,
             map ds (map (fun t => mkRecord t (predict_at libs (training_rows y items ys) t)) l)
             = l) as Hds
      by (intros l; rewrite map_map; cbn; apply map_id).
  rewrite Hds.
  split; [reflexivity|]. split; [exact Hsorted|].
  split.
  { apply (Permutation_NoDup (Permutation_sym (sort_ts_perm _))). apply unique_NoDup. }
  split.
  { intros t. rewrite <- in_somes, <- unique_in. split; intros H.
    - apply (Permutation_in _ (Permutation_sym (sort_ts_perm _))). exact H.
    - apply (Permutation_in _ (sort_ts_perm _)). exact H. }
  split; [exact (proj2 (max_spec _ _ Hmax))|].
  split; [reflexivity|]. split; [reflexivity|]. split; [reflexivity|].
  split; [apply MonthBegin_next_later|].
  destruct (MonthBegin_next_spec last) as (Hd1 & Hn1 & Hm1).
  destruct (MonthBegin_next_spec n1) as (Hd2 & Hn2 & Hm2).
  destruct (MonthBegin_next_spec n2) as (Hd3 & Hn3 & Hm3).
  fold n1 in Hd1, Hn1, Hm1. fold n2 in Hd2, Hn2, Hm2. fold n3 in Hd3, Hn3, Hm3.
  split; [auto|].
  split; [repeat split; congruence|].
  split.
  { intros Hm. destruct (Hm1 Hm) as [E1 V1]. destruct (Hm2 V1) as [E2 V2].
    destruct (Hm3 V2) as [E3 _]. lia. }
  rewrite length_map, length_app, (Permutation_length (sort_ts_perm _)).
  split; [reflexivity|].
  intros Hnd. cbn [List.length].
  rewrite (all_some_map _ Hall) in Hnd. apply NoDup_map_inv in Hnd.
  rewrite (unique_id _ Hnd).
  rewrite (all_some_map _ Hall) at 2. rewrite length_map. reflexivity.
Qed.

(** The theorem at the prepared frame of the file of four months. *)
Lemma forecast_covers_distinct_dates_witness :
  exists forecast,
    forecast_of Samples.sample_libs monthly_frame = Ok forecast /\
    map ds forecast
    = [ midnight (mkDate 2023 9 1); midnight (mkDate 2023 10 1);
        midnight (mkDate 2023 11 1); midnight (mkDate 2023 12 1);
        midnight (mkDate 2024 1 1); midnight (mkDate 2024 2 1);
        midnight (mkDate 2024 3 1) ] /\
    List.length forecast = 7%nat.
Proof.
  destruct (forecast_covers_distinct_dates
              Samples.sample_libs monthly_frame (Int64 [1; 5; 6; 7])
              [Some (midnight (mkDate 2023 9 1)); Some (midnight (mkDate 2023 10 1));
               Some (midnight (mkDate 2023 11 1)); Some (midnight (mkDate 2023 12 1))]
              [Some (inject_Z 1); Some (inject_Z 5); Some (inject_Z 6); Some (inject_Z 7)]
              (midnight (mkDate 2023 12 1))
              eq_refl eq_refl ltac:(cbn; lia) eq_refl eq_refl
              (or_intror eq_refl) eq_refl eq_refl)
    as (forecast & n1 & n2 & n3 & Hf & Hds & _ & _ & _ & _ & -> & -> & -> & _ & _ & _ & _
        & Hlen & _).
  exists forecast. split; [exact Hf|]. split; [exact Hds | exact Hlen].
Defined.

(** C2 as stated fails: of six rows on two dates the forecast keeps two
    records, and with the three month starts ahead it has five records,
    fewer than the six rows of the input and not six plus three. *)
Lemma repeated_dates_are_counted_once :
  getitem duplicates_frame "ds"
  = Ok (Datetime64 [Some (midnight (mkDate 2023 10 1)); Some (midnight (mkDate 2023 10 1));
                    Some (midnight (mkDate 2023 10 1)); Some (midnight (mkDate 2023 11 1));
                    Some (midnight (mkDate 2023 11 1)); Some (midnight (mkDate 2023 11 1))]) /\
  forecast_of Samples.sample_libs duplicates_frame
  = Ok (map (fun t => mkRecord t Samples.flat_prediction)
            [ midnight (mkDate 2023 10 1); midnight (mkDate 2023 11 1);
              midnight (mkDate 2023 12 1); midnight (mkDate 2024 1 1);
              midnight (mkDate 2024 2 1) ]) /\
  prepare Samples.sample_libs
          (setitem (read_csv duplicates_raw) "Date"
             (Datetime64 [Some (midnight (mkDate 2023 10 1)); Some (midnight (mkDate 2023 10 1));
                          Some (midnight (mkDate 2023 10 1)); Some (midnight (mkDate 2023 11 1));
                          Some (midnight (mkDate 2023 11 1)); Some (midnight (mkDate 2023 11 1))]))
          "Date" "Calls"
  = Ok duplicates_frame.
Proof. repeat split; reflexivity. Qed.

End ForecastFacts.

(** ** Further properties of the script *)

Module MoreRunFacts.
Import Calendar Notions MoreNotions Pandas Prophet App ScriptFacts FrameFacts RunFacts.

(** *** The number of rows *)

Lemma convert_all_length {A} (f : A -> result (option Timestamp)) l items :
  convert_all f l = Ok items -> List.length items = List.length l.
Proof.
  revert items. induction l as [| x l IH]; intros items H.
  - injection H as <-. reflexivity.
  - cbn in H. destruct (f x) as [t |]; [| discriminate]. cbn [rbind] in H.
    destruct (convert_all f l) as [ts |]; [| discriminate]. cbn [rbind] in H.
    injection H as <-. cbn. f_equal. apply IH. reflexivity.
Qed.

Lemma convert_objects_length libs dayfirst l : forall p items,
  convert_objects libs dayfirst p l = Ok items -> List.length items = List.length l.
Proof.
  induction l as [| o l IH]; intros p items H.
  - injection H as <-. reflexivity.
  - cbn [convert_objects] in H.
    destruct (convert_object libs dayfirst p o) as [t |]; [| discriminate].
    cbn [rbind] in H.
    destruct (convert_objects libs dayfirst (S p) l) as [ts |] eqn:E; [| discriminate].
    cbn [rbind] in H. injection H as <-. cbn. f_equal. exact (IH _ _ E).
Qed.

Lemma to_datetime_items_length libs dayfirst c items :
  to_datetime_items libs dayfirst c = Ok items ->
  List.length items = col_length c.
Proof.
  destruct c as [l | l | l | l | l | l]; cbn [to_datetime_items col_length]; intros H.
  - injection H as <-. apply length_map.
  - exact (convert_all_length _ _ _ H).
  - injection H as <-. apply length_map.
  - discriminate.
  - exact (convert_objects_length _ _ _ _ _ H).
  - injection H as <-. reflexivity.
Qed.

(** Line 45.  When the conversion goes through, the column assigned to
    the frame is a datetime column with one entry (a timestamp or [NaT])
    for each row of the column it replaces: no row is dropped or added,
    whatever the dtype of the column was. *)
Theorem conversion_keeps_rows
        (libs : Libs) (df df' : DataFrame) (date_col : string) :
  converted libs df date_col = Ok df' ->
  exists col items,
    getitem df date_col = Ok col /\
    getitem df' date_col = Ok (Datetime64 items) /\
    List.length items = col_length col.
Proof.
  unfold converted, to_datetime. intros H.
  destruct (getitem df date_col) as [col |] eqn:Hcol; [| discriminate].
  cbn [rbind] in H.
  destruct (to_datetime_items libs true col) as [items |] eqn:Hitems; [| discriminate].
  cbn [rbind] in H. injection H as <-.
  exists col, items. split; [reflexivity|].
  split; [exact (setitem_getitem _ _ _ _ Hcol)|].
  exact (to_datetime_items_length _ _ _ _ Hitems).
Qed.

(** The theorem at a frame whose date column holds two texts and a
    missing value. *)
Lemma conversion_keeps_rows_witness :
  exists items,
    getitem (setitem frame_with_gap "Date"
                     (Datetime64 [Some christmas; None; Some april3_midnight])) "Date"
    = Ok (Datetime64 items) /\
    List.length items = 3%nat.
Proof.
  destruct (conversion_keeps_rows Samples.sample_libs frame_with_gap
              (setitem frame_with_gap "Date"
                       (Datetime64 [Some christmas; None; Some april3_midnight]))
              "Date" eq_refl) as (col & items & Hcol & Hitems & Hlen).
  exists items. split; [exact Hitems|].
  rewrite Hlen. cbv in Hcol. injection Hcol as <-. reflexivity.
Defined.

End MoreRunFacts.

(** ** Further properties of the window and of the export table *)

Module MoreWindowFacts.
Import Calendar Notions MoreNotions CalendarFacts DateText DateTextFacts.
Import Pandas Prophet App WindowFacts ForecastFacts.

Lemma filter_window_none forecast s e :
  (forall r, In r forecast -> ~ ts_le (ds r) e) ->
  filter_window forecast (Some s) (Some e) = [].
Proof.
  induction forecast as [| r l IH]; intros H; [reflexivity|].
  unfold filter_window in *. cbn [filter ge le].
  destruct (ts_leb (ds r) e) eqn:E.
  - apply ts_leb_le in E. exfalso. apply (H r); [left; reflexivity | exact E].
  - rewrite andb_false_r. apply IH. intros x Hx. apply H. right. exact Hx.
Qed.

(** In a forecast whose dates ascend, the records of the window stand
    together: before them only records earlier than the start, after them
    only records later than the end. *)
Lemma sorted_window_block forecast s e :
  StronglySorted ts_le (map ds forecast) ->
  exists before after,
    forecast = before ++ filter_window forecast (Some s) (Some e) ++ after /\
    (forall r, In r before -> ~ ts_le s (ds r)) /\
    (forall r, In r after -> ~ ts_le (ds r) e).
Proof.
  induction forecast as [| r l IH]; intros Hs.
  - exists [], []. repeat split; intros r [].
  - cbn [map] in Hs. inversion Hs as [| ? ? Hs' Hall]; subst.
    destruct (IH Hs') as (before & after & Hl & Hb & Ha).
    rewrite Forall_forall in Hall.
    assert (forall x, In x l -> ts_le (ds r) (ds x)) as Hr
        by (intros x Hx; apply Hall; apply in_map; exact Hx).
    unfold filter_window in *. cbn [filter ge le].
    destruct (ts_leb s (ds r)) eqn:Es.
    + apply ts_leb_le in Es.
      assert (before = []) as ->.
      { destruct before as [| b bs]; [reflexivity|]. exfalso.
        apply (Hb b (or_introl eq_refl)).
        apply (ts_le_trans _ (ds r)); [exact Es|].
        apply Hr. rewrite Hl. left. reflexivity. }
      destruct (ts_leb (ds r) e) eqn:Ee; cbn [andb].
      * exists [], after. cbn [app] in *. split; [f_equal; exact Hl|].
        split; [intros x [] | exact Ha].
      * apply ts_leb_false, ts_ltb_lt in Ee.
        assert (forall x, In x l -> ~ ts_le (ds x) e) as Hlate.
        { intros x Hx Hxe. apply Ee. apply (ts_le_trans _ (ds x)); [apply Hr; exact Hx | exact Hxe]. }
        pose proof (filter_window_none l s e Hlate) as Hnone.
        unfold filter_window in Hnone. cbn [ge le] in Hnone. rewrite Hnone.
        exists [], (r :: l). cbn [app]. split; [reflexivity|].
        split; [intros x [] |].
        intros x [<- | Hx]; [exact Ee | apply Hlate; exact Hx].
    + cbn [andb]. apply ts_leb_false, ts_ltb_lt in Es.
      exists (r :: before), after. cbn [app]. split; [f_equal; exact Hl|].
      split; [| exact Ha].
      intros x [<- | Hx]; [exact Es | apply Hb; exact Hx].
Qed.

Lemma ts_le_transitive : Relations_1.Transitive ts_le.
Proof. intros a b c. apply ts_le_trans. Qed.

Lemma predict_dates libs model future forecast :
  predict libs model future = Ok forecast ->
  map ds forecast = sort_ts (somes future).
Proof.
  unfold predict. destruct (forallb is_some future); cbn [negb]; [| discriminate].
  intros [= <-]. rewrite map_map. cbn. apply map_id.
Qed.

(** Lines 79 and 90.  Whatever [predict] returns has its dates in
    ascending order, so the rows that the filter of line 90 keeps are one
    block of consecutive rows of the forecast: all rows before the block
    are earlier than [start_date], all rows after it are later than
    [end_date]. *)
Theorem window_is_a_block
        (libs : Libs) (model : Model) (future : list (option Timestamp))
        (forecast : list ForecastRecord) (start_date end_date : Timestamp) :
  predict libs model future = Ok forecast ->
  Sorted ts_le (map ds forecast) /\
  exists before after,
    forecast
    = before ++ filter_window forecast (Some start_date) (Some end_date) ++ after /\
    (forall r, In r before -> ~ ts_le start_date (ds r)) /\
    (forall r, In r after -> ~ ts_le (ds r) end_date).
Proof.
  intros H. pose proof (predict_dates _ _ _ _ H) as Hds.
  assert (Sorted ts_le (map ds forecast)) as Hsorted
      by (rewrite Hds; apply sort_ts_sorted).
  split; [exact Hsorted|].
  apply sorted_window_block.
  apply Sorted_StronglySorted; [exact ts_le_transitive | exact Hsorted].
Qed.

(** The theorem at the forecast of the file of four months with a window
    from October to January. *)
Lemma window_is_a_block_witness :
  exists forecast before after,
    predict Samples.sample_libs
            (mkModel [] [])
            [Some (midnight (mkDate 2023 12 1)); Some (midnight (mkDate 2023 9 1));
             Some (midnight (mkDate 2024 2 1)); Some (midnight (mkDate 2023 10 1))]
    = Ok forecast /\
    forecast
    = before
      ++ filter_window forecast (Some (midnight (mkDate 2023 10 1)))
                       (Some (midnight (mkDate 2024 1 1)))
      ++ after /\
    List.length before = 1%nat /\ List.length after = 1%nat.
Proof.
  eexists. 
  destruct (window_is_a_block Samples.sample_libs (mkModel [] [])
              [Some (midnight (mkDate 2023 12 1)); Some (midnight (mkDate 2023 9 1));
               Some (midnight (mkDate 2024 2 1)); Some (midnight (mkDate 2023 10 1))]
              _ (midnight (mkDate 2023 10 1)) (midnight (mkDate 2024 1 1)) eq_refl)
    as (_ & before & after & Hsplit & _).
  exists [mkRecord (midnight (mkDate 2023 9 1)) Samples.flat_prediction],
         [mkRecord (midnight (mkDate 2024 2 1)) Samples.flat_prediction].
  repeat split; reflexivity.
Defined.

(** *** The window and the months ahead *)

Lemma earlier_month a b :
  1 <= month (ts_date a) <= 12 -> 1 <= month (ts_date b) <= 12 ->
  month_index (ts_date a) < month_index (ts_date b) ->
  ts_le a b.
Proof. unfold ts_le, month_index. cbn. lia. Qed.

Lemma same_month a b :
  1 <= month (ts_date a) <= 12 -> 1 <= month (ts_date b) <= 12 ->
  month_index (ts_date a) = month_index (ts_date b) ->
  day (ts_date a) <= day (ts_date b) ->
  ts_nanos a <= ts_nanos b ->
  ts_le a b.
Proof. unfold ts_le, month_index. cbn. lia. Qed.

Lemma filter_map_records {A B} (f : A -> B) (g : B -> bool) l :
  filter g (map f l) = map f (filter (fun a => g (f a)) l).
Proof.
  induction l as [| a l IH]; [reflexivity|].
  cbn. destruct (g (f a)); cbn; rewrite IH; reflexivity.
Qed.

Lemma start_of_some last s :
  start_of (Some last) = Ok (Some s) ->
  s = mkTs (add_months (ts_date last) (-5)) (ts_nanos last).
Proof.
  unfold start_of, DateOffset_sub. cbn [Z.opp].
  destruct (DateOffset_apply last (-5)) as [r |] eqn:E; cbn [rbind]; [| discriminate].
  intros [= <-]. exact (DateOffset_apply_some _ _ _ E).
Qed.

Lemma end_of_some last e :
  end_of (Some last) = Ok (Some e) ->
  e = mkTs (add_months (ts_date last) 3) (ts_nanos last).
Proof.
  unfold end_of, DateOffset_add.
  destruct (DateOffset_apply last 3) as [r |] eqn:E; cbn [rbind]; [| discriminate].
  intros [= <-]. exact (DateOffset_apply_some _ _ _ E).
Qed.

(** Lines 78 to 90.  The window never cuts the forecast at its upper end:
    the three month starts that [make_future_dataframe] adds lie within
    three calendar months of the last date, so every record of the
    forecast is at or before [end_date].  The window holds the distinct
    dates of the input from [start_date] on, the last date among them,
    and then the three records of the months ahead. *)
Theorem window_keeps_the_months_ahead
        (libs : Libs) (df_prophet : DataFrame) (y : Column)
        (items : list (option Timestamp)) (ys : list (option Q))
        (last start_date end_date : Timestamp) :
  getitem df_prophet "y" = Ok y ->
  getitem df_prophet "ds" = Ok (Datetime64 items) ->
  (2 <= observations y)%nat ->
  to_numeric y = Ok ys ->
  forallb is_some items = true ->
  constant (map snd (training_rows y items ys)) = true \/
  stan_fit libs (training_rows y items ys) = Ok tt ->
  Pandas.max items = Some last ->
  forallb in_bounds (generate_range (rollforward last) 4) = true ->
  valid_date (ts_date last) = true ->
  start_of (Some last) = Ok (Some start_date) ->
  end_of (Some last) = Ok (Some end_date) ->
  exists forecast,
    forecast_of libs df_prophet = Ok forecast /\
    (forall r, In r forecast -> ts_le (ds r) end_date) /\
    map ds (filter_window forecast (Some start_date) (Some end_date))
    = filter (fun t => ts_leb start_date t) (sort_ts (unique (somes items)))
      ++ [ MonthBegin_next last;
           MonthBegin_next (MonthBegin_next last);
           MonthBegin_next (MonthBegin_next (MonthBegin_next last)) ] /\
    In last (filter (fun t => ts_leb start_date t) (sort_ts (unique (somes items)))).
Proof.
  intros Hy Hd Hn Hys Hall Hfit Hmax Hbounds Hvalid Hstart Hend.
  destruct (forecast_of_dates libs _ _ _ _ _ Hy Hd Hn Hys Hall Hfit Hmax Hbounds)
    as [Hforecast _].
  apply start_of_some in Hstart. apply end_of_some in Hend.
  destruct (add_months_spec (ts_date last) (-5) Hvalid ltac:(lia)) as (Hv5 & Hi5 & _).
  destruct (add_months_spec (ts_date last) 3 Hvalid ltac:(lia)) as (Hv3 & Hi3 & _).
  apply valid_date_spec in Hv5, Hv3. pose proof Hvalid as Hvl.
  apply valid_date_spec in Hvl. destruct Hvl as [Hml _].
  destruct Hv5 as [Hm5 _]. destruct Hv3 as [Hm3 Hd3].
  set (n1 := MonthBegin_next last) in *.
  set (n2 := MonthBegin_next n1) in *.
  set (n3 := MonthBegin_next n2) in *.
  destruct (MonthBegin_next_spec last) as (Hd1 & Hn1 & Hx1). fold n1 in Hd1, Hn1, Hx1.
  destruct (Hx1 Hml) as [Hi1 Hm1].
  destruct (MonthBegin_next_spec n1) as (Hd2 & Hn2 & Hx2). fold n2 in Hd2, Hn2, Hx2.
  destruct (Hx2 Hm1) as [Hi2 Hm2].
  destruct (MonthBegin_next_spec n2) as (Hd3' & Hn3 & Hx3). fold n3 in Hd3', Hn3, Hx3.
  destruct (Hx3 Hm2) as [Hi3' Hm3'].
  assert (ts_le start_date last) as Hsl
      by (subst start_date; apply earlier_month; cbn [ts_date]; lia).
  assert (ts_le last end_date) as Hle
      by (subst end_date; apply earlier_month; cbn [ts_date]; lia).
  assert (ts_le n1 end_date) as H1e
      by (subst end_date; apply earlier_month; cbn [ts_date]; lia).
  assert (ts_le n2 end_date) as H2e
      by (subst end_date; apply earlier_month; cbn [ts_date]; lia).
  assert (ts_le n3 end_date) as H3e
      by (subst end_date; apply same_month; cbn [ts_date ts_nanos]; lia).
  assert (ts_le last n1) as Hl1 by (apply earlier_month; lia).
  assert (ts_le last n2) as Hl2 by (apply earlier_month; lia).
  assert (ts_le last n3) as Hl3 by (apply earlier_month; lia).
  assert (forall t, In t (sort_ts (unique (somes items))) -> ts_le t last) as Hhist.
  { intros t Ht. apply (Permutation_in _ (sort_ts_perm _)) in Ht.
    apply unique_in, in_somes in Ht. exact (proj2 (max_spec _ _ Hmax) t Ht). }
  assert (In last (sort_ts (unique (somes items)))) as Hlast.
  { apply (Permutation_in _ (Permutation_sym (sort_ts_perm _))).
    apply unique_in, in_somes. exact (proj1 (max_spec _ _ Hmax)). }
  eexists. split; [exact Hforecast|].
  split; [| split].
  - intros r Hr. apply in_map_iff in Hr. destruct Hr as (t & <- & Ht). cbn [ds].
    apply in_app_or in Ht. destruct Ht as [Ht | Ht].
    + apply (ts_le_trans _ last); [apply Hhist; exact Ht | exact Hle].
    + destruct Ht as [<- | [<- | [<- | []]]]; assumption.
  - unfold filter_window. rewrite filter_map_records, map_map. cbn [ds ge le].
    rewrite map_id, filter_app. f_equal.
    + apply filter_ext_in. intros t Ht.
      assert (ts_leb t end_date = true) as ->
          by (apply ts_leb_le, (ts_le_trans _ last); [apply Hhist; exact Ht | exact Hle]).
      apply andb_true_r.
    + cbn [filter].
      rewrite (proj2 (ts_leb_le start_date n1) (ts_le_trans _ _ _ Hsl Hl1)).
      rewrite (proj2 (ts_leb_le start_date n2) (ts_le_trans _ _ _ Hsl Hl2)).
      rewrite (proj2 (ts_leb_le start_date n3) (ts_le_trans _ _ _ Hsl Hl3)).
      rewrite (proj2 (ts_leb_le n1 end_date) H1e), (proj2 (ts_leb_le n2 end_date) H2e),
        (proj2 (ts_leb_le n3 end_date) H3e).
      reflexivity.
  - apply filter_In. split; [exact Hlast | apply ts_leb_le; exact Hsl].
Qed.

(** The theorem at the prepared frame of the file of four months, whose
    window runs from July 2023 to March 2024. *)
Lemma window_keeps_the_months_ahead_witness :
  start_of (Some (midnight (mkDate 2023 12 1))) = Ok (Some (midnight (mkDate 2023 7 1))) /\
  end_of (Some (midnight (mkDate 2023 12 1))) = Ok (Some (midnight (mkDate 2024 3 1))) /\
  exists forecast,
    forecast_of Samples.sample_libs monthly_frame = Ok forecast /\
    map ds (filter_window forecast (Some (midnight (mkDate 2023 7 1)))
                          (Some (midnight (mkDate 2024 3 1))))
    = [ midnight (mkDate 2023 9 1); midnight (mkDate 2023 10 1);
        midnight (mkDate 2023 11 1); midnight (mkDate 2023 12 1);
        midnight (mkDate 2024 1 1); midnight (mkDate 2024 2 1);
        midnight (mkDate 2024 3 1) ].
Proof.
  split; [reflexivity|]. split; [reflexivity|].
  destruct (window_keeps_the_months_ahead
              Samples.sample_libs monthly_frame (Int64 [1; 5; 6; 7])
              [Some (midnight (mkDate 2023 9 1)); Some (midnight (mkDate 2023 10 1));
               Some (midnight (mkDate 2023 11 1)); Some (midnight (mkDate 2023 12 1))]
              [Some (inject_Z 1); Some (inject_Z 5); Some (inject_Z 6); Some (inject_Z 7)]
              (midnight (mkDate 2023 12 1))
              (midnight (mkDate 2023 7 1)) (midnight (mkDate 2024 3 1))
              eq_refl eq_refl ltac:(cbn; lia) eq_refl eq_refl
              (or_intror eq_refl) eq_refl eq_refl eq_refl eq_refl eq_refl)
    as (forecast & Hf & _ & Hds & _).
  exists forecast. split; [exact Hf|]. rewrite Hds. reflexivity.
Defined.

End MoreWindowFacts.

(** ** Further properties of the export table and of the dates in it *)

Module MoreExportFacts.
Import Calendar Notions MoreNotions CalendarFacts DateText DateTextFacts.
Import Pandas Prophet App ScriptFacts FrameFacts RunFacts ParsingFacts ErrorFacts.

(** Lines 91 and 94.  The export table has one row for each record of the
    window, in the same order, with the three numbers of the record
    unchanged; and for records with well-formed timestamps every [Date]
    is a text of ten characters with a slash in the third and in the
    sixth place. *)
Theorem export_rows_are_dated (window : list ForecastRecord) :
  (forall r, In r window -> valid_ts (ds r) = true) ->
  List.length (export window) = List.length window /\
  map snd (export window) = map prediction window /\
  forall row, In row (export window) ->
              String.length (fst row) = 10%nat /\
              String.get 2 (fst row) = Some "/"%char /\
              String.get 5 (fst row) = Some "/"%char.
Proof.
  intros Hvalid. unfold export.
  split; [apply length_map|]. split; [rewrite map_map; reflexivity|].
  intros row Hrow. apply in_map_iff in Hrow. destruct Hrow as (r & <- & Hr).
  cbn [fst].
  destruct (valid_ts_parts _ (Hvalid r Hr)) as [_ Hy].
  rewrite (strftime_dmY_shape _ Hy). cbv zeta. repeat split; reflexivity.
Qed.

(** The theorem at a window of one record. *)
Lemma export_rows_are_dated_witness :
  export one_record = [("03/04/2024", Samples.flat_prediction)] /\
  List.length (export one_record) = 1%nat.
Proof.
  split; [reflexivity|].
  destruct (export_rows_are_dated one_record) as (Hlen & _).
  - intros r [<- | []]. reflexivity.
  - exact Hlen.
Defined.

(** What the delimited-date parser makes of a text written by
    [strftime('%d/%m/%Y')], for either value of [dayfirst]. *)
Lemma parse_strftime_any t dayfirst :
  valid_date (ts_date t) = true ->
  1000 <= year (ts_date t) <= 9999 ->
  parse_delimited_date (strftime_dmY t) dayfirst
  = if ((12 <? day (ts_date t)) || dayfirst)%bool
    then DateOf (ts_date t)
    else DateOf (mkDate (year (ts_date t)) (day (ts_date t)) (month (ts_date t))).
Proof.
  intros Hv Hy. pose proof Hv as Hv'. apply valid_date_spec in Hv'.
  destruct Hv' as [Hm Hd].
  pose proof (days_in_month_range (year (ts_date t)) (month (ts_date t))) as Hr.
  rewrite (strftime_dmY_shape t Hy). cbv zeta.
  unfold parse_delimited_date. rewrite read_fields_ten.
  cbn [f_month f_day f_year can_swap].
  destruct (ts_date t) as [y m d]. cbn [year month day] in *.
  assert (forall k, 0 <= k mod 10 <= 9) as Hmod
      by (intros k; pose proof (Z.mod_pos_bound k 10); lia).
  assert (forall k q, 0 < q -> 0 <= k < 10 * q -> 0 <= k / q <= 9) as Hdiv.
  { intros k q Hq Hk. split; [apply Z.div_pos; lia|].
    apply Z.lt_succ_r, Z.div_lt_upper_bound; lia. }
  rewrite !getdigit_digit_char by (first [ apply Hmod | apply Hdiv; lia ]).
  assert (d / 10 * 10 + d mod 10 * 1 = d) as -> by (pose proof (Z.div_mod d 10); lia).
  assert (m / 10 * 10 + m mod 10 * 1 = m) as -> by (pose proof (Z.div_mod m 10); lia).
  assert (y / 1000 * 1000 + y / 100 mod 10 * 100 + y / 10 mod 10 * 10 + y mod 10 * 1 = y)
    as ->.
  { pose proof (Z.div_mod y 10 ltac:(lia)).
    pose proof (Z.div_mod (y / 10) 10 ltac:(lia)).
    pose proof (Z.div_mod (y / 100) 10 ltac:(lia)).
    pose proof (div_10_10 y). pose proof (div_100_10 y).
    lia. }
  unfold MAX_DAYS_IN_MONTH, MAX_MONTH.
  assert (valid_date (mkDate y d m) = true \/ 12 < d) as Hswapped.
  { destruct (Z.ltb_spec 12 d); [right; assumption | left].
    apply valid_date_spec. cbn [year month day].
    pose proof (days_in_month_range y d). lia. }
  destruct dayfirst;
    repeat match goal with
           | |- context [?a <? ?b] => destruct (Z.ltb_spec a b); try lia
           | |- context [?a <=? ?b] => destruct (Z.leb_spec a b); try lia
           end; cbn [orb andb negb];
    try (rewrite Hv; reflexivity).
  destruct Hswapped as [-> | ?]; [reflexivity | lia].
Qed.

(** Lines 45 and 91.  Why the flag of line 45 matters for the dates the
    script itself writes: read month first ([dayfirst=False]), a [Date]
    of the export table whose day is at most 12 comes back with day and
    month exchanged, and one whose day is after the 12th comes back as
    written. *)
Theorem export_date_read_month_first (t : Timestamp) :
  valid_ts t = true ->
  (day (ts_date t) <= 12 ->
   parse_delimited_date (strftime_dmY t) false
   = DateOf (mkDate (year (ts_date t)) (day (ts_date t)) (month (ts_date t)))) /\
  (12 < day (ts_date t) ->
   parse_delimited_date (strftime_dmY t) false = DateOf (ts_date t)).
Proof.
  intros H. destruct (valid_ts_parts _ H) as [Hv Hy].
  rewrite (parse_strftime_any t false Hv Hy). rewrite orb_false_r.
  split; intros Hd; destruct (Z.ltb_spec 12 (day (ts_date t))); try lia; reflexivity.
Qed.

(** The theorem at the third of April and at the 25th of December. *)
Lemma export_date_read_month_first_witness :
  parse_delimited_date (strftime_dmY april3_midnight) false
  = DateOf (mkDate 2024 3 4) /\
  parse_delimited_date (strftime_dmY christmas) false
  = DateOf (mkDate 2024 12 25).
Proof.
  split.
  - apply (proj1 (export_date_read_month_first april3_midnight eq_refl)). cbn. lia.
  - apply (proj2 (export_date_read_month_first christmas eq_refl)). cbn. lia.
Defined.

(** *** The download and the table shown *)

Lemma not_in_loaded_page df label data file_name mime rows :
  ~ In (st_download_button label data file_name mime) (loaded_page df) /\
  ~ In (st_dataframe_export rows) (loaded_page df).
Proof.
  unfold loaded_page, preamble, selection. cbn.
  split; intros H; repeat (destruct H as [H | H]; [discriminate|]); exact H.
Qed.

(** Lines 94 to 113.  Whenever a run offers a download, the file offered
    is the spreadsheet of the very rows of the table shown on the page,
    under the name [forecast.xlsx]. *)
Theorem download_is_the_table_shown
        (libs : Libs) (raw : list (string * list Cell)) (date_col y_col : string)
        (label data file_name mime : string) :
  In (st_download_button label data file_name mime)
     (page (run libs (confirm raw date_col y_col))) ->
  file_name = "forecast.xlsx" /\
  exists rows,
    In (st_dataframe_export rows) (page (run libs (confirm raw date_col y_col))) /\
    to_excel libs rows = Ok data.
Proof.
  rewrite run_confirm, on_confirm_eq, process_eq.
  pose proof (not_in_loaded_page (read_csv raw) label data file_name mime) as Hloaded.
  assert (forall out,
             In (st_download_button label data file_name mime)
                (loaded_page (read_csv raw) ++ out) ->
             In (st_download_button label data file_name mime) out) as Hout.
  { intros out H. apply in_app_or in H. destruct H as [H | H]; [| exact H].
    exfalso. exact (proj1 (Hloaded []) H). }
  destruct (converted libs (read_csv raw) date_col) as [df' | e].
  2: { cbn [page]. intros H. apply Hout in H. cbn in H. intuition discriminate. }
  destruct (prepare libs df' date_col y_col) as [df_prophet | e].
  2: { cbn [page]. intros H. apply Hout in H. cbn in H. intuition discriminate. }
  destruct (getitem df_prophet "y") as [y | e].
  2: { cbn [page]. intros H. apply Hout in H. cbn in H. intuition discriminate. }
  destruct (is_numeric_dtype y).
  2: { cbn [page]. intros H. apply Hout in H. cbn in H. intuition discriminate. }
  rewrite forecast_and_report_eq.
  destruct (window_stage libs df_prophet) as [[[forecast start_date] end_date] | e].
  2: { cbn [page]. intros H. apply Hout in H. cbn in H. intuition discriminate. }
  cbv zeta.
  destruct (to_excel libs (export (filter_window forecast start_date end_date)))
    as [bytes | e] eqn:Hexcel.
  2: { cbn [page]. intros H. apply Hout in H. cbn in H. intuition discriminate. }
  destruct (plot_raises libs) as [e |];
    [| destruct (plot_components_raises libs) as [e |]];
    cbn [page]; intros H; apply Hout in H; unfold preview, report in H; cbn in H;
    repeat (destruct H as [H | H]; [try discriminate|]); try contradiction;
    injection H as Hl Hd Hf Hm; subst;
    (split; [reflexivity|]);
    exists (export (filter_window forecast start_date end_date));
    (split; [apply in_or_app; right; unfold preview, report; cbn; tauto | exact Hexcel]).
Qed.

(** The theorem at the run on the file of four months, whose download
    holds the workbook of the seven rows shown. *)
Lemma download_is_the_table_shown_witness :
  exists rows,
    In (st_dataframe_export rows)
       (page (run Samples.sample_libs (confirm monthly_raw "Date" "Calls"))) /\
    List.length rows = 7%nat /\
    to_excel Samples.sample_libs rows = Ok "xlsx".
Proof.
  assert (In (st_download_button "Download Forecast as Excel" "xlsx" "forecast.xlsx"
                                 xlsx_mime)
             (page (run Samples.sample_libs (confirm monthly_raw "Date" "Calls"))))
    as Hshown.
  { vm_compute. repeat (try (left; reflexivity); right). }
  destruct (download_is_the_table_shown Samples.sample_libs monthly_raw "Date" "Calls"
              _ _ _ _ Hshown) as (_ & rows & Hin & Hexcel).
  exists (export (filter_window
                    (map (fun t => mkRecord t Samples.flat_prediction)
                         [ midnight (mkDate 2023 9 1); midnight (mkDate 2023 10 1);
                           midnight (mkDate 2023 11 1); midnight (mkDate 2023 12 1);
                           midnight (mkDate 2024 1 1); midnight (mkDate 2024 2 1);
                           midnight (mkDate 2024 3 1) ])
                    (Some (midnight (mkDate 2023 7 1)))
                    (Some (midnight (mkDate 2024 3 1))))).
  split; [| split; reflexivity].
  vm_compute. repeat (try (left; reflexivity); right).
Defined.

End MoreExportFacts.

(** ** Further properties of the prepared frame *)

Module MoreSortingFacts.
Import Calendar Notions MoreNotions CalendarFacts Pandas Prophet App.
Import ScriptFacts FrameFacts SortingFacts.

Lemma take_column_length idx c :
  Permutation idx (seq 0 (col_length c)) ->
  col_length (take_column idx c) = col_length c.
Proof.
  destruct c as [l | l | l | l | l | l]; cbn [col_length take_column]; intros H;
    apply Permutation_length, take_permutation; exact H.
Qed.

(** Line 48.  Nothing is dropped when the frame is prepared: with two
    different labels, columns of the same number of rows and numpy's
    quicksort for [argsort], both columns of [df_prophet] have as many
    rows as the loaded columns, rows with a missing date or a missing
    value included. *)
Theorem prepared_frame_keeps_every_row
        (libs : Libs) (df : DataFrame) (date_col y_col : string)
        (col cy : Column) (items : list (option Timestamp)) :
  date_col <> y_col ->
  getitem df date_col = Ok col ->
  to_datetime_items libs true col = Ok items ->
  getitem df y_col = Ok cy ->
  col_length cy = col_length col ->
  argsort libs = Numpy.aquicksort ->
  exists dates values,
    prepare libs (setitem df date_col (Datetime64 items)) date_col y_col
    = Ok [("ds", dates); ("y", values)] /\
    col_length dates = col_length col /\
    col_length values = col_length col /\
    is_numeric_dtype values = is_numeric_dtype cy.
Proof.
  intros Hne Hcol Hitems Hy Hlen Hnumpy.
  assert (sorted_permutation (somes items) (argsort libs (somes items)) = true) as Hsort
      by (rewrite Hnumpy; apply NumpyFacts.aquicksort_sorts).
  destruct (nargsort_spec libs items Hsort) as (Hperm & _).
  pose proof (MoreRunFacts.to_datetime_items_length libs true col items Hitems) as Hrows.
  exists (Datetime64 (take (nargsort libs items) items)),
         (take_column (nargsort libs items) cy).
  split.
  { apply prepare_distinct; [exact Hne | exact (setitem_getitem _ _ _ _ Hcol) |].
    rewrite setitem_getitem_other by congruence. exact Hy. }
  split; [| split].
  - cbn [col_length]. rewrite <- Hrows.
    apply Permutation_length, take_permutation. exact Hperm.
  - rewrite take_column_length; [exact Hlen|]. rewrite Hlen, <- Hrows. exact Hperm.
  - apply take_column_numeric.
Qed.

(** The theorem at the frame with a missing date, which is kept (and
    sorted last). *)
Lemma prepared_frame_keeps_every_row_witness :
  exists dates values,
    prepare Samples.sample_libs
            (setitem frame_with_gap "Date"
                     (Datetime64 [Some christmas; None; Some april3_midnight]))
            "Date" "Calls"
    = Ok [("ds", dates); ("y", values)] /\
    col_length dates = 3%nat /\ col_length values = 3%nat.
Proof.
  destruct (prepared_frame_keeps_every_row
              Samples.sample_libs frame_with_gap "Date" "Calls"
              (Object [PyStr "25/12/2024"; PyNaN; PyStr "03/04/2024"])
              (Int64 [5; 6; 7])
              [Some christmas; None; Some april3_midnight]
              ltac:(discriminate) eq_refl eq_refl eq_refl eq_refl eq_refl)
    as (dates & values & Hprep & Hd & Hv & _).
  exists dates, values. split; [exact Hprep|]. split; [exact Hd | exact Hv].
Defined.

End MoreSortingFacts.
